(** * Elasticsearch time-series query translation

    A shallow embedding of [pkg/tsdb/elasticsearch/time_series_query.go]:
    the translation of a parsed panel [Query] into a nested aggregation
    request, together with the settings normalisation it performs on the
    way.  Go values are rendered as follows: [int] and [int64] as [Z]
    (64-bit platform), [string] as [string] (a byte sequence),
    [map[string]T] as [gmap string T], slices as [list], the dynamically
    typed [interface{}] payload of a [simplejson.Json] as the inductive
    [any], and [(T, error)] results as [option T] or [outcome T]. *)

From Stdlib Require Import ZArith String Ascii List Bool Lia.
From Stdlib Require Import Floats.SpecFloat.
From stdpp Require Import base option list strings gmap fin_maps.

Set Warnings "-register-all".
#[local] Open Scope string_scope.
#[local] Open Scope list_scope.
#[local] Open Scope Z_scope.

(** ** Errors, panics and the result of a fallible call *)

(** A Go [error] value, identified with its message. *)
Definition error := string.

(** The one run-time panic the translator can raise on its own. *)
Inductive panic : Type :=
| IndexOutOfRange (index : nat) (len : nat).

Inductive outcome (A : Type) : Type :=
| Ok (a : A)
| Err (e : error)
| Panic (p : panic).
Arguments Ok {A} a.
Arguments Err {A} e.
Arguments Panic {A} p.

#[global] Instance outcome_ret : MRet outcome := fun A a => Ok a.
#[global] Instance outcome_bind : MBind outcome := fun A B k m =>
  match m with
  | Ok a => k a
  | Err e => Err e
  | Panic p => Panic p
  end.

(** [(T, error)] returned by a collaborator: no panic of its own. *)
Definition lift {A} (r : error + A) : outcome A :=
  match r with
  | inl e => Err e
  | inr a => Ok a
  end.

(** [s[i]] on a slice: panics when [i] is out of range. *)
Definition index {A} (s : list A) (i : nat) : outcome A :=
  match nth_error s i with
  | Some a => Ok a
  | None => Panic (IndexOutOfRange i (length s))
  end.

(** ** strconv *)

Module strconv.

Definition digit (c : ascii) : option Z :=
  let n := Z.of_nat (nat_of_ascii c) in
  if (48 <=? n) && (n <=? 57) then Some (n - 48) else None.

Fixpoint digits (s : string) (acc : Z) : option Z :=
  match s with
  | EmptyString => Some acc
  | String c rest =>
      match digit c with
      | Some d => digits rest (acc * 10 + d)
      | None => None
      end
  end.

(** [strconv.ParseInt(s, 10, 64)]: an optional sign, then one or more
    decimal digits; a value outside the int64 range is an error. *)
Definition ParseInt (s : string) : option Z :=
  match s with
  | EmptyString => None
  | String c rest =>
      let '(neg, body) :=
        if Ascii.eqb c "+"%char then (false, rest)
        else if Ascii.eqb c "-"%char then (true, rest)
        else (false, s) in
      match body with
      | EmptyString => None
      | _ =>
          match digits body 0 with
          | Some un =>
              if neg then (if un <=? 2 ^ 63 then Some (- un) else None)
              else (if un <? 2 ^ 63 then Some un else None)
          | None => None
          end
      end
  end.

(** [strconv.Atoi]: [ParseInt(s, 10, 0)] with a 64-bit [int]. *)
Definition Atoi (s : string) : option Z := ParseInt s.

(** The floating-point side of [strconv] and the [float64]-to-[int]
    conversion are left abstract: the translator only depends on whether
    a string parses. *)
Class Float := {
  ParseFloat : string -> option spec_float;
  float64_to_int : spec_float -> Z
}.

End strconv.

(** ** strings *)

Module strings.

Definition code (c : ascii) : Z := Z.of_nat (nat_of_ascii c).

(** The white space of [unicode.IsSpace] below U+0080: tab, line feed,
    vertical tab, form feed, carriage return and space. *)
Definition asciiSpace (c : ascii) : bool :=
  ((9 <=? code c) && (code c <=? 13)) || (code c =? 32).

(** U+0085 and U+00A0 in UTF-8. *)
Definition space2 (c1 c2 : ascii) : bool :=
  (code c1 =? 194) && ((code c2 =? 133) || (code c2 =? 160)).

(** U+1680, U+2000 to U+200A, U+2028, U+2029, U+202F, U+205F and U+3000
    in UTF-8. *)
Definition space3 (c1 c2 c3 : ascii) : bool :=
  ((code c1 =? 225) && (code c2 =? 154) && (code c3 =? 128))
  || ((code c1 =? 226) && (code c2 =? 128)
      && (((128 <=? code c3) && (code c3 <=? 138))
          || (code c3 =? 168) || (code c3 =? 169) || (code c3 =? 175)))
  || ((code c1 =? 226) && (code c2 =? 129) && (code c3 =? 159))
  || ((code c1 =? 227) && (code c2 =? 128) && (code c3 =? 128)).

(** [len(strings.TrimSpace(s)) == 0]: the string, read as UTF-8, is made
    of white space only. *)
Fixpoint blank (s : string) : bool :=
  match s with
  | EmptyString => true
  | String c1 rest1 =>
      if asciiSpace c1 then blank rest1
      else
        match rest1 with
        | EmptyString => false
        | String c2 rest2 =>
            if space2 c1 c2 then blank rest2
            else
              match rest2 with
              | EmptyString => false
              | String c3 rest3 =>
                  if space3 c1 c2 c3 then blank rest3 else false
              end
        end
  end.

End strings.

(** ** simplejson *)

Module simplejson.

(** Modelled from the spec: package simplejson is outside the translated
    file.  Spec sections 3 and 9 describe the settings as an "opaque,
    loosely-typed Settings map (arbitrary dynamic JSON-like structure)"
    read by "runtime type-probing" and written by "path-based mutation of
    a generic document"; section 4 fixes what the probes answer (a default
    "when absent, unparseable", values "read as either integer or numeric
    string", absent values left untouched).  [Number] is [json.Number]
    (the literal as decoded), [Int64] stands for the Go integer kinds.  A
    Go [nil] map reads like the empty map. *)
Inductive any : Type :=
| Nil
| Bool (b : bool)
| Number (n : string)
| Float64 (f : spec_float)
| Int64 (i : Z)
| Str (s : string)
| Array (l : list any)
| Map (m : gmap string any).

Definition NewFromAny (m : gmap string any) : any := Map m.

(** [j.Map()] *)
Definition Map_ (j : any) : option (gmap string any) :=
  match j with
  | Map m => Some m
  | _ => None
  end.

(** [j.Get(key)]: a missing key, or a receiver that is no map, gives a
    [Json] holding [nil]. *)
Definition Get (key : string) (j : any) : any :=
  match Map_ j with
  | Some m =>
      match m !! key with
      | Some val => val
      | None => Nil
      end
  | None => Nil
  end.

Definition GetPath (branch : list string) (j : any) : any :=
  fold_left (fun jin p => Get p jin) branch j.

(** [j.String()] *)
Definition String_ (j : any) : option string :=
  match j with
  | Str s => Some s
  | _ => None
  end.

(** [j.Array()] *)
Definition Array_ (j : any) : option (list any) :=
  match j with
  | Array a => Some a
  | _ => None
  end.

(** [j.Int()] *)
Definition Int `{strconv.Float} (j : any) : option Z :=
  match j with
  | Number n => strconv.ParseInt n
  | Float64 f => Some (strconv.float64_to_int f)
  | Int64 i => Some i
  | _ => None
  end.

Definition MustInt `{strconv.Float} (def : Z) (j : any) : Z :=
  default def (Int j).

Definition MustString (def : string) (j : any) : string :=
  default def (String_ j).

Definition MustArray (j : any) : list any :=
  default [] (Array_ j).

Definition MustMap (j : any) : gmap string any :=
  default ∅ (Map_ j).

(** The loop of [SetPath] below the root: walk [branch], replacing every
    missing or non-map intermediate value by a fresh map, and store [val]
    under the last key. *)
Fixpoint setIn (branch : list string) (val : any) (curr : gmap string any)
  : gmap string any :=
  match branch with
  | [] => curr
  | [k] => <[k := val]> curr
  | b :: rest =>
      let n := match curr !! b with
               | Some (Map n) => n
               | _ => ∅
               end in
      <[b := Map (setIn rest val n)]> curr
  end.

(** [j.SetPath(branch, val)] *)
Definition SetPath (branch : list string) (val : any) (j : any) : any :=
  match branch with
  | [] => val
  | _ => Map (setIn branch val (MustMap j))
  end.

End simplejson.
Export simplejson.
Import strconv.

(** ** The query model (models.go) *)

(** Modelled from the spec: the declarations of [Query], [BucketAgg] and
    [MetricAgg] are outside the translated file; the fields are those of
    the data model (spec section 3) that [time_series_query.go] reads. *)
Module BucketAgg.
Record t : Type := mk {
  Field : string;
  ID : string;
  Settings : any;
  Type_ : string
}.
Definition setSettings (s : any) (b : t) : t :=
  {| Field := Field b; ID := ID b; Settings := s; Type_ := Type_ b |}.
End BucketAgg.

Module MetricAgg.
Record t : Type := mk {
  Field : string;
  ID : string;
  PipelineAggregate : string;
  PipelineVariables : gmap string string;
  Settings : any;
  Type_ : string
}.
Definition setSettings (s : any) (m : t) : t :=
  {| Field := Field m; ID := ID m;
     PipelineAggregate := PipelineAggregate m;
     PipelineVariables := PipelineVariables m;
     Settings := s; Type_ := Type_ m |}.
End MetricAgg.

Module Query.
Record t : Type := mk {
  RawQuery : string;
  BucketAggs : list BucketAgg.t;
  Metrics : list MetricAgg.t;
  Interval : string;
  RefID : string;
  MaxDataPoints : Z
}.
Definition setBucketAggs (bs : list BucketAgg.t) (q : t) : t :=
  {| RawQuery := RawQuery q; BucketAggs := bs; Metrics := Metrics q;
     Interval := Interval q; RefID := RefID q;
     MaxDataPoints := MaxDataPoints q |}.
Definition setMetrics (ms : list MetricAgg.t) (q : t) : t :=
  {| RawQuery := RawQuery q; BucketAggs := BucketAggs q; Metrics := ms;
     Interval := Interval q; RefID := RefID q;
     MaxDataPoints := MaxDataPoints q |}.
End Query.

(** Modelled from the spec: the aggregation type names are package
    constants declared next to the response parser; spec section 3
    enumerates them (date-histogram, histogram, filters, terms,
    geohash-grid, and the count metric). *)
Definition countType : string := "count".
Definition dateHistType : string := "date_histogram".
Definition histogramType : string := "histogram".
Definition filtersType : string := "filters".
Definition termsType : string := "terms".
Definition geohashGridType : string := "geohash_grid".

(** The three type tables of models.go, taken as parameters. *)
Class TypeTables := {
  isPipelineAgg : string -> bool;
  isPipelineAggWithMultipleBucketPaths : string -> bool;
  isMetricAggregationWithInlineScriptSupport : string -> bool
}.

(** ** The search-request builders (package es) *)

(** Modelled from the spec: package es (the client, its aggregation
    records and its request builders) is outside the translated file.  The
    records below have the fields that [time_series_query.go] assigns,
    with Go's zero values as defaults; spec section 4.2 lists the same
    options per aggregation type, and section 6 the "wire shape produced":
    "boolean filter clause with a date-range sub-filter ... and a
    query-string sub-filter; nested aggregation tree; zero or more
    metric/pipeline sub-aggregations at the innermost level". *)
Module es.

Definition DateFormatEpochMS : string := "epoch_millis".

Record ExtendedBounds : Type := { Min : Z; Max : Z }.

Module DateHistogramAgg.
Record t : Type := mk {
  Field : string;
  FixedInterval : string;
  MinDocCount : Z;
  Missing : option string;
  ExtendedBounds : option es.ExtendedBounds;
  Format : string;
  Offset : string;
  TimeZone : string
}.
End DateHistogramAgg.

Module HistogramAgg.
Record t : Type := mk {
  Interval : Z;
  Field : string;
  MinDocCount : Z;
  Missing : option Z
}.
End HistogramAgg.

Module TermsAggregation.
Record t : Type := mk {
  Field : string;
  Size : Z;
  Order : gmap string any;
  MinDocCount : option Z;
  Missing : option string
}.
End TermsAggregation.

Record QueryStringFilter : Type := {
  Query : string;
  AnalyzeWildcard : bool
}.

Module FiltersAggregation.
Record t : Type := mk { Filters : gmap string QueryStringFilter }.
End FiltersAggregation.

Module GeoHashGridAggregation.
Record t : Type := mk { Field : string; Precision : Z }.
End GeoHashGridAggregation.

Module MetricAggregation.
Record t : Type := mk {
  Type_ : string;
  Field : string;
  Settings : gmap string any
}.
End MetricAggregation.

Module PipelineAggregation.
Record t : Type := mk {
  BucketPath : any;
  Settings : gmap string any
}.
End PipelineAggregation.

(** The dynamically typed [Aggregation] field of an [aggContainer]. *)
Inductive aggregation : Type :=
| OfDateHistogram (a : DateHistogramAgg.t)
| OfHistogram (a : HistogramAgg.t)
| OfTerms (a : TermsAggregation.t)
| OfFilters (a : FiltersAggregation.t)
| OfGeoHashGrid (a : GeoHashGridAggregation.t)
| OfMetric (a : MetricAggregation.t)
| OfPipeline (a : PipelineAggregation.t).

Record aggContainer : Type := {
  Type_ : string;
  Aggregation : aggregation
}.

(** One node of the built aggregation tree: its key, what it computes,
    and the aggregations nested inside it. *)
Inductive Agg : Type :=
| MkAgg (Key : string) (container : aggContainer) (Aggs : list Agg).

(** Modelled from the spec: the implementation of the [AggBuilder]
    interface is outside the translated file.  Spec section 4.2 asks for
    "an aggregation tree handle positioned at the innermost level", and
    section 9 describes that "each aggregation-adding call rebinds an
    outer variable to the newly created nested scope".  The handle is the
    list of definitions added to the current scope together with the
    enclosing scopes still under construction, innermost first; each
    enclosing scope remembers what its own builder already held. *)
Record scope : Type := {
  siblings : list Agg;
  key : string;
  container : aggContainer
}.

Record AggBuilder : Type := {
  scopes : list scope;
  aggDefs : list Agg
}.

Definition newAggBuilder : AggBuilder := {| scopes := []; aggDefs := [] |}.

(** A definition without nested builder is appended to the current
    scope. *)
Definition append (key : string) (c : aggContainer) (B : AggBuilder)
  : AggBuilder :=
  {| scopes := scopes B; aggDefs := aggDefs B ++ [MkAgg key c []] |}.

(** A bucket definition opens a scope: the callback has filled the nested
    builder [b], and every callback of the translator ends with
    [aggBuilder = b], so the handle moves into [b]. *)
Definition nest (key : string) (c : aggContainer) (b B : AggBuilder)
  : AggBuilder :=
  {| scopes := scopes b ++
               {| siblings := aggDefs B; key := key; container := c |}
               :: scopes B;
     aggDefs := aggDefs b |}.

Definition Histogram (key field : string)
    (fn : HistogramAgg.t -> AggBuilder -> HistogramAgg.t * AggBuilder)
    (B : AggBuilder) : AggBuilder :=
  let innerAgg := HistogramAgg.mk 0 field 0 None in
  let '(innerAgg, builder) := fn innerAgg newAggBuilder in
  nest key {| Type_ := "histogram"; Aggregation := OfHistogram innerAgg |}
    builder B.

Definition DateHistogram (key field : string)
    (fn : DateHistogramAgg.t -> AggBuilder ->
          DateHistogramAgg.t * AggBuilder)
    (B : AggBuilder) : AggBuilder :=
  let innerAgg := DateHistogramAgg.mk field "" 0 None None "" "" "" in
  let '(innerAgg, builder) := fn innerAgg newAggBuilder in
  nest key {| Type_ := "date_histogram";
              Aggregation := OfDateHistogram innerAgg |} builder B.

Definition termsOrderTerm : string := "_term".

(** What [Terms] of package es does to the order once the callback has
    run: an order by the terms themselves, given as [_term], is moved to
    [_key], the name Elasticsearch knows it by; any other order stays.
    The spec does not speak of this step of the builder. *)
Definition renameTermOrder (order : gmap string any) : gmap string any :=
  match order !! termsOrderTerm with
  | Some orderBy => delete termsOrderTerm (<["_key" := orderBy]> order)
  | None => order
  end.

Definition Terms (key field : string)
    (fn : TermsAggregation.t -> AggBuilder ->
          TermsAggregation.t * AggBuilder)
    (B : AggBuilder) : AggBuilder :=
  let innerAgg := TermsAggregation.mk field 0 ∅ None None in
  let '(innerAgg, builder) := fn innerAgg newAggBuilder in
  nest key {| Type_ := "terms";
              Aggregation :=
                OfTerms (TermsAggregation.mk
                           (TermsAggregation.Field innerAgg)
                           (TermsAggregation.Size innerAgg)
                           (renameTermOrder (TermsAggregation.Order innerAgg))
                           (TermsAggregation.MinDocCount innerAgg)
                           (TermsAggregation.Missing innerAgg)) |}
    builder B.

Definition Filters (key : string)
    (fn : FiltersAggregation.t -> AggBuilder ->
          FiltersAggregation.t * AggBuilder)
    (B : AggBuilder) : AggBuilder :=
  let innerAgg := FiltersAggregation.mk ∅ in
  let '(innerAgg, builder) := fn innerAgg newAggBuilder in
  nest key {| Type_ := "filters"; Aggregation := OfFilters innerAgg |}
    builder B.

Definition GeoHashGrid (key field : string)
    (fn : GeoHashGridAggregation.t -> AggBuilder ->
          GeoHashGridAggregation.t * AggBuilder)
    (B : AggBuilder) : AggBuilder :=
  let innerAgg := GeoHashGridAggregation.mk field 0 in
  let '(innerAgg, builder) := fn innerAgg newAggBuilder in
  nest key {| Type_ := "geohash_grid";
              Aggregation := OfGeoHashGrid innerAgg |} builder B.

(** [fn] may be [nil]. *)
Definition Metric (key metricType field : string)
    (fn : option (MetricAggregation.t -> MetricAggregation.t))
    (B : AggBuilder) : AggBuilder :=
  let innerAgg := MetricAggregation.mk metricType field ∅ in
  let innerAgg := match fn with
                  | Some fn => fn innerAgg
                  | None => innerAgg
                  end in
  append key {| Type_ := metricType; Aggregation := OfMetric innerAgg |} B.

Definition Pipeline (key pipelineType : string) (bucketPath : any)
    (fn : option (PipelineAggregation.t -> PipelineAggregation.t))
    (B : AggBuilder) : AggBuilder :=
  let innerAgg := PipelineAggregation.mk bucketPath ∅ in
  let innerAgg := match fn with
                  | Some fn => fn innerAgg
                  | None => innerAgg
                  end in
  append key {| Type_ := pipelineType;
                Aggregation := OfPipeline innerAgg |} B.

(** Closing one scope around the definitions built inside it. *)
Definition close (inner : list Agg) (s : scope) : list Agg :=
  siblings s ++ [MkAgg (key s) (container s) inner].

(** [Build]: the tree seen from the root builder. *)
Definition Build (B : AggBuilder) : list Agg :=
  fold_left close (scopes B) (aggDefs B).

(** Filters of the boolean query, as they were added. *)
Inductive Filter : Type :=
| RangeFilter (key : string) (lte gte : Z) (format : string)
| QueryString (query : string) (analyzeWildcard : bool).

Record Interval : Type := { Text : string; Value : Z }.

(** The state of one [SearchRequestBuilder]: what the translator has
    asked of it. *)
Module SearchRequestBuilder.
Record t : Type := mk {
  interval : Interval;
  size : Z;
  sort : list (string * string);
  docValueFields : list string;
  highlight : bool;
  filters : list Filter;
  aggBuilders : list AggBuilder
}.
Definition new (i : Interval) : t := mk i 0 [] [] false [] [].
Definition Size (n : Z) (b : t) : t :=
  mk (interval b) n (sort b) (docValueFields b) (highlight b)
     (filters b) (aggBuilders b).
Definition SortDesc (field unmappedType : string) (b : t) : t :=
  mk (interval b) (size b) (sort b ++ [(field, unmappedType)])
     (docValueFields b) (highlight b) (filters b) (aggBuilders b).
Definition AddDocValueField (field : string) (b : t) : t :=
  mk (interval b) (size b) (sort b) (docValueFields b ++ [field])
     (highlight b) (filters b) (aggBuilders b).
Definition AddHighlight (b : t) : t :=
  mk (interval b) (size b) (sort b) (docValueFields b) true
     (filters b) (aggBuilders b).
Definition AddFilter (f : Filter) (b : t) : t :=
  mk (interval b) (size b) (sort b) (docValueFields b) (highlight b)
     (filters b ++ [f]) (aggBuilders b).
(** [b.Query().Bool().Filter().AddDateRangeFilter] *)
Definition AddDateRangeFilter (timeField : string) (lte gte : Z)
    (format : string) (b : t) : t :=
  AddFilter (RangeFilter timeField lte gte format) b.
(** [b.Query().Bool().Filter().AddQueryStringFilter] of package es: a
    query string that is empty once its white space is trimmed adds no
    filter.  The spec does not speak of this case. *)
Definition AddQueryStringFilter (querystring : string)
    (analyzeWildcard : bool) (b : t) : t :=
  mk (interval b) (size b) (sort b) (docValueFields b) (highlight b)
     (filters b ++ (if strings.blank querystring then []
                    else [QueryString querystring analyzeWildcard]))
     (aggBuilders b).
(** [b.Agg()] hands out a fresh builder and keeps it; [setAgg] records
    the state that builder has reached. *)
Definition setAgg (a : AggBuilder) (b : t) : t :=
  mk (interval b) (size b) (sort b) (docValueFields b) (highlight b)
     (filters b) (aggBuilders b ++ [a]).
End SearchRequestBuilder.

(** The [MultiSearchRequestBuilder]: the requests of the batch so far. *)
Definition MultiSearchRequestBuilder : Type := list SearchRequestBuilder.t.

End es.

(** ** Collaborators of the translator *)

(** Modelled from the spec: the plugin SDK's [backend] types; spec section
    6 speaks of "a list of per-panel data-query specifications plus a
    shared time range" coming in and of a "response collection" keyed by
    reference ID going out. *)
Module backend.
(** [From] and [To] hold the instants as [UnixNano()]. *)
Record TimeRange : Type := { From : Z; To : Z }.

Record DataQuery : Type := {
  RefID : string;
  MaxDataPoints : Z;
  TimeRange_ : TimeRange;
  JSON : string
}.

(** Frames are produced by the response parser only; the translator
    itself fills in nothing but [Error]. *)
Record DataResponse : Type := { Error : option error }.

Record QueryDataResponse : Type := {
  Responses : gmap string DataResponse
}.
End backend.

(** Modelled from the spec: the [es.Client] interface is declared outside
    the translated file.  Spec section 6: "the subsystem calls three client
    operations -- get minimum interval for a given override, get configured
    time field name, and execute multi-search with the built batched body
    -- treating the client as an opaque capability".  It is an interface,
    so any implementation is a possible input.  [MultiSearch()] starts an
    empty batch; finalising the batch ([Build]) may fail (spec section
    4.5). *)
Class Client (Request Response : Type) := {
  GetMinInterval : string -> error + Z;
  GetTimeField : string;
  BuildMultiSearch : es.MultiSearchRequestBuilder -> error + Request;
  ExecuteMultisearch : Request -> error + Response
}.

(** ** time_series_query.go *)

Definition time_Millisecond : Z := 1000000.

(** [regexp.MustCompile(`^(\d+)`).FindString]: the leading decimal digits. *)
Fixpoint metricIdRegex_FindString (s : string) : string :=
  match s with
  | EmptyString => EmptyString
  | String c rest =>
      match digit c with
      | Some _ => String c (metricIdRegex_FindString rest)
      | None => EmptyString
      end
  end.

Section TimeSeriesQuery.

Context `{Float} `{TypeTables}.
Context {Request Response : Type} {client : Client Request Response}.

(** [intervalv2.Calculator.Calculate] *)
Variable Calculate : backend.TimeRange -> Z -> Z -> es.Interval.
(** [parseQuery] and [parseResponse] live in sibling files. *)
Variable parseQuery : list backend.DataQuery -> error + list Query.t.
Variable parseResponse :
  Response -> list Query.t -> error + backend.QueryDataResponse.

(** The receiver of [execute] and [processQuery]; its [client] and
    [intervalCalculator] fields are the context of this section. *)
Record timeSeriesQuery : Type := {
  dataQueries : list backend.DataQuery
}.

Definition setFloatPath (path : list string) (settings : any) : any :=
  match String_ (GetPath path settings) with
  | Some stringValue =>
      match ParseFloat stringValue with
      | Some value => SetPath path (Float64 value) settings
      | None => settings
      end
  | None => settings
  end.

Definition setIntPath (path : list string) (settings : any) : any :=
  match String_ (GetPath path settings) with
  | Some stringValue =>
      match ParseInt stringValue with
      | Some value => SetPath path (Int64 value) settings
      | None => settings
      end
  | None => settings
  end.

(** The script part of [MetricAgg.generateSettingsForDSL]. *)
Definition promoteScript (settings : any) : any :=
  let scriptValue :=
    match String_ (GetPath ["script"] settings) with
    | Some v => Some v
    | None =>
        (* the old format [script:{inline: "value"}], or not set *)
        String_ (GetPath ["script"; "inline"] settings)
    end in
  match scriptValue with
  | Some scriptValue => SetPath ["script"] (Str scriptValue) settings
  | None => settings
  end.

(** [MetricAgg.generateSettingsForDSL]: the receiver is a copy, but its
    [Settings] is a pointer, so the document is updated in place; the
    first component is the document afterwards, the second the map
    returned. *)
Definition MetricAgg_generateSettingsForDSL (metricAggregation : MetricAgg.t)
  : any * gmap string any :=
  let settings := MetricAgg.Settings metricAggregation in
  let settings :=
    if String.eqb (MetricAgg.Type_ metricAggregation) "moving_avg" then
      let settings := setFloatPath ["window"] settings in
      let settings := setFloatPath ["predict"] settings in
      let settings := setFloatPath ["settings"; "alpha"] settings in
      let settings := setFloatPath ["settings"; "beta"] settings in
      let settings := setFloatPath ["settings"; "gamma"] settings in
      setFloatPath ["settings"; "period"] settings
    else if String.eqb (MetricAgg.Type_ metricAggregation) "serial_diff" then
      setFloatPath ["lag"] settings
    else settings in
  let settings :=
    if isMetricAggregationWithInlineScriptSupport
         (MetricAgg.Type_ metricAggregation)
    then promoteScript settings
    else settings in
  (settings, MustMap settings).

Definition BucketAgg_generateSettingsForDSL (bucketAgg : BucketAgg.t)
  : any * gmap string any :=
  let settings := setIntPath ["min_doc_count"] (BucketAgg.Settings bucketAgg) in
  (settings, MustMap settings).

(** [bucketAgg.Settings = simplejson.NewFromAny(bucketAgg.generateSettingsForDSL())] *)
Definition normalizeBucketAgg (bucketAgg : BucketAgg.t) : BucketAgg.t :=
  BucketAgg.setSettings
    (NewFromAny (snd (BucketAgg_generateSettingsForDSL bucketAgg))) bucketAgg.

Definition addDateHistogramAgg (aggBuilder : es.AggBuilder)
    (bucketAgg : BucketAgg.t) (timeFrom timeTo : Z) (timeField : string)
  : es.AggBuilder :=
  let settings := BucketAgg.Settings bucketAgg in
  (* If no field is specified, use the time field *)
  let field := BucketAgg.Field bucketAgg in
  let field := if String.eqb field "" then timeField else field in
  es.DateHistogram (BucketAgg.ID bucketAgg) field
    (fun a b =>
       let FixedInterval := MustString "auto" (Get "interval" settings) in
       let MinDocCount := MustInt 0 (Get "min_doc_count" settings) in
       let ExtendedBounds := Some {| es.Min := timeFrom; es.Max := timeTo |} in
       let Format := MustString es.DateFormatEpochMS (Get "format" settings) in
       let FixedInterval :=
         if String.eqb FixedInterval "auto" then "$__interval_msms"
         else FixedInterval in
       let Offset :=
         match String_ (Get "offset" settings) with
         | Some offset => offset
         | None => es.DateHistogramAgg.Offset a
         end in
       let Missing :=
         match String_ (Get "missing" settings) with
         | Some missing => Some missing
         | None => es.DateHistogramAgg.Missing a
         end in
       let TimeZone :=
         match String_ (Get "timeZone" settings) with
         | Some timezone =>
             if negb (String.eqb timezone "utc") then timezone
             else es.DateHistogramAgg.TimeZone a
         | None => es.DateHistogramAgg.TimeZone a
         end in
       (es.DateHistogramAgg.mk (es.DateHistogramAgg.Field a) FixedInterval
          MinDocCount Missing ExtendedBounds Format Offset TimeZone, b))
    aggBuilder.

Definition addHistogramAgg (aggBuilder : es.AggBuilder)
    (bucketAgg : BucketAgg.t) : es.AggBuilder :=
  let settings := BucketAgg.Settings bucketAgg in
  es.Histogram (BucketAgg.ID bucketAgg) (BucketAgg.Field bucketAgg)
    (fun a b =>
       let Interval := MustInt 1000 (Get "interval" settings) in
       let MinDocCount := MustInt 0 (Get "min_doc_count" settings) in
       let Missing :=
         match Int (Get "missing" settings) with
         | Some missing => Some missing
         | None => es.HistogramAgg.Missing a
         end in
       (es.HistogramAgg.mk Interval (es.HistogramAgg.Field a) MinDocCount
          Missing, b))
    aggBuilder.

(** The [size] of a terms aggregation, as its callback computes it. *)
Definition termsSize (settings : any) : Z :=
  let Size :=
    match Int (Get "size" settings) with
    | Some size => size
    | None =>
        match String_ (Get "size" settings) with
        | Some size =>
            match Atoi size with
            | Some n => n
            | None => 500
            end
        | None => 500
        end
    end in
  if Size =? 0 then 500 else Size.

Definition addTermsAgg (aggBuilder : es.AggBuilder) (bucketAgg : BucketAgg.t)
    (metrics : list MetricAgg.t) : es.AggBuilder :=
  let settings := BucketAgg.Settings bucketAgg in
  es.Terms (BucketAgg.ID bucketAgg) (BucketAgg.Field bucketAgg)
    (fun a b =>
       let Size := termsSize settings in
       let MinDocCount :=
         match Int (Get "min_doc_count" settings) with
         | Some minDocCount => Some minDocCount
         | None => es.TermsAggregation.MinDocCount a
         end in
       let Missing :=
         match String_ (Get "missing" settings) with
         | Some missing => Some missing
         | None => es.TermsAggregation.Missing a
         end in
       let order := Str (MustString "desc" (Get "order" settings)) in
       let '(Order, b) :=
         match String_ (Get "orderBy" settings) with
         | Some orderBy =>
             (* {metricId}[bucket_path] for extended stats and
                percentiles, else {metricId}, _count, _term or _key *)
             let metricId := metricIdRegex_FindString orderBy in
             if 0 <? Z.of_nat (String.length metricId) then
               match List.find (fun m => String.eqb (MetricAgg.ID m) metricId)
                       metrics with
               | Some m =>
                   if String.eqb (MetricAgg.Type_ m) "count" then
                     (<["_count" := order]> (es.TermsAggregation.Order a), b)
                   else
                     (<[orderBy := order]> (es.TermsAggregation.Order a),
                      es.Metric (MetricAgg.ID m) (MetricAgg.Type_ m)
                        (MetricAgg.Field m) None b)
               | None => (es.TermsAggregation.Order a, b)
               end
             else (<[orderBy := order]> (es.TermsAggregation.Order a), b)
         | None => (es.TermsAggregation.Order a, b)
         end in
       (es.TermsAggregation.mk (es.TermsAggregation.Field a) Size Order
          MinDocCount Missing, b))
    aggBuilder.

(** The label-to-filter map collected by [addFiltersAgg]. *)
Definition collectFilters (settings : any) : gmap string es.QueryStringFilter :=
  fold_left
    (fun filters filter =>
       let query := MustString "" (Get "query" filter) in
       let label := MustString "" (Get "label" filter) in
       let label := if String.eqb label "" then query else label in
       <[label := {| es.Query := query; es.AnalyzeWildcard := true |}]> filters)
    (MustArray (Get "filters" settings)) ∅.

Definition addFiltersAgg (aggBuilder : es.AggBuilder) (bucketAgg : BucketAgg.t)
  : es.AggBuilder :=
  let filters := collectFilters (BucketAgg.Settings bucketAgg) in
  if 0 <? Z.of_nat (size filters) then
    es.Filters (BucketAgg.ID bucketAgg)
      (fun a b => (es.FiltersAggregation.mk filters, b)) aggBuilder
  else aggBuilder.

Definition addGeoHashGridAgg (aggBuilder : es.AggBuilder)
    (bucketAgg : BucketAgg.t) : es.AggBuilder :=
  es.GeoHashGrid (BucketAgg.ID bucketAgg) (BucketAgg.Field bucketAgg)
    (fun a b =>
       (es.GeoHashGridAggregation.mk (es.GeoHashGridAggregation.Field a)
          (MustInt 3 (Get "precision" (BucketAgg.Settings bucketAgg))), b))
    aggBuilder.

(** The [for _, bucketAgg := range q.BucketAggs] loop.  Every element is
    a pointer, so the normalised settings stay in the query: the second
    component is [q.BucketAggs] after the loop. *)
Fixpoint bucketAggsLoop (metrics : list MetricAgg.t) (from to : Z)
    (defaultTimeField : string) (bucketAggs : list BucketAgg.t)
    (aggBuilder : es.AggBuilder) : es.AggBuilder * list BucketAgg.t :=
  match bucketAggs with
  | [] => (aggBuilder, [])
  | bucketAgg :: rest =>
      let bucketAgg := normalizeBucketAgg bucketAgg in
      let type := BucketAgg.Type_ bucketAgg in
      let aggBuilder :=
        if String.eqb type dateHistType then
          addDateHistogramAgg aggBuilder bucketAgg from to defaultTimeField
        else if String.eqb type histogramType then
          addHistogramAgg aggBuilder bucketAgg
        else if String.eqb type filtersType then
          addFiltersAgg aggBuilder bucketAgg
        else if String.eqb type termsType then
          addTermsAgg aggBuilder bucketAgg metrics
        else if String.eqb type geohashGridType then
          addGeoHashGridAgg aggBuilder bucketAgg
        else aggBuilder in
      let '(aggBuilder, rest) :=
        bucketAggsLoop metrics from to defaultTimeField rest aggBuilder in
      (aggBuilder, bucketAgg :: rest)
  end.

(** The inner [for _, pipelineMetric := range q.Metrics] with its [break]:
    the first metric carrying the ID. *)
Definition appliedAgg (id : string) (metrics : list MetricAgg.t)
  : option MetricAgg.t :=
  List.find (fun pipelineMetric => String.eqb (MetricAgg.ID pipelineMetric) id)
    metrics.

(** The [bucketPaths] map filled while ranging over
    [m.PipelineVariables]. *)
Definition bucketPaths (metrics : list MetricAgg.t) (m : MetricAgg.t)
  : gmap string any :=
  map_fold
    (fun name pipelineAgg bucketPaths =>
       match Atoi pipelineAgg with
       | Some _ =>
           match appliedAgg pipelineAgg metrics with
           | Some appliedAgg =>
               if String.eqb (MetricAgg.Type_ appliedAgg) countType then
                 <[name := Str "_count"]> bucketPaths
               else
                 <[name := Str pipelineAgg]> bucketPaths
           | None => bucketPaths
           end
       | None => bucketPaths
       end)
    ∅ (MetricAgg.PipelineVariables m).

(** [a.Settings = m.generateSettingsForDSL()] inside a builder callback:
    the node receives the returned map, and the metric keeps the document
    as updated. *)
Definition emitPipeline (m : MetricAgg.t) (bucketPath : any)
    (aggBuilder : es.AggBuilder) : es.AggBuilder * MetricAgg.t :=
  let '(settings, dsl) := MetricAgg_generateSettingsForDSL m in
  (es.Pipeline (MetricAgg.ID m) (MetricAgg.Type_ m) bucketPath
     (Some (fun a => es.PipelineAggregation.mk
                       (es.PipelineAggregation.BucketPath a) dsl))
     aggBuilder,
   MetricAgg.setSettings settings m).

Definition emitMetric (m : MetricAgg.t) (aggBuilder : es.AggBuilder)
  : es.AggBuilder * MetricAgg.t :=
  let '(settings, dsl) := MetricAgg_generateSettingsForDSL m in
  (es.Metric (MetricAgg.ID m) (MetricAgg.Type_ m) (MetricAgg.Field m)
     (Some (fun a => es.MetricAggregation.mk
                       (es.MetricAggregation.Type_ a)
                       (es.MetricAggregation.Field a) dsl))
     aggBuilder,
   MetricAgg.setSettings settings m).

(** One round of the [for _, m := range q.Metrics] loop; [metrics] is
    [q.Metrics] as the round finds it. *)
Definition attachMetric (metrics : list MetricAgg.t) (m : MetricAgg.t)
    (aggBuilder : es.AggBuilder) : es.AggBuilder * MetricAgg.t :=
  if String.eqb (MetricAgg.Type_ m) countType then (aggBuilder, m)
  else if isPipelineAgg (MetricAgg.Type_ m) then
    if isPipelineAggWithMultipleBucketPaths (MetricAgg.Type_ m) then
      if 0 <? Z.of_nat (size (MetricAgg.PipelineVariables m)) then
        emitPipeline m (Map (bucketPaths metrics m)) aggBuilder
      else (aggBuilder, m)
    else
      match Atoi (MetricAgg.PipelineAggregate m) with
      | Some _ =>
          match appliedAgg (MetricAgg.PipelineAggregate m) metrics with
          | Some appliedAgg =>
              let bucketPath := MetricAgg.PipelineAggregate m in
              let bucketPath :=
                if String.eqb (MetricAgg.Type_ appliedAgg) countType
                then "_count" else bucketPath in
              emitPipeline m (Str bucketPath) aggBuilder
          | None => (aggBuilder, m)
          end
      | None => (aggBuilder, m)
      end
  else emitMetric m aggBuilder.

(** The metric loop: [done] are the metrics already visited (as the loop
    left them), [todo] the ones to come. *)
Fixpoint metricsLoop (done todo : list MetricAgg.t)
    (aggBuilder : es.AggBuilder) : es.AggBuilder * list MetricAgg.t :=
  match todo with
  | [] => (aggBuilder, done)
  | m :: rest =>
      let '(aggBuilder, m') := attachMetric (done ++ m :: rest) m aggBuilder in
      metricsLoop (done ++ [m']) rest aggBuilder
  end.

Definition invalidQuery : backend.DataResponse :=
  {| backend.Error := Some "invalid query, missing metrics and aggregations" |}.

(** [processQuery].  The request obtained from [ms.Search(interval)]
    belongs to the batch from then on; the batch returned is [ms] with
    that request in the state the call leaves it.  [q] is a pointer: the
    query returned is [*q] afterwards.  [result] is passed by value, its
    [Responses] map is shared with the caller. *)
Definition processQuery (e : timeSeriesQuery) (q : Query.t)
    (ms : es.MultiSearchRequestBuilder) (from to : Z)
    (result : backend.QueryDataResponse)
  : outcome (Query.t * es.MultiSearchRequestBuilder *
             backend.QueryDataResponse) :=
  minInterval ← lift (GetMinInterval (Query.Interval q));
  dq ← index (dataQueries e) 0;
  let interval :=
    Calculate (backend.TimeRange_ dq) minInterval (Query.MaxDataPoints q) in
  let defaultTimeField := GetTimeField in
  let b := es.SearchRequestBuilder.new interval in
  let b := es.SearchRequestBuilder.Size 0 b in
  let b := es.SearchRequestBuilder.AddDateRangeFilter
             GetTimeField to from es.DateFormatEpochMS b in
  let b := es.SearchRequestBuilder.AddQueryStringFilter
             (Query.RawQuery q) true b in
  if (length (Query.BucketAggs q) =? 0)%nat then
    (* If no aggregations, only document and logs queries are valid *)
    match Query.Metrics q with
    | [] =>
        Ok (q, ms ++ [b],
            {| backend.Responses :=
                 <[Query.RefID q := invalidQuery]> (backend.Responses result) |})
    | metric :: _ =>
        if negb (String.eqb (MetricAgg.Type_ metric) "raw_data"
                 || String.eqb (MetricAgg.Type_ metric) "raw_document"
                 || String.eqb (MetricAgg.Type_ metric) "logs")
        then
          Ok (q, ms ++ [b],
              {| backend.Responses :=
                   <[Query.RefID q := invalidQuery]> (backend.Responses result) |})
        else
          (* Defaults for log and document queries *)
          let b := es.SearchRequestBuilder.SortDesc GetTimeField "boolean" b in
          let b := es.SearchRequestBuilder.SortDesc "_doc" "" b in
          let b := es.SearchRequestBuilder.AddDocValueField GetTimeField b in
          let b := es.SearchRequestBuilder.Size
                     (MustInt 500 (Get "size" (MetricAgg.Settings metric))) b in
          if String.eqb (MetricAgg.Type_ metric) "logs" then
            (* Add additional defaults for log query *)
            let b := es.SearchRequestBuilder.Size
                       (MustInt 500 (Get "limit" (MetricAgg.Settings metric))) b in
            let b := es.SearchRequestBuilder.AddHighlight b in
            (* For log query, we add a date histogram aggregation *)
            let aggBuilder := es.newAggBuilder in
            let bucketAggs :=
              Query.BucketAggs q ++
              [BucketAgg.mk GetTimeField "1"
                 (NewFromAny {["interval" := Str "auto"]}) dateHistType] in
            bucketAgg ← index bucketAggs 0;
            let bucketAgg := normalizeBucketAgg bucketAgg in
            let bucketAggs := <[0%nat := bucketAgg]> bucketAggs in
            let aggBuilder :=
              addDateHistogramAgg aggBuilder bucketAgg from to defaultTimeField in
            Ok (Query.setBucketAggs bucketAggs q,
                ms ++ [es.SearchRequestBuilder.setAgg aggBuilder b], result)
          else Ok (q, ms ++ [b], result)
    end
  else
    let aggBuilder := es.newAggBuilder in
    let '(aggBuilder, bucketAggs) :=
      bucketAggsLoop (Query.Metrics q) from to defaultTimeField
        (Query.BucketAggs q) aggBuilder in
    let '(aggBuilder, metrics) :=
      metricsLoop [] (Query.Metrics q) aggBuilder in
    Ok (Query.setMetrics metrics (Query.setBucketAggs bucketAggs q),
        ms ++ [es.SearchRequestBuilder.setAgg aggBuilder b], result).

(** The [for _, q := range queries] loop of [execute]: it stops at the
    first error. *)
Fixpoint processQueries (e : timeSeriesQuery) (queries : list Query.t)
    (ms : es.MultiSearchRequestBuilder) (from to : Z)
    (result : backend.QueryDataResponse)
  : outcome (list Query.t * es.MultiSearchRequestBuilder *
             backend.QueryDataResponse) :=
  match queries with
  | [] => Ok ([], ms, result)
  | q :: rest =>
      '(q, ms, result) ← processQuery e q ms from to result;
      '(rest, ms, result) ← processQueries e rest ms from to result;
      Ok (q :: rest, ms, result)
  end.

(** [execute].  An [Err] stands for the pair of the empty response and
    the error. *)
Definition execute (e : timeSeriesQuery) : outcome backend.QueryDataResponse :=
  queries ← lift (parseQuery (dataQueries e));
  let ms : es.MultiSearchRequestBuilder := [] in
  dq ← index (dataQueries e) 0;
  let from := Z.quot (backend.From (backend.TimeRange_ dq)) time_Millisecond in
  dq ← index (dataQueries e) 0;
  let to := Z.quot (backend.To (backend.TimeRange_ dq)) time_Millisecond in
  let result := {| backend.Responses := ∅ |} in
  '(queries, ms, _) ← processQueries e queries ms from to result;
  req ← lift (BuildMultiSearch ms);
  res ← lift (ExecuteMultisearch req);
  lift (parseResponse res queries).

End TimeSeriesQuery.


(** ** Reading the built request *)

(** Bucket aggregations open a scope; metric and pipeline aggregations are
    leaves of the tree. *)
Definition isBucket (c : es.aggContainer) : bool :=
  match es.Aggregation c with
  | es.OfMetric _ | es.OfPipeline _ => false
  | _ => true
  end.

(** Nesting depth of the bucket aggregations of a tree. *)
Fixpoint nestingDepth (a : es.Agg) : nat :=
  match a with
  | es.MkAgg _ c aggs =>
      if isBucket c then S (foldr Nat.max 0%nat (map nestingDepth aggs))
      else 0%nat
  end.

Definition treeDepth (aggs : list es.Agg) : nat :=
  foldr Nat.max 0%nat (map nestingDepth aggs).

(** Keys of the bucket aggregations, outermost first. *)
Fixpoint bucketKeys (a : es.Agg) : list string :=
  match a with
  | es.MkAgg key c aggs =>
      if isBucket c then key :: concat (map bucketKeys aggs) else []
  end.

Definition treeKeys (aggs : list es.Agg) : list string :=
  concat (map bucketKeys aggs).

(** All nodes of a tree, parents before children. *)
Fixpoint nodes (a : es.Agg) : list (string * es.aggContainer) :=
  match a with
  | es.MkAgg key c aggs => (key, c) :: concat (map nodes aggs)
  end.

Definition treeNodes (aggs : list es.Agg) : list (string * es.aggContainer) :=
  concat (map nodes aggs).

(** The aggregation tree of the last request of a batch. *)
Definition lastAggs (ms : es.MultiSearchRequestBuilder) : list es.Agg :=
  match last ms with
  | Some b => concat (map es.Build (es.SearchRequestBuilder.aggBuilders b))
  | None => []
  end.

(** Whether a bucket aggregation adds a node to the tree: the five known
    types do, [filters] only with at least one declared filter. *)
Definition emitsNode (bucketAgg : BucketAgg.t) : bool :=
  let type := BucketAgg.Type_ bucketAgg in
  if String.eqb type dateHistType then true
  else if String.eqb type histogramType then true
  else if String.eqb type filtersType then
    negb (Nat.eqb (length (MustArray (Get "filters" (BucketAgg.Settings bucketAgg)))) 0)
  else if String.eqb type termsType then true
  else String.eqb type geohashGridType.

(** Two paths part ways at some key: neither is a prefix of the other. *)
Fixpoint diverge (p q : list string) : bool :=
  match p, q with
  | a :: p', b :: q' => if String.eqb a b then diverge p' q' else true
  | _, _ => false
  end.

(** What one pipeline reference resolves to: a bucket path, or nothing. *)
Definition resolve (metrics : list MetricAgg.t) (pipelineAgg : string)
  : option any :=
  match Atoi pipelineAgg with
  | Some _ =>
      match appliedAgg pipelineAgg metrics with
      | Some applied =>
          Some (Str (if String.eqb (MetricAgg.Type_ applied) countType
                     then "_count" else pipelineAgg))
      | None => None
      end
  | None => None
  end.

(** The metric as the loop leaves it when it emits a node for it. *)
Definition normalizeMetricAgg `{Float} `{TypeTables} (m : MetricAgg.t)
  : MetricAgg.t :=
  MetricAgg.setSettings (fst (MetricAgg_generateSettingsForDSL m)) m.

(** ** Vocabulary of the proofs *)

(** Nothing is left to coerce at [p]: no string there, or one that is no
    number. *)
Definition settled (parse : string -> option any) (p : list string) (s : any)
  : Prop :=
  String_ (GetPath p s) ≫= parse = None.

Definition asFloat `{Float} (v : string) : option any := Float64 <$> ParseFloat v.
Definition asInt (v : string) : option any := Int64 <$> ParseInt v.

(** A document without any addressable entry (no map at all, or the empty
    map) passes through every step unchanged. *)
Definition blank (s : any) : Prop :=
  forall p : list string, p <> [] -> GetPath p s = Nil.

(** The document after [MetricAgg.generateSettingsForDSL]. *)
Definition normalized `{Float} `{TypeTables} (m : MetricAgg.t) : any :=
  fst (MetricAgg_generateSettingsForDSL m).

(** A metric or pipeline node: no nested aggregation, and never of type
    count. *)
Definition metricLeaf (a : es.Agg) : Prop :=
  match a with
  | es.MkAgg _ c aggs =>
      aggs = [] /\ isBucket c = false /\ es.Type_ c <> countType
  end.

Definition notCount (kc : string * es.aggContainer) : Prop :=
  es.Type_ (snd kc) <> countType.

Definition bucketScope (s : es.scope) : Prop :=
  Forall metricLeaf (es.siblings s)
  /\ isBucket (es.container s) = true
  /\ es.Type_ (es.container s) <> countType.

(** The shape of every builder the translator produces: a chain of bucket
    scopes, metric leaves hanging off it. *)
Definition shaped (B : es.AggBuilder) : Prop :=
  Forall metricLeaf (es.aggDefs B) /\ Forall bucketScope (es.scopes B).

(** The node of pipeline metric [m] with bucket path [bucketPath]. *)
Definition pipelineNode `{Float} `{TypeTables} (m : MetricAgg.t)
    (bucketPath : any) : es.Agg :=
  es.MkAgg (MetricAgg.ID m)
    {| es.Type_ := MetricAgg.Type_ m;
       es.Aggregation :=
         es.OfPipeline
           {| es.PipelineAggregation.BucketPath := bucketPath;
              es.PipelineAggregation.Settings :=
                snd (MetricAgg_generateSettingsForDSL m) |} |} [].

(** What the round of metric [m] adds to the innermost scope: nothing, or
    one node. *)
Definition added `{Float} `{TypeTables} (metrics : list MetricAgg.t)
    (m : MetricAgg.t) : list es.Agg :=
  es.aggDefs (fst (attachMetric metrics m es.newAggBuilder)).

(** A metric as the loop may leave it: untouched, or with its settings
    normalised. *)
Definition sameButSettings `{Float} `{TypeTables} (m m' : MetricAgg.t) : Prop :=
  m' = m \/ m' = normalizeMetricAgg m.

(** ** Sample collaborators, for the examples *)

Module Sample.

(** Modelled from the spec: the type tables of models.go are outside the
    translated file.  Spec section 3 names moving-average, serial-diff and
    derivative as pipeline types and speaks of multi-input pipelines; the
    lists below are the pipeline, multi-reference and scriptable types of
    the data source. *)
#[export] Instance tables : TypeTables := {|
  isPipelineAgg t :=
    bool_decide (t ∈ ["moving_avg"; "moving_fn"; "cumulative_sum";
                      "derivative"; "serial_diff"; "bucket_script"]);
  isPipelineAggWithMultipleBucketPaths t := String.eqb t "bucket_script";
  isMetricAggregationWithInlineScriptSupport t :=
    bool_decide (t ∈ ["avg"; "sum"; "max"; "min"; "extended_stats";
                      "percentiles"; "bucket_script"; "moving_fn"])
|}.

Definition float_of_Z (z : Z) : spec_float :=
  match z with
  | Z0 => S754_zero false
  | Zpos m => S754_finite false m 0
  | Zneg m => S754_finite true m 0
  end.

(** A [Float] that reads integer literals (exactly) and nothing else, and
    truncates towards zero. *)
#[export] Instance float : Float := {|
  ParseFloat s := float_of_Z <$> ParseInt s;
  float64_to_int f :=
    match f with
    | S754_finite s m e =>
        let mag := if 0 <=? e then Z.pos m * 2 ^ e
                   else Z.pos m / 2 ^ (- e) in
        if s then - mag else mag
    | S754_zero _ => 0
    | _ => - 2 ^ 63
    end
|}.

(** A client double: intervals are given in milliseconds, the empty
    interval means the default of five seconds, anything else is refused;
    the batch is passed through as it is. *)
#[export] Instance client : Client es.MultiSearchRequestBuilder unit := {|
  GetMinInterval interval :=
    if String.eqb interval "" then inr 5000000000
    else match ParseInt interval with
         | Some n => inr (n * time_Millisecond)
         | None => inl ("time: invalid duration " +:+ interval)
         end;
  GetTimeField := "@timestamp";
  BuildMultiSearch ms := inr ms;
  ExecuteMultisearch _ := inr tt
|}.

Definition Calculate (_ : backend.TimeRange) (minInterval _ : Z) : es.Interval :=
  {| es.Text := "auto"; es.Value := minInterval |}.

(** One query per data query, carrying its reference ID. *)
Definition parseQuery (dqs : list backend.DataQuery) : error + list Query.t :=
  inr (map (fun dq => Query.mk "" [] [] "" (backend.RefID dq)
                        (backend.MaxDataPoints dq)) dqs).

Definition parseResponse (_ : unit) (_ : list Query.t)
  : error + backend.QueryDataResponse :=
  inr {| backend.Responses := ∅ |}.

Definition dataQuery (refID : string) : backend.DataQuery :=
  {| backend.RefID := refID; backend.MaxDataPoints := 100;
     backend.TimeRange_ := {| backend.From := 5000000; backend.To := 9000000 |};
     backend.JSON := "" |}.

Definition e : timeSeriesQuery := {| dataQueries := [dataQuery "A"] |}.

Definition metric (id type : string) : MetricAgg.t :=
  MetricAgg.mk "value" id "" ∅ (Map ∅) type.

Definition pipeline (id type ref : string) : MetricAgg.t :=
  MetricAgg.mk "" id ref ∅ (Map ∅) type.

Definition bucket (id type : string) (settings : gmap string any) : BucketAgg.t :=
  BucketAgg.mk "field" id (Map settings) type.

Definition query (bucketAggs : list BucketAgg.t) (metrics : list MetricAgg.t)
  : Query.t :=
  Query.mk "*" bucketAggs metrics "" "A" 100.

Definition run (q : Query.t) :=
  processQuery Calculate e q [] 5 9 {| backend.Responses := ∅ |}.

Definition count1 : MetricAgg.t := metric "1" "count".
Definition avg5 : MetricAgg.t := metric "5" "avg".
Definition movingAvg : MetricAgg.t := pipeline "2" "moving_avg" "1".
Definition derivativeOfAvg : MetricAgg.t := pipeline "6" "derivative" "5".
Definition unparseable : MetricAgg.t := pipeline "4" "derivative" "abc".

(** A bucket script with one reference to the count and one to nothing. *)
Definition script : MetricAgg.t :=
  MetricAgg.mk "" "3" "" (<["var1" := "1"]> {["var2" := "x"]}) (Map ∅)
    "bucket_script".

(** A bucket script none of whose references resolves. *)
Definition orphanScript : MetricAgg.t :=
  MetricAgg.mk "" "3" "" {["var1" := "x"]} (Map ∅) "bucket_script".

Definition dateHistogram : BucketAgg.t :=
  bucket "2" "date_histogram" {["interval" := Str "auto"]}.

Definition termsBySize (size : any) : BucketAgg.t :=
  bucket "3" "terms" {["size" := size]}.

(** A filters aggregation that declares no filter. *)
Definition emptyFilters : BucketAgg.t := bucket "4" "filters" ∅.

Definition histogramQuery : Query.t :=
  query [termsBySize (Str "10"); dateHistogram] [count1; movingAvg; avg5].

Definition emptyFiltersQuery : Query.t := query [emptyFilters] [count1].

Definition orphanQuery : Query.t := query [dateHistogram] [orphanScript].

Definition unparseableQuery : Query.t := query [dateHistogram] [unparseable].

Definition logsQuery : Query.t := query [] [metric "1" "logs"].

Definition noMetricsQuery : Query.t := query [] [].

(** No bucket aggregation, no metric, and an interval the client refuses. *)
Definition refusedQuery : Query.t := Query.mk "*" [] [] "zz" "A" 100.

End Sample.


(** ** Further vocabulary, for the properties beyond the claims *)

(** The innermost open scope of a builder: its key and what it computes. *)
Definition innermost (B : es.AggBuilder) : option (string * es.aggregation) :=
  (fun s => (es.key s, es.Aggregation (es.container s))) <$> head (es.scopes B).

(** The paths [MetricAgg.generateSettingsForDSL] coerces for a moving
    average. *)
Definition movingAvgPaths : list (list string) :=
  [["window"]; ["predict"]; ["settings"; "alpha"]; ["settings"; "beta"];
   ["settings"; "gamma"]; ["settings"; "period"]].

(** What [addFiltersAgg] reads off one declared filter. *)
Definition filterQuery (filter : any) : string :=
  MustString "" (Get "query" filter).

Definition filterLabel (filter : any) : string :=
  let label := MustString "" (Get "label" filter) in
  if String.eqb label "" then filterQuery filter else label.

(** The condition under which [processQuery] records the per-panel
    error. *)
Definition invalid (q : Query.t) : bool :=
  (length (Query.BucketAggs q) =? 0)%nat
  && match Query.Metrics q with
     | [] => true
     | metric :: _ =>
         negb (String.eqb (MetricAgg.Type_ metric) "raw_data"
               || String.eqb (MetricAgg.Type_ metric) "raw_document"
               || String.eqb (MetricAgg.Type_ metric) "logs")
     end.

(** What every node of a built request satisfies, by its kind. *)
Definition nodeOk (from to : Z) (kc : string * es.aggContainer) : Prop :=
  match es.Aggregation (snd kc) with
  | es.OfDateHistogram a =>
      es.DateHistogramAgg.FixedInterval a <> "auto"
      /\ es.DateHistogramAgg.TimeZone a <> "utc"
      /\ es.DateHistogramAgg.ExtendedBounds a
         = Some {| es.Min := from; es.Max := to |}
  | es.OfTerms a => es.TermsAggregation.Size a <> 0
  | es.OfFilters a => es.FiltersAggregation.Filters a <> ∅
  | _ => True
  end.

(** The nodes a builder holds: those of its current scope, and for every
    enclosing scope its own node and what its builder held before. *)
Definition builderNodes (B : es.AggBuilder) : list (string * es.aggContainer) :=
  treeNodes (es.aggDefs B)
  ++ flat_map (fun s => (es.key s, es.container s) :: treeNodes (es.siblings s))
       (es.scopes B).

(** Whether a node is a pipeline aggregation. *)
Definition isPipeline (c : es.aggContainer) : bool :=
  match es.Aggregation c with
  | es.OfPipeline _ => true
  | _ => false
  end.

(** The [min_doc_count] of a bucket node, where its kind has one. *)
Definition minDocCount (a : es.aggregation) : option Z :=
  match a with
  | es.OfDateHistogram a => Some (es.DateHistogramAgg.MinDocCount a)
  | es.OfHistogram a => Some (es.HistogramAgg.MinDocCount a)
  | es.OfTerms a => es.TermsAggregation.MinDocCount a
  | _ => None
  end.

(** Strings of decimal digits, and strings that begin with one: what the
    regular expression of [addTermsAgg] tells apart. *)
Fixpoint allDigits (s : string) : bool :=
  match s with
  | EmptyString => true
  | String c rest =>
      match digit c with
      | Some _ => allDigits rest
      | None => false
      end
  end.

Definition startsWithDigit (s : string) : bool :=
  match s with
  | EmptyString => false
  | String c _ =>
      match digit c with
      | Some _ => true
      | None => false
      end
  end.

Definition aggKey (a : es.Agg) : string :=
  match a with
  | es.MkAgg key _ _ => key
  end.

(** Whether the round of metric [m] adds a node: the conditions of the
    metric loop, read together. *)
Definition attaches `{TypeTables} (metrics : list MetricAgg.t)
    (m : MetricAgg.t) : bool :=
  negb (String.eqb (MetricAgg.Type_ m) countType)
  && (if isPipelineAgg (MetricAgg.Type_ m) then
        if isPipelineAggWithMultipleBucketPaths (MetricAgg.Type_ m) then
          0 <? Z.of_nat (size (MetricAgg.PipelineVariables m))
        else
          match resolve metrics (MetricAgg.PipelineAggregate m) with
          | Some _ => true
          | None => false
          end
      else true).

(** The request the translator opens for query [q]: the interval
    calculated for it, and the filters of its boolean query, the time
    range and, unless it is blank, the query string. *)
Definition requestFor {Request Response : Type}
    `{Client Request Response}
    (Calculate : backend.TimeRange -> Z -> Z -> es.Interval)
    (e : timeSeriesQuery) (from to : Z) (q : Query.t)
    (b : es.SearchRequestBuilder.t) : Prop :=
  exists minInterval dq,
    GetMinInterval (Query.Interval q) = inr minInterval
    /\ head (dataQueries e) = Some dq
    /\ es.SearchRequestBuilder.interval b
       = Calculate (backend.TimeRange_ dq) minInterval (Query.MaxDataPoints q)
    /\ es.SearchRequestBuilder.filters b
       = es.RangeFilter GetTimeField to from es.DateFormatEpochMS
         :: (if strings.blank (Query.RawQuery q) then []
             else [es.QueryString (Query.RawQuery q) true]).

(** ** Further sample inputs *)

Module Cases.

(** A moving average whose window is given as a string. *)
Definition movingAvgWindow : MetricAgg.t :=
  MetricAgg.mk "" "2" "1" ∅ (NewFromAny {["window" := Str "5"]}) "moving_avg".

(** An average with a script in the old format. *)
Definition scripted : MetricAgg.t :=
  MetricAgg.mk "value" "5" "" ∅
    (NewFromAny {["script" := NewFromAny {["inline" := Str "_value * 2"]}]})
    "avg".

(** A terms aggregation ordered by metric 5, with a min_doc_count given
    as a string. *)
Definition termsByAvg : BucketAgg.t :=
  Sample.bucket "3" "terms"
    (<["orderBy" := Str "5"]> {["min_doc_count" := Str "2"]}).

(** A terms aggregation ordered by metric 4. *)
Definition termsByDerivative : BucketAgg.t :=
  Sample.bucket "3" "terms" {["orderBy" := Str "4"]}.

(** The derivative of ["abc"], under a terms aggregation ordered by it. *)
Definition orderedByUnparseable : Query.t :=
  Sample.query [termsByDerivative] [Sample.count1; Sample.unparseable].

(** A terms aggregation ordered by the terms themselves. *)
Definition termsByTerm : BucketAgg.t :=
  Sample.bucket "3" "terms" {["orderBy" := Str "_term"]}.

Definition orderedQuery : Query.t :=
  Sample.query [Sample.dateHistogram; termsByAvg] [Sample.count1; Sample.avg5].

Definition documentQuery : Query.t :=
  Sample.query [] [Sample.metric "1" "raw_document"].

(** A query without bucket aggregations and metrics, for panel B. *)
Definition invalidB : Query.t := Query.mk "*" [] [] "" "B" 100.

Definition batch : list Query.t :=
  [Sample.histogramQuery; invalidB; Sample.logsQuery].

Definition refusedBatch : list Query.t :=
  [Sample.histogramQuery; Sample.refusedQuery; Sample.logsQuery].

Definition noResponses : backend.QueryDataResponse :=
  {| backend.Responses := ∅ |}.

End Cases.
(** * Properties *)

Example Atoi_examples :
  Atoi "12" = Some 12 /\ Atoi "-7" = Some (-7) /\ Atoi "+3" = Some 3 /\
  Atoi "" = None /\ Atoi "-" = None /\ Atoi "1.5" = None /\
  Atoi "12a" = None /\ Atoi "9223372036854775808" = None /\
  Atoi "-9223372036854775808" = Some (- 2 ^ 63).
Proof. repeat split; reflexivity. Qed.

(** ** Reading and writing paths of a settings document *)

Section Paths.

Implicit Types (j val : any) (m : gmap string any) (p q : list string).

Lemma GetPath_cons a p j : GetPath (a :: p) j = GetPath p (Get a j).
Proof. reflexivity. Qed.

Lemma GetPath_Nil p : GetPath p Nil = Nil.
Proof. induction p as [|a p IH]; [reflexivity|]. rewrite GetPath_cons. exact IH. Qed.

Lemma Get_no_map a j : Map_ j = None -> Get a j = Nil.
Proof. unfold Get. intros ->. reflexivity. Qed.

Lemma Get_empty a : Get a (Map ∅) = Nil.
Proof. unfold Get. simpl. rewrite lookup_empty. reflexivity. Qed.

Lemma Get_MustMap a j : Get a (Map (MustMap j)) = Get a j.
Proof.
  destruct j; try (rewrite Get_empty; reflexivity). reflexivity.
Qed.

Lemma setIn_single k val m : setIn [k] val m = <[k := val]> m.
Proof. reflexivity. Qed.

Lemma setIn_cons b c q val m :
  setIn (b :: c :: q) val m =
  <[b := Map (setIn (c :: q) val (MustMap (Get b (Map m))))]> m.
Proof.
  simpl. f_equal. f_equal. unfold Get. simpl.
  destruct (m !! b) as [[]|]; reflexivity.
Qed.

Lemma Get_setIn_ne a b q val m :
  a <> b -> Get a (Map (setIn (b :: q) val m)) = Get a (Map m).
Proof.
  intros Hne. unfold Get.
  destruct q as [|c q]; cbn [Map_ setIn];
    rewrite lookup_insert_ne by congruence; reflexivity.
Qed.

Lemma Get_setIn_last b val m : Get b (Map (setIn [b] val m)) = val.
Proof. unfold Get. cbn [Map_ setIn]. rewrite lookup_insert_eq. reflexivity. Qed.

Lemma Get_setIn_eq b c q val m :
  Get b (Map (setIn (b :: c :: q) val m)) =
  Map (setIn (c :: q) val (MustMap (Get b (Map m)))).
Proof. rewrite setIn_cons. unfold Get at 1. cbn [Map_]. rewrite lookup_insert_eq. reflexivity. Qed.

(** What [SetPath] stores is what [GetPath] reads back. *)
Lemma GetPath_setIn_same p val m :
  p <> [] -> GetPath p (Map (setIn p val m)) = val.
Proof.
  revert m. induction p as [|b p IH]; intros m Hp; [congruence|].
  destruct p as [|c p].
  - rewrite GetPath_cons, Get_setIn_last. reflexivity.
  - rewrite GetPath_cons, Get_setIn_eq. apply IH. discriminate.
Qed.

Lemma GetPath_SetPath_same p val j :
  p <> [] -> GetPath p (SetPath p val j) = val.
Proof.
  intros Hp. unfold SetPath. destruct p; [congruence|].
  apply GetPath_setIn_same. discriminate.
Qed.

Lemma GetPath_MustMap p j : p <> [] -> GetPath p (Map (MustMap j)) = GetPath p j.
Proof.
  destruct p as [|a p]; [congruence|]. intros _.
  rewrite !GetPath_cons, Get_MustMap. reflexivity.
Qed.

Lemma diverge_nonempty p q : diverge p q = true -> p <> [] /\ q <> [].
Proof. destruct p, q; simpl; intros; split; congruence. Qed.

(** Writing one path leaves every path that parts ways with it as it was. *)
Lemma GetPath_setIn_diverge p q val m :
  diverge p q = true -> GetPath p (Map (setIn q val m)) = GetPath p (Map m).
Proof.
  revert p m. induction q as [|b q IH]; intros p m Hd.
  { destruct p; discriminate. }
  destruct p as [|a p]; [discriminate|]. simpl in Hd.
  rewrite !GetPath_cons.
  destruct (String.eqb_spec a b) as [->|Hne].
  - destruct (diverge_nonempty _ _ Hd) as [Hp Hq].
    destruct q as [|c q]; [congruence|].
    rewrite Get_setIn_eq, IH by assumption.
    apply GetPath_MustMap. assumption.
  - rewrite Get_setIn_ne by assumption. reflexivity.
Qed.

Lemma GetPath_SetPath_diverge p q val j :
  diverge p q = true -> GetPath p (SetPath q val j) = GetPath p j.
Proof.
  intros Hd. destruct (diverge_nonempty _ _ Hd) as [Hp Hq].
  unfold SetPath. destruct q as [|b q]; [congruence|].
  rewrite GetPath_setIn_diverge by assumption.
  apply GetPath_MustMap. assumption.
Qed.

(** Storing under a top-level key the value it already holds changes
    nothing. *)
Lemma SetPath_top_id k s j :
  String_ (GetPath [k] j) = Some s -> SetPath [k] (Str s) j = j.
Proof.
  unfold GetPath, SetPath, Get. simpl fold_left.
  destruct j; simpl; try discriminate.
  destruct (m !! k) as [v|] eqn:Hk; simpl; [|discriminate].
  destruct v; simpl; try discriminate. intros [= ->].
  f_equal. apply insert_id. assumption.
Qed.

Lemma SetPath_is_map p val j : p <> [] -> Map (MustMap (SetPath p val j)) = SetPath p val j.
Proof. destruct p; [congruence|]. reflexivity. Qed.

End Paths.

(** ** Settings normalisation *)

Section Normalisation.

Context `{Float} `{TypeTables}.
Implicit Types (s : any) (p q : list string).


Lemma setFloatPath_settled p s : settled asFloat p s -> setFloatPath p s = s.
Proof.
  unfold settled, setFloatPath, asFloat.
  destruct (String_ (GetPath p s)) as [v|]; simpl; [|reflexivity].
  destruct (ParseFloat v); simpl; [discriminate|reflexivity].
Qed.

Lemma setIntPath_settled p s : settled asInt p s -> setIntPath p s = s.
Proof.
  unfold settled, setIntPath, asInt.
  destruct (String_ (GetPath p s)) as [v|]; simpl; [|reflexivity].
  destruct (ParseInt v); simpl; [discriminate|reflexivity].
Qed.

Lemma settled_setFloatPath p s : p <> [] -> settled asFloat p (setFloatPath p s).
Proof.
  intros Hp. unfold settled, setFloatPath, asFloat.
  destruct (String_ (GetPath p s)) as [v|] eqn:Hs.
  - destruct (ParseFloat v) eqn:Hv.
    + rewrite GetPath_SetPath_same by assumption. reflexivity.
    + rewrite Hs. simpl. rewrite Hv. reflexivity.
  - rewrite Hs. reflexivity.
Qed.

Lemma settled_setIntPath p s : p <> [] -> settled asInt p (setIntPath p s).
Proof.
  intros Hp. unfold settled, setIntPath, asInt.
  destruct (String_ (GetPath p s)) as [v|] eqn:Hs.
  - destruct (ParseInt v) eqn:Hv.
    + rewrite GetPath_SetPath_same by assumption. reflexivity.
    + rewrite Hs. simpl. rewrite Hv. reflexivity.
  - rewrite Hs. reflexivity.
Qed.

Lemma settled_other parse p q s :
  diverge p q = true -> settled parse p s -> settled parse p (setFloatPath q s).
Proof.
  intros Hd Hp. unfold setFloatPath.
  destruct (String_ (GetPath q s)); [|assumption].
  destruct (ParseFloat _); [|assumption].
  unfold settled. rewrite GetPath_SetPath_diverge by assumption. exact Hp.
Qed.

Lemma settled_promoteScript parse p s :
  diverge p ["script"] = true ->
  settled parse p s -> settled parse p (promoteScript s).
Proof.
  intros Hd Hp. unfold promoteScript.
  destruct (match String_ (GetPath ["script"] s) with
            | Some v => Some v
            | None => String_ (GetPath ["script"; "inline"] s)
            end); [|assumption].
  unfold settled. rewrite GetPath_SetPath_diverge by assumption. exact Hp.
Qed.

Lemma promoteScript_top s v :
  String_ (GetPath ["script"] s) = Some v -> promoteScript s = s.
Proof.
  intros Htop. unfold promoteScript. rewrite Htop.
  apply SetPath_top_id. assumption.
Qed.

Lemma promoteScript_idem s : promoteScript (promoteScript s) = promoteScript s.
Proof.
  destruct (String_ (GetPath ["script"] s)) as [v|] eqn:Htop.
  - rewrite (promoteScript_top s v Htop). apply (promoteScript_top s v Htop).
  - destruct (String_ (GetPath ["script"; "inline"] s)) as [v|] eqn:Hold.
    + assert (E : promoteScript s = SetPath ["script"] (Str v) s).
      { unfold promoteScript. rewrite Htop, Hold. reflexivity. }
      rewrite E. apply (promoteScript_top _ v).
      rewrite GetPath_SetPath_same by discriminate. reflexivity.
    + assert (E : promoteScript s = s).
      { unfold promoteScript. rewrite Htop, Hold. reflexivity. }
      rewrite !E. reflexivity.
Qed.


Lemma blank_no_map s : Map_ s = None -> blank s.
Proof.
  intros Hs [|a p] Hp; [congruence|].
  rewrite GetPath_cons, Get_no_map by assumption. apply GetPath_Nil.
Qed.

Lemma blank_empty : blank (Map ∅).
Proof.
  intros [|a p] Hp; [congruence|].
  rewrite GetPath_cons, Get_empty. apply GetPath_Nil.
Qed.

Lemma setFloatPath_blank p s : p <> [] -> blank s -> setFloatPath p s = s.
Proof. intros Hp Hb. unfold setFloatPath. rewrite Hb by assumption. reflexivity. Qed.

Lemma setIntPath_blank p s : p <> [] -> blank s -> setIntPath p s = s.
Proof. intros Hp Hb. unfold setIntPath. rewrite Hb by assumption. reflexivity. Qed.

Lemma promoteScript_blank s : blank s -> promoteScript s = s.
Proof. intros Hb. unfold promoteScript. rewrite !Hb by discriminate. reflexivity. Qed.


Lemma generateSettingsForDSL_snd m :
  snd (MetricAgg_generateSettingsForDSL m) = MustMap (normalized m).
Proof. reflexivity. Qed.

Lemma normalized_fixed m :
  normalized (MetricAgg.setSettings (normalized m) m) = normalized m.
Proof.
  unfold normalized at 1. unfold MetricAgg_generateSettingsForDSL.
  cbn [fst MetricAgg.setSettings MetricAgg.Settings MetricAgg.Type_].
  unfold normalized, MetricAgg_generateSettingsForDSL. cbn [fst].
  set (s := MetricAgg.Settings m).
  destruct (String.eqb (MetricAgg.Type_ m) "moving_avg");
    [|destruct (String.eqb (MetricAgg.Type_ m) "serial_diff")];
    destruct (isMetricAggregationWithInlineScriptSupport (MetricAgg.Type_ m));
    repeat (rewrite setFloatPath_settled
              by (repeat first
                    [ apply settled_setFloatPath; discriminate
                    | apply settled_promoteScript; [reflexivity|]
                    | apply settled_other; [reflexivity|] ]));
    try reflexivity; apply promoteScript_idem.
Qed.

Lemma normalized_blank m : blank (MetricAgg.Settings m) -> normalized m = MetricAgg.Settings m.
Proof.
  intros Hb. unfold normalized, MetricAgg_generateSettingsForDSL. cbn [fst].
  destruct (String.eqb (MetricAgg.Type_ m) "moving_avg");
    [|destruct (String.eqb (MetricAgg.Type_ m) "serial_diff")];
    destruct (isMetricAggregationWithInlineScriptSupport (MetricAgg.Type_ m));
    repeat (rewrite (setFloatPath_blank _ (MetricAgg.Settings m))
              by (discriminate || assumption));
    try reflexivity; apply promoteScript_blank; assumption.
Qed.

(** Wrapping the returned map into a fresh document gives back the
    document itself, unless there was no map to begin with; then both are
    blank. *)
Lemma normalized_rewrap m :
  normalized (MetricAgg.setSettings (NewFromAny (MustMap (normalized m))) m)
  = Map (MustMap (normalized m)).
Proof.
  destruct (Map_ (normalized m)) as [mm|] eqn:Hm.
  - assert (E : Map (MustMap (normalized m)) = normalized m).
    { destruct (normalized m); try discriminate. reflexivity. }
    unfold NewFromAny. rewrite E. apply normalized_fixed.
  - assert (Hempty : MustMap (normalized m) = ∅).
    { unfold MustMap. rewrite Hm. reflexivity. }
    rewrite Hempty. apply normalized_blank. apply blank_empty.
Qed.

End Normalisation.

Section Idempotence.

Context `{Float} `{TypeTables}.

Lemma bucket_settings_fixed (s : any) :
  setIntPath ["min_doc_count"] (setIntPath ["min_doc_count"] s)
  = setIntPath ["min_doc_count"] s.
Proof. apply setIntPath_settled, settled_setIntPath. discriminate. Qed.

Lemma bucket_settings_rewrap (s : any) :
  setIntPath ["min_doc_count"]
    (NewFromAny (MustMap (setIntPath ["min_doc_count"] s)))
  = Map (MustMap (setIntPath ["min_doc_count"] s)).
Proof.
  set (s' := setIntPath ["min_doc_count"] s).
  destruct (Map_ s') as [mm|] eqn:Hm.
  - assert (E : Map (MustMap s') = s').
    { destruct s'; try discriminate. reflexivity. }
    unfold NewFromAny. rewrite E. apply bucket_settings_fixed.
  - assert (Hempty : MustMap s' = ∅).
    { unfold MustMap. rewrite Hm. reflexivity. }
    rewrite Hempty. apply setIntPath_blank; [discriminate|apply blank_empty].
Qed.

Lemma normalizeBucketAgg_idem (b : BucketAgg.t) :
  normalizeBucketAgg (normalizeBucketAgg b) = normalizeBucketAgg b.
Proof.
  unfold normalizeBucketAgg, BucketAgg_generateSettingsForDSL.
  cbn [snd BucketAgg.setSettings BucketAgg.Settings BucketAgg.Field
       BucketAgg.ID BucketAgg.Type_].
  rewrite bucket_settings_rewrap. reflexivity.
Qed.

(** C7. Settings normalisation is idempotent.  For a metric aggregation,
    running [generateSettingsForDSL] again on the document it has just
    normalised, or on a fresh document wrapping the map it returned, gives
    the same map (and leaves the document as it is); for a bucket
    aggregation, injecting the normalised settings a second time changes
    nothing. *)
Theorem settings_normalization_idempotent (m : MetricAgg.t) (b : BucketAgg.t) :
  MetricAgg_generateSettingsForDSL (normalizeMetricAgg m)
    = MetricAgg_generateSettingsForDSL m
  /\ snd (MetricAgg_generateSettingsForDSL
            (MetricAgg.setSettings
               (NewFromAny (snd (MetricAgg_generateSettingsForDSL m))) m))
     = snd (MetricAgg_generateSettingsForDSL m)
  /\ BucketAgg_generateSettingsForDSL
       (BucketAgg.setSettings (fst (BucketAgg_generateSettingsForDSL b)) b)
     = BucketAgg_generateSettingsForDSL b
  /\ snd (BucketAgg_generateSettingsForDSL (normalizeBucketAgg b))
     = snd (BucketAgg_generateSettingsForDSL b)
  /\ normalizeBucketAgg (normalizeBucketAgg b) = normalizeBucketAgg b.
Proof.
  repeat split.
  - pose proof (normalized_fixed m) as Hfix.
    unfold normalizeMetricAgg. fold (normalized m).
    rewrite (surjective_pairing (MetricAgg_generateSettingsForDSL m)).
    rewrite (surjective_pairing
               (MetricAgg_generateSettingsForDSL
                  (MetricAgg.setSettings (normalized m) m))).
    rewrite !generateSettingsForDSL_snd. fold (normalized m).
    fold (normalized (MetricAgg.setSettings (normalized m) m)).
    rewrite Hfix. reflexivity.
  - rewrite !generateSettingsForDSL_snd, normalized_rewrap. reflexivity.
  - unfold BucketAgg_generateSettingsForDSL.
    cbn [fst BucketAgg.setSettings BucketAgg.Settings].
    rewrite bucket_settings_fixed. reflexivity.
  - unfold normalizeBucketAgg, BucketAgg_generateSettingsForDSL.
    cbn [snd BucketAgg.setSettings BucketAgg.Settings].
    rewrite bucket_settings_rewrap. reflexivity.
  - apply normalizeBucketAgg_idem.
Qed.

End Idempotence.

Module Examples.
Import Sample.

(** The pipeline scenario of the data source: [window] arrives as the
    string ["5"] and leaves as the number five; a second pass changes
    nothing. *)
Example moving_avg_window :
  let m := MetricAgg.mk "" "2" "1" ∅ (NewFromAny {["window" := Str "5"]})
             "moving_avg" in
  snd (MetricAgg_generateSettingsForDSL m)
    = {["window" := Float64 (S754_finite false 5 0)]}
  /\ snd (MetricAgg_generateSettingsForDSL (normalizeMetricAgg m))
    = {["window" := Float64 (S754_finite false 5 0)]}.
Proof. split; vm_compute; reflexivity. Qed.

End Examples.

(** ** The metric attachment loop *)

Section Metrics.

Context `{Float} `{TypeTables}.
Implicit Types (m : MetricAgg.t) (metrics : list MetricAgg.t)
  (aggBuilder : es.AggBuilder).

(** The node a pipeline metric contributes. *)
Lemma emitPipeline_aggDefs m bucketPath aggBuilder :
  es.aggDefs (fst (emitPipeline m bucketPath aggBuilder))
  = es.aggDefs aggBuilder ++
    [es.MkAgg (MetricAgg.ID m)
       {| es.Type_ := MetricAgg.Type_ m;
          es.Aggregation :=
            es.OfPipeline
              {| es.PipelineAggregation.BucketPath := bucketPath;
                 es.PipelineAggregation.Settings :=
                   snd (MetricAgg_generateSettingsForDSL m) |} |} []]
  /\ es.scopes (fst (emitPipeline m bucketPath aggBuilder)) = es.scopes aggBuilder
  /\ snd (emitPipeline m bucketPath aggBuilder) = normalizeMetricAgg m.
Proof.
  unfold emitPipeline, normalizeMetricAgg.
  destruct (MetricAgg_generateSettingsForDSL m) as [settings dsl].
  repeat split.
Qed.

Lemma emitMetric_aggDefs m aggBuilder :
  es.aggDefs (fst (emitMetric m aggBuilder))
  = es.aggDefs aggBuilder ++
    [es.MkAgg (MetricAgg.ID m)
       {| es.Type_ := MetricAgg.Type_ m;
          es.Aggregation :=
            es.OfMetric
              {| es.MetricAggregation.Type_ := MetricAgg.Type_ m;
                 es.MetricAggregation.Field := MetricAgg.Field m;
                 es.MetricAggregation.Settings :=
                   snd (MetricAgg_generateSettingsForDSL m) |} |} []]
  /\ es.scopes (fst (emitMetric m aggBuilder)) = es.scopes aggBuilder
  /\ snd (emitMetric m aggBuilder) = normalizeMetricAgg m.
Proof.
  unfold emitMetric, normalizeMetricAgg.
  destruct (MetricAgg_generateSettingsForDSL m) as [settings dsl].
  repeat split.
Qed.

(** The map built while ranging over the variables holds, under each name,
    what the reference of that name resolves to, and nothing under the
    names whose reference does not resolve. *)
Lemma bucketPaths_lookup metrics m name :
  bucketPaths metrics m !! name
  = MetricAgg.PipelineVariables m !! name ≫= resolve metrics.
Proof.
  unfold bucketPaths.
  apply (map_fold_weak_ind
           (fun (r : gmap string any) (vars : gmap string string) =>
              r !! name = vars !! name ≫= resolve metrics)).
  - rewrite !lookup_empty. reflexivity.
  - intros k ref vars r Hfresh IH.
    destruct (decide (k = name)) as [->|Hne].
    + rewrite lookup_insert_eq. cbn [mbind option_bind].
      unfold resolve.
      destruct (Atoi ref); [|rewrite IH, Hfresh; reflexivity].
      destruct (appliedAgg ref metrics) as [applied|];
        [|rewrite IH, Hfresh; reflexivity].
      destruct (String.eqb (MetricAgg.Type_ applied) countType);
        rewrite lookup_insert_eq; reflexivity.
    + rewrite (lookup_insert_ne vars) by assumption. rewrite <- IH.
      destruct (Atoi ref); [|reflexivity].
      destruct (appliedAgg ref metrics) as [applied|]; [|reflexivity].
      destruct (String.eqb (MetricAgg.Type_ applied) countType);
        rewrite lookup_insert_ne by assumption; reflexivity.
Qed.

(** The lookup finds the first metric that carries the ID, whatever comes
    after it. *)
Lemma appliedAgg_first (pre post : list MetricAgg.t) a :
  Forall (fun x => MetricAgg.ID x <> MetricAgg.ID a) pre ->
  appliedAgg (MetricAgg.ID a) (pre ++ a :: post) = Some a.
Proof.
  unfold appliedAgg. induction 1 as [|x pre Hx _ IH].
  - cbn [app find]. rewrite String.eqb_refl. reflexivity.
  - cbn [app find]. apply String.eqb_neq in Hx. rewrite Hx. exact IH.
Qed.

End Metrics.

Section Resolution.

Context `{Float} `{TypeTables}.
Implicit Types (m a : MetricAgg.t) (metrics : list MetricAgg.t)
  (aggBuilder : es.AggBuilder).

Lemma appliedAgg_none metrics ref :
  (forall a, a ∈ metrics -> MetricAgg.ID a <> ref) ->
  appliedAgg ref metrics = None.
Proof.
  intros Hno. unfold appliedAgg.
  destruct (find _ metrics) as [a|] eqn:Hfind; [|reflexivity].
  apply find_some in Hfind as [Hin Heq].
  apply String.eqb_eq in Heq. exfalso.
  apply (Hno a); [apply list_elem_of_In; assumption|assumption].
Qed.

Lemma nonempty_size (vars : gmap string string) :
  (0 <? Z.of_nat (size vars)) = negb (bool_decide (vars = ∅)).
Proof.
  case_bool_decide as Hv.
  - subst. rewrite map_size_empty. reflexivity.
  - apply Z.ltb_lt. assert (size vars <> 0%nat) by (rewrite map_size_empty_iff; assumption).
    lia.
Qed.

(** The round of a pipeline metric with several named references. *)
Lemma attachMetric_variables metrics m aggBuilder :
  MetricAgg.Type_ m <> countType ->
  isPipelineAgg (MetricAgg.Type_ m) = true ->
  isPipelineAggWithMultipleBucketPaths (MetricAgg.Type_ m) = true ->
  attachMetric metrics m aggBuilder
  = if bool_decide (MetricAgg.PipelineVariables m = ∅) then (aggBuilder, m)
    else emitPipeline m (Map (bucketPaths metrics m)) aggBuilder.
Proof.
  intros Hcount Hpipe Hmulti. unfold attachMetric.
  apply String.eqb_neq in Hcount. rewrite Hcount, Hpipe, Hmulti, nonempty_size.
  destruct (bool_decide _); reflexivity.
Qed.

End Resolution.

(** ** The tree behind a builder *)

Section Tree.

Implicit Types (a : es.Agg) (l inner : list es.Agg) (s : es.scope)
  (B : es.AggBuilder).

Lemma treeKeys_app l l' : treeKeys (l ++ l') = treeKeys l ++ treeKeys l'.
Proof. unfold treeKeys. rewrite map_app, concat_app. reflexivity. Qed.

Lemma treeNodes_app l l' : treeNodes (l ++ l') = treeNodes l ++ treeNodes l'.
Proof. unfold treeNodes. rewrite map_app, concat_app. reflexivity. Qed.

Lemma treeDepth_app l l' :
  treeDepth (l ++ l') = Nat.max (treeDepth l) (treeDepth l').
Proof.
  unfold treeDepth. induction l as [|a l IH]; [reflexivity|].
  cbn [app map foldr]. rewrite IH. lia.
Qed.

Lemma metricLeaf_keys a : metricLeaf a -> bucketKeys a = [].
Proof. destruct a as [k c aggs]. intros (_ & Hb & _). cbn. rewrite Hb. reflexivity. Qed.

Lemma metricLeaf_depth a : metricLeaf a -> nestingDepth a = 0%nat.
Proof. destruct a as [k c aggs]. intros (_ & Hb & _). cbn. rewrite Hb. reflexivity. Qed.

Lemma metricLeaf_nodes a : metricLeaf a -> Forall notCount (nodes a).
Proof.
  destruct a as [k c aggs]. intros (-> & _ & Hc). cbn.
  constructor; [exact Hc|constructor].
Qed.

Lemma leaves_keys l : Forall metricLeaf l -> treeKeys l = [].
Proof.
  unfold treeKeys. induction 1 as [|a l Ha _ IH]; [reflexivity|].
  cbn [map concat]. rewrite (metricLeaf_keys a Ha), IH. reflexivity.
Qed.

Lemma leaves_depth l : Forall metricLeaf l -> treeDepth l = 0%nat.
Proof.
  unfold treeDepth. induction 1 as [|a l Ha _ IH]; [reflexivity|].
  cbn [map foldr]. rewrite (metricLeaf_depth a Ha), IH. reflexivity.
Qed.

Lemma leaves_nodes l : Forall metricLeaf l -> Forall notCount (treeNodes l).
Proof.
  unfold treeNodes. induction 1 as [|a l Ha _ IH]; [constructor|].
  cbn [map concat]. apply Forall_app. split; [apply metricLeaf_nodes, Ha|exact IH].
Qed.

Lemma close_keys s inner :
  bucketScope s -> treeKeys (es.close inner s) = es.key s :: treeKeys inner.
Proof.
  intros (Hsib & Hb & _). unfold es.close.
  rewrite treeKeys_app, (leaves_keys _ Hsib). unfold treeKeys at 1.
  cbn [map concat bucketKeys app]. rewrite Hb, app_nil_r. reflexivity.
Qed.

Lemma close_depth s inner :
  bucketScope s -> treeDepth (es.close inner s) = S (treeDepth inner).
Proof.
  intros (Hsib & Hb & _). unfold es.close.
  rewrite treeDepth_app, (leaves_depth _ Hsib). unfold treeDepth at 1.
  cbn [map foldr nestingDepth]. rewrite Hb. fold (treeDepth inner). lia.
Qed.

Lemma close_nodes s inner :
  bucketScope s -> Forall notCount (treeNodes inner) ->
  Forall notCount (treeNodes (es.close inner s)).
Proof.
  intros (Hsib & _ & Hc) Hinner. unfold es.close.
  rewrite treeNodes_app. apply Forall_app. split; [apply leaves_nodes, Hsib|].
  unfold treeNodes. cbn [map concat nodes]. rewrite app_nil_r.
  constructor; assumption.
Qed.

Lemma fold_close_keys (ss : list es.scope) inner :
  Forall bucketScope ss ->
  treeKeys (fold_left es.close ss inner) = rev (map es.key ss) ++ treeKeys inner.
Proof.
  intros Hss. revert inner. induction Hss as [|s ss Hs _ IH]; intros inner.
  - reflexivity.
  - cbn [fold_left map rev]. rewrite IH, close_keys by assumption.
    rewrite <- app_assoc. reflexivity.
Qed.

Lemma fold_close_depth (ss : list es.scope) inner :
  Forall bucketScope ss ->
  treeDepth (fold_left es.close ss inner) = (length ss + treeDepth inner)%nat.
Proof.
  intros Hss. revert inner. induction Hss as [|s ss Hs _ IH]; intros inner.
  - reflexivity.
  - cbn [fold_left length]. rewrite IH, close_depth by assumption. lia.
Qed.

Lemma fold_close_nodes (ss : list es.scope) inner :
  Forall bucketScope ss -> Forall notCount (treeNodes inner) ->
  Forall notCount (treeNodes (fold_left es.close ss inner)).
Proof.
  intros Hss. revert inner. induction Hss as [|s ss Hs _ IH]; intros inner Hinner.
  - exact Hinner.
  - cbn [fold_left]. apply IH, close_nodes; assumption.
Qed.

(** Reading a shaped builder: the keys of its scopes, outermost first, are
    the bucket keys of the tree; its depth is the number of scopes; no node
    is of type count. *)
Lemma shaped_keys B :
  shaped B -> treeKeys (es.Build B) = rev (map es.key (es.scopes B)).
Proof.
  intros [Hdefs Hscopes]. unfold es.Build.
  rewrite fold_close_keys, (leaves_keys _ Hdefs), app_nil_r by assumption.
  reflexivity.
Qed.

Lemma shaped_depth B :
  shaped B -> treeDepth (es.Build B) = length (es.scopes B).
Proof.
  intros [Hdefs Hscopes]. unfold es.Build.
  rewrite fold_close_depth, (leaves_depth _ Hdefs) by assumption. lia.
Qed.

Lemma shaped_nodes B : shaped B -> Forall notCount (treeNodes (es.Build B)).
Proof.
  intros [Hdefs Hscopes]. unfold es.Build.
  apply fold_close_nodes; [assumption|apply leaves_nodes, Hdefs].
Qed.

Lemma fold_close_incl (ss : list es.scope) inner :
  treeNodes inner ⊆ treeNodes (fold_left es.close ss inner).
Proof.
  revert inner. induction ss as [|s ss IH]; intros inner; [done|].
  cbn [fold_left]. etrans; [|apply IH].
  unfold es.close. rewrite treeNodes_app. unfold treeNodes at 3.
  cbn [map concat nodes]. rewrite app_nil_r.
  intros x Hx. apply elem_of_app. right. apply elem_of_cons. right. exact Hx.
Qed.

(** What the current scope holds is part of the tree. *)
Lemma Build_aggDefs B a :
  a ∈ es.aggDefs B -> nodes a ⊆ treeNodes (es.Build B).
Proof.
  intros Ha. unfold es.Build. etrans; [|apply fold_close_incl].
  unfold treeNodes. intros x Hx.
  apply list_elem_of_In, in_concat. exists (nodes a). split.
  - apply in_map. apply list_elem_of_In. exact Ha.
  - apply list_elem_of_In. exact Hx.
Qed.

Lemma shaped_new : shaped es.newAggBuilder.
Proof. split; constructor. Qed.

Lemma shaped_append key c B :
  isBucket c = false -> es.Type_ c <> countType ->
  shaped B -> shaped (es.append key c B).
Proof.
  intros Hb Hc [Hdefs Hscopes]. split; [|exact Hscopes].
  cbn [es.append es.aggDefs]. apply Forall_app. split; [exact Hdefs|].
  constructor; [|constructor]. repeat split; assumption.
Qed.

Lemma shaped_nest key c b B :
  isBucket c = true -> es.Type_ c <> countType ->
  shaped b -> shaped B -> shaped (es.nest key c b B).
Proof.
  intros Hb Hc [Hbdefs Hbscopes] [Hdefs Hscopes]. split; [exact Hbdefs|].
  cbn [es.nest es.scopes]. apply Forall_app. split; [exact Hbscopes|].
  constructor; [|exact Hscopes]. repeat split; assumption.
Qed.

End Tree.

(** ** The bucket aggregation loop *)

Section Buckets.

Context `{Float} `{TypeTables}.
Implicit Types (B aggBuilder : es.AggBuilder) (bucketAgg : BucketAgg.t)
  (metrics : list MetricAgg.t).

Lemma normalized_filters bucketAgg :
  Get "filters" (BucketAgg.Settings (normalizeBucketAgg bucketAgg))
  = Get "filters" (BucketAgg.Settings bucketAgg).
Proof.
  unfold normalizeBucketAgg, BucketAgg_generateSettingsForDSL, NewFromAny.
  cbn [snd BucketAgg.setSettings BucketAgg.Settings].
  rewrite Get_MustMap. unfold setIntPath.
  destruct (String_ _); [|reflexivity].
  destruct (ParseInt _); [|reflexivity].
  apply (GetPath_SetPath_diverge ["filters"] ["min_doc_count"]). reflexivity.
Qed.

Lemma emitsNode_normalized bucketAgg :
  emitsNode (normalizeBucketAgg bucketAgg) = emitsNode bucketAgg.
Proof. unfold emitsNode. rewrite normalized_filters. reflexivity. Qed.

Lemma collectFilters_size (filters : list any) (acc : gmap string es.QueryStringFilter) :
  filters <> [] \/ acc <> ∅ ->
  fold_left
    (fun filters filter =>
       let query := MustString "" (Get "query" filter) in
       let label := MustString "" (Get "label" filter) in
       let label := if String.eqb label "" then query else label in
       <[label := {| es.Query := query; es.AnalyzeWildcard := true |}]> filters)
    filters acc <> ∅.
Proof.
  revert acc. induction filters as [|f filters IH]; intros acc Hne.
  - destruct Hne; [congruence|assumption].
  - cbn [fold_left]. apply IH. right. apply insert_non_empty.
Qed.

Lemma addFiltersAgg_cases aggBuilder bucketAgg :
  addFiltersAgg aggBuilder bucketAgg
  = if negb (Nat.eqb (length (MustArray (Get "filters" (BucketAgg.Settings bucketAgg)))) 0)
    then es.nest (BucketAgg.ID bucketAgg)
           {| es.Type_ := "filters";
              es.Aggregation :=
                es.OfFilters
                  (es.FiltersAggregation.mk
                     (collectFilters (BucketAgg.Settings bucketAgg))) |}
           es.newAggBuilder aggBuilder
    else aggBuilder.
Proof.
  unfold addFiltersAgg, collectFilters.
  destruct (MustArray (Get "filters" (BucketAgg.Settings bucketAgg))) as [|f filters] eqn:Harr.
  - reflexivity.
  - cbn [length Nat.eqb negb].
    match goal with
    | |- (if 0 <? Z.of_nat (size ?m) then _ else _) = _ =>
        assert (Hm : m <> ∅) by (apply collectFilters_size; left; discriminate);
        assert (Hs : (0 <? Z.of_nat (size m)) = true)
    end.
    { apply Z.ltb_lt. rewrite <- map_size_empty_iff in Hm. lia. }
    rewrite Hs. reflexivity.
Qed.

(** What one bucket aggregation does to a shaped builder: nothing, or one
    more bucket scope keyed by its ID. *)
Lemma bucket_round metrics from to timeField bucketAgg B :
  shaped B ->
  let type := BucketAgg.Type_ bucketAgg in
  let B' :=
    if String.eqb type dateHistType then
      addDateHistogramAgg B bucketAgg from to timeField
    else if String.eqb type histogramType then addHistogramAgg B bucketAgg
    else if String.eqb type filtersType then addFiltersAgg B bucketAgg
    else if String.eqb type termsType then addTermsAgg B bucketAgg metrics
    else if String.eqb type geohashGridType then addGeoHashGridAgg B bucketAgg
    else B in
  shaped B'
  /\ map es.key (es.scopes B')
     = (if emitsNode bucketAgg then [BucketAgg.ID bucketAgg] else [])
       ++ map es.key (es.scopes B).
Proof.
  intros HB type B'. subst B'. unfold emitsNode. fold type.
  destruct (String.eqb type dateHistType).
  { split; [apply shaped_nest; try assumption; try apply shaped_new;
            [reflexivity|discriminate]|reflexivity]. }
  destruct (String.eqb type histogramType).
  { split; [apply shaped_nest; try assumption; try apply shaped_new;
            [reflexivity|discriminate]|reflexivity]. }
  destruct (String.eqb type filtersType).
  { rewrite addFiltersAgg_cases.
    destruct (negb _); [|split; [assumption|reflexivity]].
    split; [apply shaped_nest; try assumption; try apply shaped_new;
            [reflexivity|discriminate]|reflexivity]. }
  destruct (String.eqb type termsType).
  { unfold addTermsAgg, es.Terms. cbv beta.
    destruct (String_ (Get "orderBy" (BucketAgg.Settings bucketAgg))) as [orderBy|];
      [destruct (0 <? _);
       [destruct (find _ metrics) as [m|];
        [destruct (String.eqb (MetricAgg.Type_ m) "count") eqn:Hc|]|]|];
      cbv iota beta;
      (split;
       [apply shaped_nest; try assumption; try apply shaped_new;
        [reflexivity|discriminate|..]
       |reflexivity]).
    apply shaped_append; [reflexivity| |apply shaped_new].
    apply String.eqb_neq in Hc. exact Hc. }
  destruct (String.eqb type geohashGridType).
  { split; [apply shaped_nest; try assumption; try apply shaped_new;
            [reflexivity|discriminate]|reflexivity]. }
  split; [assumption|reflexivity].
Qed.

Lemma bucketAggsLoop_spec metrics from to timeField (bucketAggs : list BucketAgg.t) B :
  shaped B ->
  shaped (fst (bucketAggsLoop metrics from to timeField bucketAggs B))
  /\ map es.key (es.scopes (fst (bucketAggsLoop metrics from to timeField bucketAggs B)))
     = rev (map BucketAgg.ID (List.filter emitsNode bucketAggs))
       ++ map es.key (es.scopes B)
  /\ snd (bucketAggsLoop metrics from to timeField bucketAggs B)
     = map normalizeBucketAgg bucketAggs.
Proof.
  revert B. induction bucketAggs as [|bucketAgg rest IH]; intros B HB.
  - split; [exact HB|split; reflexivity].
  - cbn [bucketAggsLoop].
    destruct (bucket_round metrics from to timeField (normalizeBucketAgg bucketAgg) B HB)
      as [Hshaped Hkeys].
    cbv zeta in Hshaped, Hkeys.
    match type of Hshaped with shaped ?B' => set (B1 := B') in * end.
    specialize (IH B1 Hshaped) as (IH1 & IH2 & IH3).
    destruct (bucketAggsLoop metrics from to timeField rest B1) as [B2 rest'].
    cbn [fst snd] in *. split; [|split].
    + exact IH1.
    + rewrite IH2, Hkeys, emitsNode_normalized. cbn [List.filter].
      destruct (emitsNode bucketAgg); cbn [map rev app].
      * rewrite <- app_assoc. reflexivity.
      * reflexivity.
    + cbn [map]. rewrite IH3. reflexivity.
Qed.

End Buckets.

(** ** The metric loop and the builder *)

Section MetricsLoop.

Context `{Float} `{TypeTables}.
Implicit Types (B aggBuilder : es.AggBuilder) (m : MetricAgg.t)
  (metrics done todo : list MetricAgg.t).

(** A round of the metric loop keeps the scopes, adds at most a leaf, and
    leaves the metric alone or with its settings normalised. *)
Lemma attachMetric_round metrics m B :
  shaped B ->
  shaped (fst (attachMetric metrics m B))
  /\ es.scopes (fst (attachMetric metrics m B)) = es.scopes B
  /\ (snd (attachMetric metrics m B) = m
      \/ snd (attachMetric metrics m B) = normalizeMetricAgg m).
Proof.
  intros HB. unfold attachMetric.
  destruct (String.eqb (MetricAgg.Type_ m) countType) eqn:Hc;
    [repeat split; [apply HB..|left; reflexivity]|].
  apply String.eqb_neq in Hc.
  assert (Hpipe : forall bucketPath,
             shaped (fst (emitPipeline m bucketPath B))
             /\ es.scopes (fst (emitPipeline m bucketPath B)) = es.scopes B
             /\ (snd (emitPipeline m bucketPath B) = m
                 \/ snd (emitPipeline m bucketPath B) = normalizeMetricAgg m)).
  { intros bucketPath.
    destruct (emitPipeline_aggDefs m bucketPath B) as (Hdefs & Hsc & Hm).
    split; [|split; [exact Hsc|right; exact Hm]].
    split; [rewrite Hdefs|rewrite Hsc; apply HB].
    apply Forall_app. split; [apply HB|].
    constructor; [|constructor]. repeat split. exact Hc. }
  destruct (isPipelineAgg (MetricAgg.Type_ m)).
  - destruct (isPipelineAggWithMultipleBucketPaths (MetricAgg.Type_ m)).
    + destruct (0 <? _); [apply Hpipe|].
      repeat split; [apply HB..|left; reflexivity].
    + destruct (Atoi _); [|repeat split; [apply HB..|left; reflexivity]].
      destruct (appliedAgg _ _); [apply Hpipe|].
      repeat split; [apply HB..|left; reflexivity].
  - destruct (emitMetric_aggDefs m B) as (Hdefs & Hsc & Hm).
    split; [|split; [exact Hsc|right; exact Hm]].
    split; [rewrite Hdefs|rewrite Hsc; apply HB].
    apply Forall_app. split; [apply HB|].
    constructor; [|constructor]. repeat split. exact Hc.
Qed.

Lemma metricsLoop_spec done todo B :
  shaped B ->
  shaped (fst (metricsLoop done todo B))
  /\ es.scopes (fst (metricsLoop done todo B)) = es.scopes B
  /\ exists todo',
       snd (metricsLoop done todo B) = done ++ todo'
       /\ Forall2 sameButSettings todo todo'.
Proof.
  revert done B. induction todo as [|m rest IH]; intros done B HB.
  - split; [exact HB|split; [reflexivity|]].
    exists []. split; [cbn; rewrite app_nil_r; reflexivity|constructor].
  - cbn [metricsLoop].
    destruct (attachMetric_round (done ++ m :: rest) m B HB) as (Hs & Hsc & Hm).
    destruct (attachMetric (done ++ m :: rest) m B) as [B1 m'].
    cbn [fst snd] in *.
    destruct (IH (done ++ [m']) B1 Hs) as (IH1 & IH2 & todo' & IH3 & IH4).
    split; [exact IH1|split; [congruence|]].
    exists (m' :: todo'). split.
    + rewrite IH3, <- app_assoc. reflexivity.
    + constructor; assumption.
Qed.

(** Every round appends what it adds, whatever the builder holds. *)
Lemma attachMetric_added metrics m B :
  es.aggDefs (fst (attachMetric metrics m B))
  = es.aggDefs B ++ added metrics m.
Proof.
  unfold added, attachMetric.
  assert (Hpipe : forall bucketPath,
             es.aggDefs (fst (emitPipeline m bucketPath B))
             = es.aggDefs B
               ++ es.aggDefs (fst (emitPipeline m bucketPath es.newAggBuilder))).
  { intros bucketPath.
    destruct (emitPipeline_aggDefs m bucketPath B) as (-> & _).
    destruct (emitPipeline_aggDefs m bucketPath es.newAggBuilder) as (-> & _).
    reflexivity. }
  destruct (String.eqb (MetricAgg.Type_ m) countType);
    [cbn [fst]; rewrite app_nil_r; reflexivity|].
  destruct (isPipelineAgg (MetricAgg.Type_ m)).
  - destruct (isPipelineAggWithMultipleBucketPaths (MetricAgg.Type_ m)).
    + destruct (0 <? _); [apply Hpipe|].
      cbn [fst]. rewrite app_nil_r. reflexivity.
    + destruct (Atoi _); [|cbn [fst]; rewrite app_nil_r; reflexivity].
      destruct (appliedAgg _ _); [apply Hpipe|].
      cbn [fst]. rewrite app_nil_r. reflexivity.
  - destruct (emitMetric_aggDefs m B) as (-> & _).
    destruct (emitMetric_aggDefs m es.newAggBuilder) as (-> & _).
    reflexivity.
Qed.

(** Normalising settings changes neither IDs nor types, so a lookup in the
    list as the loop has left it finds a metric of the same type as in the
    list the loop started from. *)
Lemma appliedAgg_same (l l' : list MetricAgg.t) id :
  Forall2 sameButSettings l l' ->
  MetricAgg.Type_ <$> appliedAgg id l' = MetricAgg.Type_ <$> appliedAgg id l.
Proof.
  unfold appliedAgg. induction 1 as [|x x' l l' Hx _ IH]; [reflexivity|].
  cbn [find].
  assert (Hid : MetricAgg.ID x' = MetricAgg.ID x)
    by (destruct Hx as [->| ->]; reflexivity).
  assert (Hty : MetricAgg.Type_ x' = MetricAgg.Type_ x)
    by (destruct Hx as [->| ->]; reflexivity).
  rewrite Hid. destruct (String.eqb (MetricAgg.ID x) id); [|exact IH].
  cbn. rewrite Hty. reflexivity.
Qed.

Lemma resolve_same (l l' : list MetricAgg.t) ref :
  Forall2 sameButSettings l l' -> resolve l' ref = resolve l ref.
Proof.
  intros Hl. unfold resolve. pose proof (appliedAgg_same l l' ref Hl) as Hty.
  destruct (Atoi ref); [|reflexivity].
  destruct (appliedAgg ref l') as [x'|], (appliedAgg ref l) as [x|];
    cbn in Hty; try discriminate; [|reflexivity].
  injection Hty as ->. reflexivity.
Qed.

Lemma attachMetric_same (l l' : list MetricAgg.t) m B :
  Forall2 sameButSettings l l' -> attachMetric l' m B = attachMetric l m B.
Proof.
  intros Hl. unfold attachMetric.
  destruct (String.eqb (MetricAgg.Type_ m) countType); [reflexivity|].
  destruct (isPipelineAgg (MetricAgg.Type_ m)); [|reflexivity].
  destruct (isPipelineAggWithMultipleBucketPaths (MetricAgg.Type_ m)).
  - destruct (0 <? _); [|reflexivity].
    assert (Hpaths : bucketPaths l' m = bucketPaths l m).
    { apply map_eq. intros name.
      rewrite !bucketPaths_lookup.
      destruct (MetricAgg.PipelineVariables m !! name) as [ref|]; [|reflexivity].
      cbn [mbind option_bind]. apply resolve_same, Hl. }
    rewrite Hpaths. reflexivity.
  - pose proof (appliedAgg_same l l' (MetricAgg.PipelineAggregate m) Hl) as Hty.
    destruct (Atoi _); [|reflexivity].
    destruct (appliedAgg _ l') as [x'|], (appliedAgg _ l) as [x|];
      cbn in Hty; try discriminate; [|reflexivity].
    injection Hty as ->. reflexivity.
Qed.

Lemma sameButSettings_refl (l : list MetricAgg.t) : Forall2 sameButSettings l l.
Proof. induction l; constructor; [left; reflexivity|assumption]. Qed.

(** The leaves the loop hangs into the innermost scope: for each metric in
    turn, what its round adds; the lookups may as well go to the list the
    loop started from. *)
Lemma metricsLoop_added (done0 done todo : list MetricAgg.t) B :
  shaped B ->
  Forall2 sameButSettings done0 done ->
  es.aggDefs (fst (metricsLoop done todo B))
  = es.aggDefs B ++ flat_map (added (done0 ++ todo)) todo.
Proof.
  revert done0 done B. induction todo as [|m rest IH]; intros done0 done B HB Hdone.
  - cbn. rewrite app_nil_r. reflexivity.
  - cbn [metricsLoop flat_map].
    assert (Hall : Forall2 sameButSettings (done0 ++ m :: rest) (done ++ m :: rest)).
    { apply Forall2_app; [exact Hdone|apply sameButSettings_refl]. }
    rewrite (attachMetric_same _ _ m B Hall).
    pose proof (attachMetric_round (done0 ++ m :: rest) m B HB) as (Hs & _ & Hm).
    pose proof (attachMetric_added (done0 ++ m :: rest) m B) as Hadd.
    destruct (attachMetric (done0 ++ m :: rest) m B) as [B1 m'].
    cbn [fst snd] in *.
    rewrite (IH (done0 ++ [m]) (done ++ [m']) B1 Hs).
    + rewrite Hadd, <- !app_assoc. reflexivity.
    + apply Forall2_app; [exact Hdone|]. constructor; [exact Hm|constructor].
Qed.

End MetricsLoop.

(** ** [processQuery] as a whole *)

Section ProcessQuery.

Context `{Float} `{TypeTables}.
Context {Request Response : Type} {client : Client Request Response}.
Variable Calculate : backend.TimeRange -> Z -> Z -> es.Interval.

Implicit Types (e : timeSeriesQuery) (q : Query.t)
  (ms : es.MultiSearchRequestBuilder) (result : backend.QueryDataResponse).

(** The only error [processQuery] returns is the client's refusal of the
    interval; the only panic is the read of the first data query. *)
Lemma processQuery_outcome e q ms from to result :
  match GetMinInterval (Query.Interval q) with
  | inl err => processQuery Calculate e q ms from to result = Err err
  | inr _ =>
      match dataQueries e with
      | [] => processQuery Calculate e q ms from to result
              = Panic (IndexOutOfRange 0 0)
      | _ :: _ =>
          exists q' b,
            processQuery Calculate e q ms from to result
            = Ok (q', ms ++ [b],
                  if (length (Query.BucketAggs q) =? 0)%nat
                     && match Query.Metrics q with
                        | [] => true
                        | metric :: _ =>
                            negb (String.eqb (MetricAgg.Type_ metric) "raw_data"
                                  || String.eqb (MetricAgg.Type_ metric) "raw_document"
                                  || String.eqb (MetricAgg.Type_ metric) "logs")
                        end
                  then {| backend.Responses :=
                            <[Query.RefID q := invalidQuery]>
                              (backend.Responses result) |}
                  else result)
            /\ Forall shaped (es.SearchRequestBuilder.aggBuilders b)
      end
  end.
Proof.
  unfold processQuery.
  destruct (GetMinInterval (Query.Interval q)) as [err|minInterval]; [reflexivity|].
  destruct e as [[|dq dqs]]; [reflexivity|].
  cbn [lift mbind outcome_bind dataQueries index nth_error].
  destruct (Query.BucketAggs q) as [|bucketAgg rest] eqn:Hb.
  - cbn [length Nat.eqb andb].
    destruct (Query.Metrics q) as [|metric metrics].
    { eexists _, _. split; [reflexivity|constructor]. }
    destruct (negb _).
    { eexists _, _. split; [reflexivity|constructor]. }
    destruct (String.eqb (MetricAgg.Type_ metric) "logs").
    + cbn [app index nth_error mbind outcome_bind].
      eexists _, _. split; [reflexivity|].
      cbn [es.SearchRequestBuilder.setAgg es.SearchRequestBuilder.aggBuilders
           es.SearchRequestBuilder.AddHighlight es.SearchRequestBuilder.Size
           es.SearchRequestBuilder.AddDocValueField es.SearchRequestBuilder.SortDesc
           es.SearchRequestBuilder.AddFilter es.SearchRequestBuilder.new app].
      constructor; [|constructor].
      apply shaped_nest; try apply shaped_new; [reflexivity|discriminate].
    + eexists _, _. split; [reflexivity|constructor].
  - cbn [length Nat.eqb andb].
    pose proof (bucketAggsLoop_spec (Query.Metrics q) from to GetTimeField
                  (bucketAgg :: rest) es.newAggBuilder shaped_new) as (Hs & _ & _).
    destruct (bucketAggsLoop _ _ _ _ (bucketAgg :: rest) _) as [B1 bucketAggs'].
    cbn [fst] in Hs.
    pose proof (metricsLoop_spec [] (Query.Metrics q) B1 Hs) as (Hs' & _ & _).
    destruct (metricsLoop [] (Query.Metrics q) B1) as [B2 metrics'].
    cbn [fst] in Hs'.
    eexists _, _. split; [reflexivity|].
    constructor; [exact Hs'|constructor].
Qed.

(** A query with bucket aggregations: what the call returns. *)
Lemma processQuery_aggs e q ms from to result minInterval :
  Query.BucketAggs q <> [] ->
  GetMinInterval (Query.Interval q) = inr minInterval ->
  dataQueries e <> [] ->
  exists b B metrics',
    processQuery Calculate e q ms from to result
    = Ok (Query.setMetrics metrics'
            (Query.setBucketAggs (map normalizeBucketAgg (Query.BucketAggs q)) q),
          ms ++ [b], result)
    /\ es.SearchRequestBuilder.aggBuilders b = [B]
    /\ shaped B
    /\ map es.key (es.scopes B)
       = rev (map BucketAgg.ID (List.filter emitsNode (Query.BucketAggs q)))
    /\ Forall2 sameButSettings
         (Query.Metrics q) metrics'
    /\ exists leaves,
         es.aggDefs B
         = leaves ++ flat_map (added (Query.Metrics q)) (Query.Metrics q).
Proof.
  intros Hb Hmin He. unfold processQuery. rewrite Hmin.
  destruct e as [[|dq dqs]]; [contradiction|].
  cbn [lift mbind outcome_bind dataQueries index nth_error].
  destruct (Query.BucketAggs q) as [|bucketAgg rest] eqn:Hq; [contradiction|].
  cbn [length Nat.eqb].
  pose proof (bucketAggsLoop_spec (Query.Metrics q) from to GetTimeField
                (bucketAgg :: rest) es.newAggBuilder shaped_new) as (Hs & Hk & Hn).
  destruct (bucketAggsLoop _ _ _ _ (bucketAgg :: rest) _) as [B1 bucketAggs'].
  cbn [fst snd] in Hs, Hk, Hn.
  pose proof (metricsLoop_spec [] (Query.Metrics q) B1 Hs)
    as (Hs' & Hk' & todo' & Hm & Hf).
  pose proof (metricsLoop_added [] [] (Query.Metrics q) B1 Hs
                (sameButSettings_refl []))
    as Hadd.
  destruct (metricsLoop [] (Query.Metrics q) B1) as [B2 metrics'].
  cbn [fst snd app] in Hs', Hk', Hm, Hadd.
  eexists _, B2, metrics'. split; [rewrite Hn; reflexivity|].
  split; [reflexivity|]. split; [exact Hs'|].
  split; [|split].
  - rewrite Hk', Hk. cbn [es.newAggBuilder es.scopes map]. apply app_nil_r.
  - subst metrics'. exact Hf.
  - exists (es.aggDefs B1). exact Hadd.
Qed.

(** What the round of a metric adds is part of the request built for its
    query. *)
Lemma processQuery_attached e q ms from to result q' ms' result' m a :
  Query.BucketAggs q <> [] ->
  processQuery Calculate e q ms from to result = Ok (q', ms', result') ->
  m ∈ Query.Metrics q ->
  a ∈ added (Query.Metrics q) m ->
  nodes a ⊆ treeNodes (lastAggs ms').
Proof.
  intros Hb Hrun Hm Ha.
  pose proof (processQuery_outcome e q ms from to result) as Hout.
  destruct (GetMinInterval (Query.Interval q)) as [err|minInterval] eqn:Hmin;
    [congruence|].
  destruct (dataQueries e) as [|dq dqs] eqn:He; [congruence|].
  clear Hout.
  destruct (processQuery_aggs e q ms from to result minInterval Hb Hmin)
    as (b & B & metrics' & Heq & Hagg & _ & _ & _ & leaves & Hleaves);
    [congruence|].
  rewrite Heq in Hrun. injection Hrun as _ <- _.
  unfold lastAggs. rewrite last_snoc, Hagg. cbn [map concat].
  rewrite app_nil_r. apply Build_aggDefs.
  rewrite Hleaves. apply elem_of_app. right.
  apply list_elem_of_In, in_flat_map. exists m.
  split; apply list_elem_of_In; assumption.
Qed.

(** A query with bucket aggregations is answered without an error of the
    translator's own and without an entry in the responses. *)
Lemma processQuery_aggs_quiet e q ms from to result :
  Query.BucketAggs q <> [] ->
  match processQuery Calculate e q ms from to result with
  | Ok (_, _, result') => result' = result
  | Err err => GetMinInterval (Query.Interval q) = inl err
  | Panic _ => dataQueries e = []
  end.
Proof.
  intros Hb.
  pose proof (processQuery_outcome e q ms from to result) as Hout.
  destruct (GetMinInterval (Query.Interval q)) as [err|minInterval];
    [rewrite Hout; reflexivity|].
  destruct (dataQueries e) as [|dq dqs]; [rewrite Hout; reflexivity|].
  destruct Hout as (q1 & b & -> & _).
  destruct (Query.BucketAggs q); [contradiction|reflexivity].
Qed.

Lemma lastAggs_snoc ms (b : es.SearchRequestBuilder.t) (B : es.AggBuilder) :
  es.SearchRequestBuilder.aggBuilders b = [B] -> lastAggs (ms ++ [b]) = es.Build B.
Proof.
  intros Hb. unfold lastAggs. rewrite last_snoc, Hb. cbn [map concat].
  apply app_nil_r.
Qed.

End ProcessQuery.

(** ** The nodes a builder holds *)

Section BuilderNodes.

Implicit Types (B b : es.AggBuilder) (c : es.aggContainer) (key : string)
  (P : string * es.aggContainer -> Prop).

Lemma treeNodes_leaf (l : list es.Agg) key c :
  treeNodes (l ++ [es.MkAgg key c []]) = treeNodes l ++ [(key, c)].
Proof. rewrite treeNodes_app. reflexivity. Qed.

Lemma builderNodes_new P : Forall P (builderNodes es.newAggBuilder).
Proof. constructor. Qed.

Lemma builderNodes_append P key c B :
  P (key, c) -> Forall P (builderNodes B) ->
  Forall P (builderNodes (es.append key c B)).
Proof.
  unfold builderNodes. cbn [es.append es.aggDefs es.scopes].
  rewrite treeNodes_leaf, !Forall_app, Forall_singleton. tauto.
Qed.

Lemma builderNodes_nest P key c b B :
  P (key, c) -> Forall P (builderNodes b) -> Forall P (builderNodes B) ->
  Forall P (builderNodes (es.nest key c b B)).
Proof.
  unfold builderNodes. cbn [es.nest es.aggDefs es.scopes].
  rewrite flat_map_app. cbn [flat_map es.key es.container es.siblings].
  rewrite !Forall_app, Forall_cons, ?Forall_app. tauto.
Qed.

Lemma builderNodes_same P B B' :
  es.aggDefs B' = es.aggDefs B -> es.scopes B' = es.scopes B ->
  Forall P (builderNodes B) -> Forall P (builderNodes B').
Proof. unfold builderNodes. intros -> ->. tauto. Qed.

Lemma fold_close_Forall P (ss : list es.scope) (inner : list es.Agg) :
  Forall P (treeNodes inner) ->
  Forall P (flat_map (fun s => (es.key s, es.container s)
                               :: treeNodes (es.siblings s)) ss) ->
  Forall P (treeNodes (fold_left es.close ss inner)).
Proof.
  revert inner. induction ss as [|s ss IH]; intros inner Hinner Hss.
  - exact Hinner.
  - cbn [fold_left flat_map] in *.
    apply Forall_app in Hss as [Hs Hss]. apply Forall_cons in Hs as [Hnode Hsib].
    apply IH; [|exact Hss].
    unfold es.close. rewrite treeNodes_app. apply Forall_app.
    split; [exact Hsib|].
    unfold treeNodes at 1. cbn [map concat nodes]. rewrite app_nil_r.
    constructor; assumption.
Qed.

(** Whatever holds of the nodes a builder holds, holds of the nodes of the
    tree built from it. *)
Lemma Build_Forall P B :
  Forall P (builderNodes B) -> Forall P (treeNodes (es.Build B)).
Proof.
  unfold builderNodes, es.Build. rewrite Forall_app. intros [Hdefs Hss].
  apply fold_close_Forall; assumption.
Qed.

End BuilderNodes.

(** The bucket loop adds bucket nodes, and metric nodes for the ordering
    of terms aggregations: never a pipeline node. *)
Section NoPipeline.

Context `{Float} `{TypeTables}.
Implicit Types (B : es.AggBuilder) (bucketAgg : BucketAgg.t)
  (metrics : list MetricAgg.t).

Lemma bucketAggsLoop_no_pipeline metrics from to timeField
    (bucketAggs : list BucketAgg.t) B :
  Forall (fun kc => isPipeline (snd kc) = false) (builderNodes B) ->
  Forall (fun kc => isPipeline (snd kc) = false)
    (builderNodes
       (fst (bucketAggsLoop metrics from to timeField bucketAggs B))).
Proof.
  revert B. induction bucketAggs as [|bucketAgg rest IH]; intros B HB.
  - exact HB.
  - cbn [bucketAggsLoop].
    match goal with
    | |- Forall _ (builderNodes (fst (let '(_, _) :=
                                        bucketAggsLoop _ _ _ _ _ ?B1 in _))) =>
        assert (HB1 : Forall (fun kc => isPipeline (snd kc) = false)
                        (builderNodes B1));
        [|specialize (IH B1 HB1);
          destruct (bucketAggsLoop metrics from to timeField rest B1);
          exact IH]
    end.
    destruct (String.eqb _ dateHistType).
    { apply builderNodes_nest; [reflexivity|apply builderNodes_new|exact HB]. }
    destruct (String.eqb _ histogramType).
    { apply builderNodes_nest; [reflexivity|apply builderNodes_new|exact HB]. }
    destruct (String.eqb _ filtersType).
    { rewrite addFiltersAgg_cases. destruct (negb _); [|exact HB].
      apply builderNodes_nest; [reflexivity|apply builderNodes_new|exact HB]. }
    destruct (String.eqb _ termsType).
    { unfold addTermsAgg, es.Terms. cbv beta.
      destruct (String_ (Get "orderBy" _)) as [orderBy|];
        [destruct (0 <? _);
         [destruct (find _ metrics) as [m|];
          [destruct (String.eqb (MetricAgg.Type_ m) "count")|]|]|];
        cbv iota beta;
        (apply builderNodes_nest; [reflexivity| |exact HB]);
        try apply builderNodes_new.
      apply builderNodes_append; [reflexivity|apply builderNodes_new]. }
    destruct (String.eqb _ geohashGridType); [|exact HB].
    apply builderNodes_nest; [reflexivity|apply builderNodes_new|exact HB].
Qed.

End NoPipeline.

(** The builder of the request for a query with bucket aggregations: the
    scopes the bucket loop has opened, and in the innermost one what the
    bucket loop left there, then what the round of each metric adds. *)
Section RequestBuilder.

Context `{Float} `{TypeTables}.
Context {Request Response : Type} {client : Client Request Response}.
Variable Calculate : backend.TimeRange -> Z -> Z -> es.Interval.

Lemma processQuery_builder (e : timeSeriesQuery) (q : Query.t)
    (ms : es.MultiSearchRequestBuilder) from to
    (result : backend.QueryDataResponse) q' ms' result' :
  Query.BucketAggs q <> [] ->
  processQuery Calculate e q ms from to result = Ok (q', ms', result') ->
  exists b B,
    ms' = ms ++ [b]
    /\ es.SearchRequestBuilder.aggBuilders b = [B]
    /\ let B0 :=
         fst (bucketAggsLoop (Query.Metrics q) from to GetTimeField
                (Query.BucketAggs q) es.newAggBuilder) in
       es.scopes B = es.scopes B0
       /\ es.aggDefs B
          = es.aggDefs B0
            ++ flat_map (added (Query.Metrics q)) (Query.Metrics q).
Proof.
  intros Hb. unfold processQuery.
  destruct (GetMinInterval (Query.Interval q)) as [err|minInterval];
    [discriminate|].
  destruct e as [[|dq dqs]]; [discriminate|].
  cbn [lift mbind outcome_bind dataQueries index nth_error].
  destruct (Query.BucketAggs q) as [|bucketAgg rest] eqn:Hq; [contradiction|].
  cbn [length Nat.eqb].
  pose proof (bucketAggsLoop_spec (Query.Metrics q) from to GetTimeField
                (bucketAgg :: rest) es.newAggBuilder shaped_new) as (Hs & _ & _).
  destruct (bucketAggsLoop _ _ _ _ (bucketAgg :: rest) _) as [B1 bucketAggs'].
  cbn [fst] in Hs |- *.
  pose proof (metricsLoop_spec [] (Query.Metrics q) B1 Hs) as (_ & Hsc & _).
  pose proof (metricsLoop_added [] [] (Query.Metrics q) B1 Hs
                (sameButSettings_refl [])) as Hadd.
  destruct (metricsLoop [] (Query.Metrics q) B1) as [B2 metrics'].
  cbn [fst app] in Hsc, Hadd.
  intros [= _ <- _]. eexists _, B2.
  split; [reflexivity|]. split; [reflexivity|]. split; assumption.
Qed.

End RequestBuilder.

Section Claims.

Context `{Float} `{TypeTables}.
Context {Request Response : Type} {client : Client Request Response}.
Variable Calculate : backend.TimeRange -> Z -> Z -> es.Interval.
Variable parseQuery : list backend.DataQuery -> error + list Query.t.
Variable parseResponse :
  Response -> list Query.t -> error + backend.QueryDataResponse.

Implicit Types (e : timeSeriesQuery) (q : Query.t)
  (ms : es.MultiSearchRequestBuilder) (result : backend.QueryDataResponse)
  (m a : MetricAgg.t) (metrics : list MetricAgg.t)
  (aggBuilder : es.AggBuilder).

(** C1 (as amended). A pipeline metric with several named references: a
    reference that is not integer-like, or names no sibling metric, is left
    out of the bucket-path mapping, the others map to what they resolve to;
    a pipeline node carrying that mapping is added whenever
    [PipelineVariables] is non-empty, whether or not the mapping is, and it
    is part of the request built for the query; the metric is passed over
    only when [PipelineVariables] itself is empty.  None of this makes the
    call fail or leaves an entry in the responses. *)
Theorem pipeline_variables_mapping metrics m aggBuilder :
  MetricAgg.Type_ m <> countType ->
  isPipelineAgg (MetricAgg.Type_ m) = true ->
  isPipelineAggWithMultipleBucketPaths (MetricAgg.Type_ m) = true ->
  (forall name ref,
      MetricAgg.PipelineVariables m !! name = Some ref ->
      Atoi ref = None \/ (forall a, a ∈ metrics -> MetricAgg.ID a <> ref) ->
      bucketPaths metrics m !! name = None)
  /\ (forall name,
      bucketPaths metrics m !! name
      = MetricAgg.PipelineVariables m !! name ≫= resolve metrics)
  /\ (MetricAgg.PipelineVariables m <> ∅ ->
      attachMetric metrics m aggBuilder
      = emitPipeline m (Map (bucketPaths metrics m)) aggBuilder
      /\ es.aggDefs (fst (attachMetric metrics m aggBuilder))
         = es.aggDefs aggBuilder
           ++ [pipelineNode m (Map (bucketPaths metrics m))]
      /\ forall e q ms from to result q' ms' result',
           Query.Metrics q = metrics -> m ∈ metrics ->
           Query.BucketAggs q <> [] ->
           processQuery Calculate e q ms from to result
           = Ok (q', ms', result') ->
           nodes (pipelineNode m (Map (bucketPaths metrics m)))
           ⊆ treeNodes (lastAggs ms'))
  /\ (MetricAgg.PipelineVariables m = ∅ ->
      attachMetric metrics m aggBuilder = (aggBuilder, m))
  /\ (forall e q ms from to result,
      m ∈ Query.Metrics q -> Query.BucketAggs q <> [] ->
      match processQuery Calculate e q ms from to result with
      | Ok (_, _, result') => result' = result
      | Err err => GetMinInterval (Query.Interval q) = inl err
      | Panic _ => dataQueries e = []
      end).
Proof.
  intros Hcount Hpipe Hmulti.
  assert (Hstep : forall B, attachMetric metrics m B
                  = if bool_decide (MetricAgg.PipelineVariables m = ∅)
                    then (B, m)
                    else emitPipeline m (Map (bucketPaths metrics m)) B).
  { intros B. apply attachMetric_variables; assumption. }
  split; [|split; [|split; [|split]]];
    [..|intros e q ms from to result _ Hb; apply processQuery_aggs_quiet, Hb].
  - intros name ref Hvar Hbad. rewrite bucketPaths_lookup, Hvar.
    cbn [mbind option_bind]. unfold resolve.
    destruct Hbad as [Hparse|Hno].
    + rewrite Hparse. reflexivity.
    + rewrite (appliedAgg_none _ _ Hno). destruct (Atoi ref); reflexivity.
  - intros name. apply bucketPaths_lookup.
  - intros Hne. rewrite Hstep, bool_decide_eq_false_2 by assumption.
    split; [reflexivity|]. split; [apply emitPipeline_aggDefs|].
    intros e q ms from to result q' ms' result' Hq Hm Hb Hrun. subst metrics.
    apply (processQuery_attached Calculate e q ms from to result q' ms' result' m);
      try assumption.
    unfold added. rewrite Hstep, bool_decide_eq_false_2 by assumption.
    destruct (emitPipeline_aggDefs m (Map (bucketPaths (Query.Metrics q) m))
                es.newAggBuilder) as (-> & _).
    apply list_elem_of_here.
  - intros He. rewrite Hstep, bool_decide_eq_true_2 by assumption.
    reflexivity.
Qed.

(** C3 (as amended). A pipeline metric whose reference is an integer-like
    ID stands for the first metric of the query, in declared order, that
    carries this ID: [a], with no metric of that ID before it.  The path
    is ["_count"] when [a] is a count, and the ID otherwise: as the bucket
    path of the node in the single-reference form, under the variable's
    name in the multi-variable form; and that node is part of the request
    built for the query. *)
Theorem count_sibling_sentinel (pre post : list MetricAgg.t) m a aggBuilder :
  MetricAgg.Type_ m <> countType ->
  isPipelineAgg (MetricAgg.Type_ m) = true ->
  Forall (fun x => MetricAgg.ID x <> MetricAgg.ID a) pre ->
  is_Some (Atoi (MetricAgg.ID a)) ->
  let metrics := pre ++ a :: post in
  let path :=
    Str (if String.eqb (MetricAgg.Type_ a) countType then "_count"
         else MetricAgg.ID a) in
  (MetricAgg.Type_ a = countType ->
   path = Str "_count" /\ path <> Str (MetricAgg.ID a))
  /\ (MetricAgg.Type_ a <> countType -> path = Str (MetricAgg.ID a))
  /\
  (isPipelineAggWithMultipleBucketPaths (MetricAgg.Type_ m) = false ->
   MetricAgg.PipelineAggregate m = MetricAgg.ID a ->
   es.aggDefs (fst (attachMetric metrics m aggBuilder))
   = es.aggDefs aggBuilder ++ [pipelineNode m path]
   /\ forall e q ms from to result q' ms' result',
        Query.Metrics q = metrics -> m ∈ metrics ->
        Query.BucketAggs q <> [] ->
        processQuery Calculate e q ms from to result = Ok (q', ms', result') ->
        nodes (pipelineNode m path) ⊆ treeNodes (lastAggs ms'))
  /\ (isPipelineAggWithMultipleBucketPaths (MetricAgg.Type_ m) = true ->
      forall name,
        MetricAgg.PipelineVariables m !! name = Some (MetricAgg.ID a) ->
        exists paths : gmap string any,
          paths !! name = Some path
          /\ es.aggDefs (fst (attachMetric metrics m aggBuilder))
             = es.aggDefs aggBuilder ++ [pipelineNode m (Map paths)]
          /\ forall e q ms from to result q' ms' result',
               Query.Metrics q = metrics -> m ∈ metrics ->
               Query.BucketAggs q <> [] ->
               processQuery Calculate e q ms from to result
               = Ok (q', ms', result') ->
               nodes (pipelineNode m (Map paths)) ⊆ treeNodes (lastAggs ms')).
Proof.
  intros Hcount Hpipe Hfirst [n Hn] metrics path.
  pose proof (appliedAgg_first pre post a Hfirst) as Happ.
  fold metrics in Happ. clearbody metrics.
  assert (Hrequest : forall bucketPath,
    (forall B, es.aggDefs (fst (attachMetric metrics m B))
               = es.aggDefs B ++ [pipelineNode m bucketPath]) ->
    forall e q ms from to result q' ms' result',
      Query.Metrics q = metrics -> m ∈ metrics ->
      Query.BucketAggs q <> [] ->
      processQuery Calculate e q ms from to result = Ok (q', ms', result') ->
      nodes (pipelineNode m bucketPath) ⊆ treeNodes (lastAggs ms')).
  { intros bucketPath Hround e q ms from to result q' ms' result' Hq Hm Hb Hrun.
    subst metrics.
    apply (processQuery_attached Calculate e q ms from to result q' ms' result' m);
      try assumption.
    unfold added. rewrite Hround. apply list_elem_of_here. }
  split; [|split; [|split]].
  - intros Ha. subst path. rewrite Ha, String.eqb_refl.
    split; [reflexivity|]. intros [= E]. rewrite <- E in Hn. discriminate Hn.
  - intros Ha. subst path. apply String.eqb_neq in Ha. rewrite Ha. reflexivity.
  - intros Hsingle Href.
    assert (Hround : forall B,
               es.aggDefs (fst (attachMetric metrics m B))
               = es.aggDefs B ++ [pipelineNode m path]).
    { intros B. unfold attachMetric.
      apply String.eqb_neq in Hcount.
      rewrite Hcount, Hpipe, Hsingle, Href, Hn, Happ.
      apply emitPipeline_aggDefs. }
    split; [apply Hround|apply Hrequest, Hround].
  - intros Hmulti name Hvar. exists (bucketPaths metrics m).
    assert (Hround : forall B,
               es.aggDefs (fst (attachMetric metrics m B))
               = es.aggDefs B ++ [pipelineNode m (Map (bucketPaths metrics m))]).
    { intros B.
      rewrite attachMetric_variables, bool_decide_eq_false_2 by
        (try assumption; intros He; rewrite He, lookup_empty in Hvar;
         discriminate).
      apply emitPipeline_aggDefs. }
    split; [|split; [apply Hround|apply Hrequest, Hround]].
    rewrite bucketPaths_lookup, Hvar. cbn [mbind option_bind].
    unfold resolve. rewrite Hn, Happ. reflexivity.
Qed.

(** C2 (as amended). For a query with bucket aggregations, the bucket
    aggregations that add a node (the five known types, [filters] only with
    at least one declared filter) are nested in declared order, the first
    of them at the root, and the nesting depth is their number; when every
    bucket aggregation of the list adds a node, the depth is the length of
    the list. *)
Theorem bucket_nesting e q ms from to result q' ms' result' :
  Query.BucketAggs q <> [] ->
  processQuery Calculate e q ms from to result = Ok (q', ms', result') ->
  treeKeys (lastAggs ms')
    = map BucketAgg.ID (List.filter emitsNode (Query.BucketAggs q))
  /\ treeDepth (lastAggs ms')
     = length (List.filter emitsNode (Query.BucketAggs q))
  /\ (forallb emitsNode (Query.BucketAggs q) = true ->
      treeKeys (lastAggs ms') = map BucketAgg.ID (Query.BucketAggs q)
      /\ treeDepth (lastAggs ms') = length (Query.BucketAggs q)).
Proof.
  intros Hb Hrun.
  pose proof (processQuery_outcome Calculate e q ms from to result) as Hout.
  destruct (GetMinInterval (Query.Interval q)) as [err|minInterval] eqn:Hmin;
    [congruence|].
  destruct (dataQueries e) as [|dq dqs] eqn:He; [congruence|].
  clear Hout.
  destruct (processQuery_aggs Calculate e q ms from to result minInterval Hb Hmin)
    as (b & B & metrics' & Heq & Hagg & Hs & Hk & _ & _); [congruence|].
  rewrite Heq in Hrun. injection Hrun as _ <- _.
  rewrite (lastAggs_snoc ms b B Hagg).
  assert (Hkeys : treeKeys (es.Build B)
                  = map BucketAgg.ID (List.filter emitsNode (Query.BucketAggs q))).
  { rewrite (shaped_keys B Hs), Hk. apply rev_involutive. }
  assert (Hdepth : treeDepth (es.Build B)
                   = length (List.filter emitsNode (Query.BucketAggs q))).
  { rewrite (shaped_depth B Hs).
    rewrite <- (length_map es.key), Hk, length_rev, length_map. reflexivity. }
  split; [exact Hkeys|split; [exact Hdepth|]].
  intros Hall.
  assert (Hfilter : List.filter emitsNode (Query.BucketAggs q) = Query.BucketAggs q).
  { clear -Hall. induction (Query.BucketAggs q) as [|x l IH]; [reflexivity|].
    cbn [forallb] in Hall. apply andb_prop in Hall as [Hx Hl].
    cbn [List.filter]. rewrite Hx, IH by assumption. reflexivity. }
  rewrite Hkeys, Hdepth, Hfilter. split; reflexivity.
Qed.

(** C4. A metric of type count is passed over by the metric loop, and the
    built request holds no node of type count at all: neither the loop nor
    the ordering of a terms aggregation attaches one. *)
Theorem count_metric_skipped e q ms from to result q' ms' result' :
  processQuery Calculate e q ms from to result = Ok (q', ms', result') ->
  Forall notCount (treeNodes (lastAggs ms'))
  /\ forall m, m ∈ Query.Metrics q -> MetricAgg.Type_ m = countType ->
       forall metrics aggBuilder,
         attachMetric metrics m aggBuilder = (aggBuilder, m)
         /\ added metrics m = [].
Proof.
  intros Hrun. split.
  - pose proof (processQuery_outcome Calculate e q ms from to result) as Hout.
    destruct (GetMinInterval (Query.Interval q)); [congruence|].
    destruct (dataQueries e); [congruence|].
    destruct Hout as (q1 & b & Heq & Hshaped).
    rewrite Heq in Hrun. injection Hrun as _ <- _.
    unfold lastAggs. rewrite last_snoc.
    induction Hshaped as [|B Bs HB _ IH]; [constructor|].
    cbn [map concat]. rewrite treeNodes_app. apply Forall_app.
    split; [apply shaped_nodes, HB|exact IH].
  - intros m _ Hcount metrics aggBuilder. unfold added, attachMetric.
    rewrite Hcount, String.eqb_refl. split; reflexivity.
Qed.

(** C5 (as amended). A single-reference pipeline metric [m] whose
    reference is no integer is passed over by the metric loop: its round
    hands back the builder and the metric as it received them and adds no
    node, and the query it belongs to is answered without an error of the
    translator's own and without an entry in the responses.  In the
    request built, the aggregation builder is what the bucket loop built,
    which holds no pipeline node, and behind it what the rounds of the
    metrics before [m] and after [m] add; so every pipeline node of the
    tree is one that the round of another metric has added.  (What the
    bucket loop built may hold a metric node for [m]: a terms aggregation
    ordered by its ID attaches it.) *)
Theorem unparseable_reference_skipped e q ms from to result
    (pre post : list MetricAgg.t) m :
  Query.Metrics q = pre ++ m :: post ->
  Query.BucketAggs q <> [] ->
  isPipelineAgg (MetricAgg.Type_ m) = true ->
  isPipelineAggWithMultipleBucketPaths (MetricAgg.Type_ m) = false ->
  Atoi (MetricAgg.PipelineAggregate m) = None ->
  (forall metrics aggBuilder,
      attachMetric metrics m aggBuilder = (aggBuilder, m))
  /\ (forall metrics, added metrics m = [])
  /\ (forall done rest aggBuilder,
      metricsLoop done (m :: rest) aggBuilder
      = metricsLoop (done ++ [m]) rest aggBuilder)
  /\ match processQuery Calculate e q ms from to result with
     | Ok (_, ms', result') =>
         result' = result
         /\ (exists b B,
               ms' = ms ++ [b]
               /\ es.SearchRequestBuilder.aggBuilders b = [B]
               /\ let B0 :=
                    fst (bucketAggsLoop (Query.Metrics q) from to GetTimeField
                           (Query.BucketAggs q) es.newAggBuilder) in
                  Forall (fun kc => isPipeline (snd kc) = false)
                    (builderNodes B0)
                  /\ es.scopes B = es.scopes B0
                  /\ es.aggDefs B
                     = es.aggDefs B0
                       ++ flat_map (added (Query.Metrics q)) pre
                       ++ flat_map (added (Query.Metrics q)) post)
         /\ Forall (fun kc =>
                      isPipeline (snd kc) = true ->
                      exists m' (node : es.Agg),
                        m' ∈ pre ++ post
                        /\ node ∈ added (Query.Metrics q) m'
                        /\ kc ∈ nodes node)
              (treeNodes (lastAggs ms'))
     | Err err => GetMinInterval (Query.Interval q) = inl err
     | Panic _ => dataQueries e = []
     end.
Proof.
  intros Hmetrics Hb Hpipe Hsingle Hparse.
  assert (Hstep : forall metrics aggBuilder,
             attachMetric metrics m aggBuilder = (aggBuilder, m)).
  { intros metrics aggBuilder. unfold attachMetric.
    rewrite Hpipe, Hsingle, Hparse. destruct (String.eqb _ _); reflexivity. }
  assert (Hadded : forall metrics, added metrics m = []).
  { intros metrics. unfold added. rewrite Hstep. reflexivity. }
  split; [exact Hstep|split; [exact Hadded|split]].
  { intros done rest aggBuilder. cbn [metricsLoop]. rewrite Hstep. reflexivity. }
  pose proof (processQuery_aggs_quiet Calculate e q ms from to result Hb)
    as Hquiet.
  destruct (processQuery Calculate e q ms from to result)
    as [[[q' ms'] result']|err|p] eqn:Hrun; [|exact Hquiet..].
  split; [exact Hquiet|].
  destruct (processQuery_builder Calculate e q ms from to result q' ms' result'
              Hb Hrun) as (b & B & -> & HB & Hsc & Hdefs).
  pose proof (bucketAggsLoop_no_pipeline (Query.Metrics q) from to GetTimeField
                (Query.BucketAggs q) es.newAggBuilder
                (builderNodes_new _)) as Hbuckets.
  set (B0 := fst (bucketAggsLoop (Query.Metrics q) from to GetTimeField
                    (Query.BucketAggs q) es.newAggBuilder)) in *.
  assert (Hdefs' : es.aggDefs B
                   = es.aggDefs B0
                     ++ flat_map (added (Query.Metrics q)) pre
                     ++ flat_map (added (Query.Metrics q)) post).
  { rewrite Hdefs. rewrite Hmetrics at 2.
    rewrite flat_map_app. cbn [flat_map]. rewrite Hadded. reflexivity. }
  split.
  { exists b, B. split; [reflexivity|]. split; [exact HB|].
    split; [exact Hbuckets|]. split; [exact Hsc|exact Hdefs']. }
  erewrite lastAggs_snoc by exact HB.
  apply Build_Forall. unfold builderNodes in *.
  rewrite Hsc, Hdefs', treeNodes_app.
  apply Forall_app in Hbuckets as [Hb1 Hb2].
  rewrite <- app_assoc.
  apply Forall_app. split; [|apply Forall_app; split].
  - eapply Forall_impl; [exact Hb1|].
    intros kc Hno Hyes. rewrite Hno in Hyes. discriminate.
  - apply Forall_forall. intros kc Hin _.
    apply list_elem_of_In, in_concat in Hin as (l & Hl & Hkc).
    apply in_map_iff in Hl as (a & <- & Ha).
    rewrite <- flat_map_app in Ha.
    apply in_flat_map in Ha as (m' & Hm' & Ha).
    exists m', a. split; [apply list_elem_of_In, Hm'|].
    split; apply list_elem_of_In; assumption.
  - eapply Forall_impl; [exact Hb2|].
    intros kc Hno Hyes. rewrite Hno in Hyes. discriminate.
Qed.

(** C6. The size of a terms aggregation is 500 when the [size] setting is
    absent, when it is a string that [Atoi] refuses, and when it is zero
    (as a number or as a numeric string); any other integer, given as a
    number or as a numeric string, is used as declared. *)
Theorem terms_size_default aggBuilder (bucketAgg : BucketAgg.t)
    (metrics : list MetricAgg.t) :
  let size := Get "size" (BucketAgg.Settings bucketAgg) in
  exists a : es.TermsAggregation.t,
    es.container <$> head (es.scopes (addTermsAgg aggBuilder bucketAgg metrics))
    = Some {| es.Type_ := "terms"; es.Aggregation := es.OfTerms a |}
    /\ (size = Nil -> es.TermsAggregation.Size a = 500)
    /\ (forall s, size = Str s -> Atoi s = None ->
        es.TermsAggregation.Size a = 500)
    /\ (Int size = Some 0 -> es.TermsAggregation.Size a = 500)
    /\ (forall s, size = Str s -> Atoi s = Some 0 ->
        es.TermsAggregation.Size a = 500)
    /\ (forall n, n <> 0 -> Int size = Some n ->
        es.TermsAggregation.Size a = n)
    /\ (forall s n, n <> 0 -> size = Str s -> Atoi s = Some n ->
        es.TermsAggregation.Size a = n).
Proof.
  intros size.
  assert (Hemit : exists Order MinDocCount Missing,
    es.container <$> head (es.scopes (addTermsAgg aggBuilder bucketAgg metrics))
    = Some {| es.Type_ := "terms";
              es.Aggregation :=
                es.OfTerms (es.TermsAggregation.mk (BucketAgg.Field bucketAgg)
                              (termsSize (BucketAgg.Settings bucketAgg))
                              Order MinDocCount Missing) |}).
  { unfold addTermsAgg, es.Terms. cbv beta.
    destruct (String_ (Get "orderBy" (BucketAgg.Settings bucketAgg))) as [orderBy|];
      [destruct (0 <? _);
       [destruct (find _ metrics) as [m|];
        [destruct (String.eqb (MetricAgg.Type_ m) "count")|]|]|];
      cbv iota beta; eexists _, _, _; reflexivity. }
  destruct Hemit as (Order & MinDocCount & Missing & Hemit).
  eexists. split; [exact Hemit|].
  cbn [es.TermsAggregation.Size]. unfold termsSize. fold size.
  repeat split.
  - intros ->. reflexivity.
  - intros s -> Hs. cbn [Int String_]. rewrite Hs. reflexivity.
  - intros ->. reflexivity.
  - intros s -> Hs. cbn [Int String_]. rewrite Hs. reflexivity.
  - intros n Hn ->. apply Z.eqb_neq in Hn. rewrite Hn. reflexivity.
  - intros s n Hn -> Hs. cbn [Int String_]. rewrite Hs.
    apply Z.eqb_neq in Hn. rewrite Hn. reflexivity.
Qed.

(** C8 (as amended). A query without bucket aggregations whose first
    metric is none of raw_data, raw_document and logs (or that has no
    metric).  When the client refuses the interval of the query, the call
    returns that error instead of recording anything, and the loop of
    [execute] stops with it.  When the client accepts the interval and
    there is no data query, the call panics on reading the first one.
    Otherwise the call records under the reference ID of the query the
    error "invalid query, missing metrics and aggregations", returns no
    error, leaves the query as it is, and the loop of [execute] goes on
    with the queries that follow. *)
Theorem invalid_query_recorded e q ms from to result (rest : list Query.t) :
  Query.BucketAggs q = [] ->
  match Query.Metrics q with
  | [] => True
  | metric :: _ =>
      MetricAgg.Type_ metric <> "raw_data"
      /\ MetricAgg.Type_ metric <> "raw_document"
      /\ MetricAgg.Type_ metric <> "logs"
  end ->
  match GetMinInterval (Query.Interval q) with
  | inl err =>
      processQuery Calculate e q ms from to result = Err err
      /\ processQueries Calculate e (q :: rest) ms from to result = Err err
  | inr _ =>
      match dataQueries e with
      | [] =>
          processQuery Calculate e q ms from to result
          = Panic (IndexOutOfRange 0 0)
      | _ :: _ =>
          exists b result',
            processQuery Calculate e q ms from to result
            = Ok (q, ms ++ [b], result')
            /\ backend.Responses result'
               = <[Query.RefID q := invalidQuery]> (backend.Responses result)
            /\ backend.Responses result' !! Query.RefID q
               = Some {| backend.Error :=
                           Some "invalid query, missing metrics and aggregations" |}
            /\ processQueries Calculate e (q :: rest) ms from to result
               = '(rest', ms', result'') ←
                   processQueries Calculate e rest (ms ++ [b]) from to result';
                 Ok (q :: rest', ms', result'')
      end
  end.
Proof.
  intros Hb Hm.
  destruct (GetMinInterval (Query.Interval q)) as [err|minInterval] eqn:Hmin.
  { assert (Hrun : processQuery Calculate e q ms from to result = Err err)
      by (unfold processQuery; rewrite Hmin; reflexivity).
    split; [exact Hrun|]. cbn [processQueries]. rewrite Hrun. reflexivity. }
  destruct (dataQueries e) as [|dq dqs] eqn:He.
  { unfold processQuery. rewrite Hmin, He. reflexivity. }
  assert (Hrun : exists b,
    processQuery Calculate e q ms from to result
    = Ok (q, ms ++ [b],
          {| backend.Responses :=
               <[Query.RefID q := invalidQuery]> (backend.Responses result) |})).
  { unfold processQuery. rewrite Hmin, Hb, He.
    cbn [lift mbind outcome_bind index nth_error length Nat.eqb].
    destruct (Query.Metrics q) as [|metric metrics]; [eexists; reflexivity|].
    destruct Hm as (H1 & H2 & H3).
    apply String.eqb_neq in H1, H2, H3. rewrite H1, H2, H3.
    eexists; reflexivity. }
  destruct Hrun as [b Hrun]. eexists b, _.
  split; [exact Hrun|]. split; [reflexivity|]. split.
  - cbn [backend.Responses]. apply lookup_insert_eq.
  - cbn [processQueries]. rewrite Hrun. reflexivity.
Qed.

(** C9 (as amended). Building the request leaves the scalar fields of the
    query alone, and its metrics up to their settings, which stay as they
    were or are normalised in place.  With bucket aggregations, the list
    is kept, each element with its settings normalised.  Without, the list
    stays empty, except for a logs query: there the synthesised date
    histogram is appended to the query. *)
Theorem query_frame e q ms from to result q' ms' result' :
  processQuery Calculate e q ms from to result = Ok (q', ms', result') ->
  Query.RawQuery q' = Query.RawQuery q
  /\ Query.Interval q' = Query.Interval q
  /\ Query.RefID q' = Query.RefID q
  /\ Query.MaxDataPoints q' = Query.MaxDataPoints q
  /\ map (MetricAgg.setSettings Nil) (Query.Metrics q')
     = map (MetricAgg.setSettings Nil) (Query.Metrics q)
  /\ Forall2 sameButSettings
       (Query.Metrics q) (Query.Metrics q')
  /\ match Query.BucketAggs q with
     | _ :: _ =>
         Query.BucketAggs q' = map normalizeBucketAgg (Query.BucketAggs q)
         /\ map (BucketAgg.setSettings Nil) (Query.BucketAggs q')
            = map (BucketAgg.setSettings Nil) (Query.BucketAggs q)
     | [] =>
         Query.BucketAggs q'
         = match Query.Metrics q with
           | metric :: _ =>
               if String.eqb (MetricAgg.Type_ metric) "logs" then
                 [normalizeBucketAgg
                    (BucketAgg.mk GetTimeField "1"
                       (NewFromAny {["interval" := Str "auto"]}) dateHistType)]
               else []
           | [] => []
           end
     end.
Proof.
  intros Hrun.
  assert (Hsame : forall l : list MetricAgg.t,
             Forall2 sameButSettings l l).
  { induction l; constructor; [left; reflexivity|assumption]. }
  destruct (Query.BucketAggs q) as [|bucketAgg rest] eqn:Hb.
  - revert Hrun. unfold processQuery.
    destruct (GetMinInterval (Query.Interval q)); [discriminate|].
    destruct e as [[|dq dqs]]; [discriminate|].
    rewrite Hb.
    cbn [lift mbind outcome_bind dataQueries index nth_error length Nat.eqb].
    destruct (Query.Metrics q) as [|metric metrics] eqn:Hm.
    { intros [= <- _ _]. rewrite Hb, Hm. repeat split. constructor. }
    destruct (String.eqb (MetricAgg.Type_ metric) "logs");
      [rewrite !orb_true_r|rewrite !orb_false_r]; cbn [negb].
    + cbn [app index nth_error mbind outcome_bind].
      intros [= <- _ _].
      cbn [Query.setBucketAggs Query.RawQuery Query.Interval Query.RefID
           Query.MaxDataPoints Query.Metrics Query.BucketAggs].
      rewrite Hm. repeat split. apply Hsame.
    + destruct (negb _); intros [= <- _ _]; rewrite Hb, Hm; repeat split;
        apply Hsame.
  - pose proof (processQuery_outcome Calculate e q ms from to result) as Hout.
    destruct (GetMinInterval (Query.Interval q)) as [err|minInterval] eqn:Hmin;
      [congruence|].
    destruct (dataQueries e) as [|dq dqs] eqn:He; [congruence|].
    clear Hout.
    destruct (processQuery_aggs Calculate e q ms from to result minInterval)
      as (b & B & metrics' & Heq & _ & _ & _ & Hf & _);
      [congruence|assumption|congruence|].
    rewrite Heq in Hrun. injection Hrun as <- _ _.
    cbn [Query.setMetrics Query.setBucketAggs Query.RawQuery Query.Interval
         Query.RefID Query.MaxDataPoints Query.Metrics Query.BucketAggs].
    rewrite Hb. repeat split; try exact Hf.
    + clear -Hf. induction Hf as [|m m' l l' Hm _ IH]; [reflexivity|].
      cbn [map]. rewrite IH. f_equal. destruct Hm as [->| ->]; reflexivity.
    + rewrite map_map. reflexivity.
Qed.

Lemma processQueries_no_panic e (queries : list Query.t) ms from to result p :
  dataQueries e <> [] ->
  processQueries Calculate e queries ms from to result <> Panic p.
Proof.
  intros He. revert ms result.
  induction queries as [|q rest IH]; intros ms result; [discriminate|].
  cbn [processQueries].
  pose proof (processQuery_outcome Calculate e q ms from to result) as Hout.
  destruct (GetMinInterval (Query.Interval q)); [rewrite Hout; discriminate|].
  destruct (dataQueries e); [contradiction|].
  destruct Hout as (q1 & b & -> & _).
  cbn [mbind outcome_bind].
  specialize (IH (ms ++ [b])).
  match goal with
  | |- context [processQueries Calculate e rest (ms ++ [b]) from to ?r] =>
      specialize (IH r);
      destruct (processQueries Calculate e rest (ms ++ [b]) from to r)
        as [[[rest' ms'] result']| |]
  end; [discriminate|discriminate|exact IH].
Qed.

(** C10. [execute] reads the first data query right after parsing, and
    [processQuery] reads it again for every query.  On the empty list (which
    parses to some list of queries) the read is out of range and [execute]
    panics; on a non-empty list [execute] does not panic. *)
Theorem execute_first_data_query e :
  (dataQueries e = [] ->
   forall queries, parseQuery [] = inr queries ->
   execute Calculate parseQuery parseResponse e = Panic (IndexOutOfRange 0 0))
  /\ (dataQueries e = [] ->
      forall q ms from to result minInterval,
        GetMinInterval (Query.Interval q) = inr minInterval ->
        processQuery Calculate e q ms from to result
        = Panic (IndexOutOfRange 0 0))
  /\ (dataQueries e <> [] ->
      forall p, execute Calculate parseQuery parseResponse e <> Panic p).
Proof.
  split; [|split].
  - intros He queries Hparse. unfold execute. rewrite He, Hparse. reflexivity.
  - intros He q ms from to result minInterval Hmin.
    unfold processQuery. rewrite Hmin, He. reflexivity.
  - intros He p. unfold execute.
    destruct (parseQuery (dataQueries e)) as [err|queries]; [discriminate|].
    cbn [lift mbind outcome_bind].
    destruct (dataQueries e) as [|dq dqs] eqn:Hdq; [contradiction|].
    cbn [index nth_error mbind outcome_bind].
    match goal with
    | |- context [processQueries Calculate ?e' queries ?ms ?f ?t ?r] =>
        pose proof (processQueries_no_panic e' queries ms f t r) as Hloop;
        destruct (processQueries Calculate e' queries ms f t r)
          as [[[queries' ms'] result']| |]
    end.
    + cbn [mbind outcome_bind].
      destruct (BuildMultiSearch ms'); [discriminate|].
      cbn [lift mbind outcome_bind].
      destruct (ExecuteMultisearch _); [discriminate|].
      cbn [lift mbind outcome_bind].
      destruct (parseResponse _ _); discriminate.
    + discriminate.
    + exfalso. apply (Hloop p0); [rewrite Hdq; exact He|reflexivity].
Qed.

End Claims.

(** ** The claims at work on sample queries *)

Section Samples.

#[local] Existing Instance Sample.tables.
#[local] Existing Instance Sample.float.
#[local] Existing Instance Sample.client.

(** C1, as first stated, fails: none of the references of the bucket script
    resolves, its mapping is empty, and the pipeline node is there all the
    same, both after its round of the loop and in the built request. *)
Lemma empty_mapping_still_emitted :
  MetricAgg.PipelineVariables Sample.orphanScript <> ∅
  /\ bucketPaths [Sample.orphanScript] Sample.orphanScript = ∅
  /\ es.aggDefs
       (fst (attachMetric [Sample.orphanScript] Sample.orphanScript
               es.newAggBuilder))
     = [es.MkAgg "3"
          {| es.Type_ := "bucket_script";
             es.Aggregation :=
               es.OfPipeline
                 {| es.PipelineAggregation.BucketPath := Map ∅;
                    es.PipelineAggregation.Settings := ∅ |} |} []]
  /\ exists q' ms' result',
       Sample.run Sample.orphanQuery = Ok (q', ms', result')
       /\ ("3", {| es.Type_ := "bucket_script";
                   es.Aggregation :=
                     es.OfPipeline
                       {| es.PipelineAggregation.BucketPath := Map ∅;
                          es.PipelineAggregation.Settings := ∅ |} |})
          ∈ treeNodes (lastAggs ms').
Proof.
  split; [apply insert_non_empty|].
  split; [vm_compute; reflexivity|].
  split; [vm_compute; reflexivity|].
  eexists _, _, _. split; [vm_compute; reflexivity|].
  vm_compute. apply list_elem_of_In. right. left. reflexivity.
Qed.

(** C1 on a bucket script with one reference to the count metric and one
    to nothing. *)
Lemma pipeline_variables_mapping_witness :
  (MetricAgg.Type_ Sample.script <> countType
   /\ isPipelineAgg (MetricAgg.Type_ Sample.script) = true
   /\ isPipelineAggWithMultipleBucketPaths (MetricAgg.Type_ Sample.script) = true)
  /\ bucketPaths [Sample.count1; Sample.script] Sample.script !! "var2" = None
  /\ bucketPaths [Sample.count1; Sample.script] Sample.script !! "var1"
     = Some (Str "_count")
  /\ attachMetric [Sample.count1; Sample.script] Sample.script es.newAggBuilder
     = emitPipeline Sample.script
         (Map (bucketPaths [Sample.count1; Sample.script] Sample.script))
         es.newAggBuilder.
Proof.
  assert (H1 : MetricAgg.Type_ Sample.script <> countType) by discriminate.
  assert (H2 : isPipelineAgg (MetricAgg.Type_ Sample.script) = true)
    by reflexivity.
  assert (H3 : isPipelineAggWithMultipleBucketPaths
                 (MetricAgg.Type_ Sample.script) = true) by reflexivity.
  split; [auto|].
  destruct (pipeline_variables_mapping Sample.Calculate
              [Sample.count1; Sample.script]
              Sample.script es.newAggBuilder H1 H2 H3)
    as (Hdrop & Hlook & Hemit & _ & _).
  split; [|split].
  - apply (Hdrop "var2" "x"); [reflexivity|left; reflexivity].
  - rewrite Hlook. reflexivity.
  - apply Hemit. apply insert_non_empty.
Defined.

(** C2, as first stated, fails: one bucket aggregation is declared, of
    type filters and without any filter; the tree built is empty, so it
    has no level at all. *)
Lemma empty_filters_no_level :
  length (Query.BucketAggs Sample.emptyFiltersQuery) = 1%nat
  /\ exists q' ms' result',
       Sample.run Sample.emptyFiltersQuery = Ok (q', ms', result')
       /\ lastAggs ms' = []
       /\ treeDepth (lastAggs ms') = 0%nat
       /\ treeDepth (lastAggs ms')
          <> length (Query.BucketAggs Sample.emptyFiltersQuery).
Proof.
  split; [reflexivity|].
  eexists _, _, _. split; [vm_compute; reflexivity|].
  split; [vm_compute; reflexivity|].
  split; [vm_compute; reflexivity|vm_compute; discriminate].
Qed.

(** C2 on a terms aggregation over a date histogram. *)
Lemma bucket_nesting_witness :
  Query.BucketAggs Sample.histogramQuery <> []
  /\ exists q' ms' result',
       Sample.run Sample.histogramQuery = Ok (q', ms', result')
       /\ treeKeys (lastAggs ms') = ["3"; "2"]
       /\ treeDepth (lastAggs ms') = 2%nat.
Proof.
  assert (Hb : Query.BucketAggs Sample.histogramQuery <> []) by discriminate.
  split; [exact Hb|].
  destruct (Sample.run Sample.histogramQuery) as [[[q' ms'] result']| |] eqn:Hrun;
    [|vm_compute in Hrun; discriminate..].
  exists q', ms', result'. split; [reflexivity|].
  pose proof (bucket_nesting Sample.Calculate Sample.e Sample.histogramQuery
              [] 5 9 {| backend.Responses := ∅ |} q' ms' result' Hb Hrun)
    as (Hkeys & Hdepth & _).
  split; [rewrite Hkeys|rewrite Hdepth]; reflexivity.
Defined.

(** C3, as first stated, fails: the moving average refers to ID 1, the
    count metric carries that ID, and so does the average declared before
    it; the lookup stops at the average, and the path is the raw ID, after
    the round of the loop and in the built request. *)
Lemma count_behind_namesake :
  let metrics := [Sample.metric "1" "avg"; Sample.count1; Sample.movingAvg] in
  (Sample.count1 ∈ metrics
   /\ MetricAgg.Type_ Sample.count1 = countType
   /\ MetricAgg.PipelineAggregate Sample.movingAvg = MetricAgg.ID Sample.count1
   /\ Atoi (MetricAgg.PipelineAggregate Sample.movingAvg) = Some 1)
  /\ es.aggDefs (fst (attachMetric metrics Sample.movingAvg es.newAggBuilder))
     = [es.MkAgg "2"
          {| es.Type_ := "moving_avg";
             es.Aggregation :=
               es.OfPipeline
                 {| es.PipelineAggregation.BucketPath := Str "1";
                    es.PipelineAggregation.Settings := ∅ |} |} []]
  /\ exists q' ms' result',
       Sample.run (Sample.query [Sample.dateHistogram] metrics)
       = Ok (q', ms', result')
       /\ ("2", {| es.Type_ := "moving_avg";
                   es.Aggregation :=
                     es.OfPipeline
                       {| es.PipelineAggregation.BucketPath := Str "1";
                          es.PipelineAggregation.Settings := ∅ |} |})
          ∈ treeNodes (lastAggs ms').
Proof.
  intros metrics. split; [|split].
  - split; [apply list_elem_of_further, list_elem_of_here|].
    repeat split.
  - vm_compute. reflexivity.
  - eexists _, _, _. split; [vm_compute; reflexivity|].
    vm_compute. apply list_elem_of_In. cbn. tauto.
Qed.

(** C3 on a moving average over the count metric. *)
Lemma count_sibling_sentinel_witness :
  (MetricAgg.Type_ Sample.movingAvg <> countType
   /\ isPipelineAgg (MetricAgg.Type_ Sample.movingAvg) = true
   /\ Forall (fun x => MetricAgg.ID x <> MetricAgg.ID Sample.count1) []
   /\ is_Some (Atoi (MetricAgg.ID Sample.count1)))
  /\ es.aggDefs
       (fst (attachMetric (Query.Metrics Sample.histogramQuery)
               Sample.movingAvg es.newAggBuilder))
     = [es.MkAgg "2"
          {| es.Type_ := "moving_avg";
             es.Aggregation :=
               es.OfPipeline
                 {| es.PipelineAggregation.BucketPath := Str "_count";
                    es.PipelineAggregation.Settings := ∅ |} |} []]
  /\ exists q' ms' result',
       Sample.run Sample.histogramQuery = Ok (q', ms', result')
       /\ nodes (pipelineNode Sample.movingAvg (Str "_count"))
          ⊆ treeNodes (lastAggs ms').
Proof.
  assert (H1 : MetricAgg.Type_ Sample.movingAvg <> countType) by discriminate.
  assert (H2 : isPipelineAgg (MetricAgg.Type_ Sample.movingAvg) = true)
    by reflexivity.
  assert (H3 : Forall (fun x => MetricAgg.ID x <> MetricAgg.ID Sample.count1)
                 []) by constructor.
  assert (H5 : is_Some (Atoi (MetricAgg.ID Sample.count1)))
    by (exists 1; reflexivity).
  split; [auto 6|].
  destruct (count_sibling_sentinel Sample.Calculate []
              [Sample.movingAvg; Sample.avg5]
              Sample.movingAvg Sample.count1 es.newAggBuilder H1 H2 H3 H5)
    as (_ & _ & Hsingle & _).
  destruct (Hsingle eq_refl eq_refl) as [Hround Hrequest].
  split; [exact Hround|].
  destruct (Sample.run Sample.histogramQuery) as [[[q' ms'] result']| |] eqn:Hrun;
    [|vm_compute in Hrun; discriminate..].
  exists q', ms', result'. split; [reflexivity|].
  apply (Hrequest Sample.e Sample.histogramQuery [] 5 9
           {| backend.Responses := ∅ |} q' ms' result');
    [reflexivity| |discriminate|exact Hrun].
  apply list_elem_of_further, list_elem_of_here.
Defined.

(** C4 on a query whose first metric is a count. *)
Lemma count_metric_skipped_witness :
  exists q' ms' result',
    Sample.run Sample.histogramQuery = Ok (q', ms', result')
    /\ Forall notCount (treeNodes (lastAggs ms'))
    /\ attachMetric [] Sample.count1 es.newAggBuilder
       = (es.newAggBuilder, Sample.count1).
Proof.
  destruct (Sample.run Sample.histogramQuery) as [[[q' ms'] result']| |] eqn:Hrun;
    [|vm_compute in Hrun; discriminate..].
  exists q', ms', result'. split; [reflexivity|].
  pose proof (count_metric_skipped Sample.Calculate Sample.e Sample.histogramQuery
              [] 5 9 {| backend.Responses := ∅ |} q' ms' result' Hrun)
    as [Hnodes Hskip].
  split; [exact Hnodes|].
  apply Hskip; [apply list_elem_of_here|reflexivity].
Defined.

(** C5, as first stated, fails: the reference of the derivative is no
    integer, and the request holds a node for it all the same, the metric
    node that the terms aggregation ordered by its ID attaches. *)
Lemma unparseable_attached_by_terms :
  (Sample.unparseable ∈ Query.Metrics Cases.orderedByUnparseable
   /\ isPipelineAgg (MetricAgg.Type_ Sample.unparseable) = true
   /\ isPipelineAggWithMultipleBucketPaths
        (MetricAgg.Type_ Sample.unparseable) = false
   /\ Atoi (MetricAgg.PipelineAggregate Sample.unparseable) = None)
  /\ exists q' ms' result',
       Sample.run Cases.orderedByUnparseable = Ok (q', ms', result')
       /\ (MetricAgg.ID Sample.unparseable,
           {| es.Type_ := MetricAgg.Type_ Sample.unparseable;
              es.Aggregation :=
                es.OfMetric (es.MetricAggregation.mk "derivative" "" ∅) |})
          ∈ treeNodes (lastAggs ms').
Proof.
  split.
  - split; [apply list_elem_of_further, list_elem_of_here|].
    split; [vm_compute; reflexivity|]. split; reflexivity.
  - eexists _, _, _. split; [vm_compute; reflexivity|].
    vm_compute. apply list_elem_of_In. cbn. tauto.
Qed.

(** C5 on a derivative of ["abc"]. *)
Lemma unparseable_reference_skipped_witness :
  (Query.Metrics Sample.unparseableQuery = [] ++ Sample.unparseable :: []
   /\ Query.BucketAggs Sample.unparseableQuery <> []
   /\ isPipelineAgg (MetricAgg.Type_ Sample.unparseable) = true
   /\ isPipelineAggWithMultipleBucketPaths
        (MetricAgg.Type_ Sample.unparseable) = false
   /\ Atoi (MetricAgg.PipelineAggregate Sample.unparseable) = None)
  /\ attachMetric [Sample.unparseable] Sample.unparseable es.newAggBuilder
     = (es.newAggBuilder, Sample.unparseable)
  /\ exists q' ms' result',
       Sample.run Sample.unparseableQuery = Ok (q', ms', result')
       /\ result' = {| backend.Responses := ∅ |}
       /\ Forall (fun kc => isPipeline (snd kc) = true -> False)
            (treeNodes (lastAggs ms')).
Proof.
  assert (H1 : Query.Metrics Sample.unparseableQuery
               = [] ++ Sample.unparseable :: []) by reflexivity.
  assert (H2 : Query.BucketAggs Sample.unparseableQuery <> []) by discriminate.
  assert (H3 : Atoi (MetricAgg.PipelineAggregate Sample.unparseable) = None)
    by reflexivity.
  assert (H4 : isPipelineAgg (MetricAgg.Type_ Sample.unparseable) = true)
    by (vm_compute; reflexivity).
  assert (H5 : isPipelineAggWithMultipleBucketPaths
                 (MetricAgg.Type_ Sample.unparseable) = false)
    by reflexivity.
  split; [auto 6|].
  pose proof (unparseable_reference_skipped Sample.Calculate Sample.e
                Sample.unparseableQuery [] 5 9 {| backend.Responses := ∅ |}
                [] [] Sample.unparseable H1 H2 H4 H5 H3)
    as (Hstep & _ & _ & Hrequest).
  split; [apply Hstep|].
  change (processQuery Sample.Calculate Sample.e Sample.unparseableQuery [] 5 9
            {| backend.Responses := ∅ |})
    with (Sample.run Sample.unparseableQuery) in Hrequest.
  destruct (Sample.run Sample.unparseableQuery)
    as [[[q' ms'] result']| |] eqn:Hrun;
    [|vm_compute in Hrun; discriminate..].
  destruct Hrequest as (Hresult & _ & Hnodes).
  exists q', ms', result'. split; [reflexivity|]. split; [exact Hresult|].
  eapply Forall_impl; [exact Hnodes|].
  intros kc Hkc Hyes. destruct (Hkc Hyes) as (m' & _ & Hin & _).
  inversion Hin.
Defined.

(** C6 on a size that is no number. *)
Lemma terms_size_default_witness :
  exists a,
    es.container <$>
      head (es.scopes (addTermsAgg es.newAggBuilder
                         (Sample.termsBySize (Str "many")) []))
    = Some {| es.Type_ := "terms"; es.Aggregation := es.OfTerms a |}
    /\ es.TermsAggregation.Size a = 500.
Proof.
  destruct (terms_size_default es.newAggBuilder
              (Sample.termsBySize (Str "many")) [])
    as (a & Hemit & _ & Hstring & _).
  exists a. split; [exact Hemit|].
  apply (Hstring "many"); reflexivity.
Defined.

(** The sizes of the terms aggregation, case by case. *)
Example terms_sizes :
  termsSize (Map ∅) = 500
  /\ termsSize (NewFromAny {["size" := Str "many"]}) = 500
  /\ termsSize (NewFromAny {["size" := Str "0"]}) = 500
  /\ termsSize (NewFromAny {["size" := Int64 0]}) = 500
  /\ termsSize (NewFromAny {["size" := Number "0"]}) = 500
  /\ termsSize (NewFromAny {["size" := Str "10"]}) = 10
  /\ termsSize (NewFromAny {["size" := Number "25"]}) = 25
  /\ termsSize (NewFromAny {["size" := Int64 7]}) = 7.
Proof. repeat split; vm_compute; reflexivity. Qed.

(** C8, as first stated, fails: the query has neither bucket aggregations
    nor metrics, the client refuses its interval, and the call returns that
    error instead of recording the invalid query. *)
Lemma refused_interval_is_an_error :
  Query.BucketAggs Sample.refusedQuery = []
  /\ Query.Metrics Sample.refusedQuery = []
  /\ Sample.run Sample.refusedQuery = Err "time: invalid duration zz".
Proof. repeat split; vm_compute; reflexivity. Qed.

(** C8 on a query with neither bucket aggregations nor metrics: accepted
    and recorded with a data query, a panic without one, and the client's
    error when the interval is refused. *)
Lemma invalid_query_recorded_witness :
  (Query.BucketAggs Sample.noMetricsQuery = []
   /\ Query.Metrics Sample.noMetricsQuery = []
   /\ Query.BucketAggs Sample.refusedQuery = []
   /\ Query.Metrics Sample.refusedQuery = [])
  /\ (exists b result',
         Sample.run Sample.noMetricsQuery
         = Ok (Sample.noMetricsQuery, [] ++ [b], result')
         /\ backend.Responses result' !! "A" = Some invalidQuery)
  /\ processQuery Sample.Calculate {| dataQueries := [] |}
       Sample.noMetricsQuery [] 5 9 {| backend.Responses := ∅ |}
     = Panic (IndexOutOfRange 0 0)
  /\ Sample.run Sample.refusedQuery = Err "time: invalid duration zz".
Proof.
  assert (H1 : Query.BucketAggs Sample.noMetricsQuery = []) by reflexivity.
  assert (H2 : Query.BucketAggs Sample.refusedQuery = []) by reflexivity.
  split; [auto|].
  pose proof (invalid_query_recorded Sample.Calculate Sample.e
              Sample.noMetricsQuery [] 5 9 {| backend.Responses := ∅ |}
              [] H1 I)
    as (b & result' & Hrun & _ & Hlook & _).
  pose proof (invalid_query_recorded Sample.Calculate {| dataQueries := [] |}
              Sample.noMetricsQuery [] 5 9 {| backend.Responses := ∅ |}
              [] H1 I) as Hpanic.
  pose proof (invalid_query_recorded Sample.Calculate Sample.e
              Sample.refusedQuery [] 5 9 {| backend.Responses := ∅ |}
              [] H2 I) as [Herr _].
  split; [exists b, result'; split; [exact Hrun|exact Hlook]|].
  split; [exact Hpanic|exact Herr].
Defined.

(** C9, as first stated, fails: a logs query comes in without bucket
    aggregations and goes out with one. *)
Lemma logs_query_gains_bucket :
  Query.BucketAggs Sample.logsQuery = []
  /\ exists q' ms' result',
       Sample.run Sample.logsQuery = Ok (q', ms', result')
       /\ map BucketAgg.ID (Query.BucketAggs q') = ["1"]
       /\ map BucketAgg.Type_ (Query.BucketAggs q') = ["date_histogram"]
       /\ Query.BucketAggs q' <> Query.BucketAggs Sample.logsQuery.
Proof.
  split; [reflexivity|].
  eexists _, _, _. split; [vm_compute; reflexivity|].
  split; [reflexivity|]. split; [reflexivity|]. discriminate.
Qed.

(** C9 on a query with bucket aggregations. *)
Lemma query_frame_witness :
  exists q' ms' result',
    Sample.run Sample.histogramQuery = Ok (q', ms', result')
    /\ Query.RefID q' = "A"
    /\ map (MetricAgg.setSettings Nil) (Query.Metrics q')
       = map (MetricAgg.setSettings Nil) (Query.Metrics Sample.histogramQuery)
    /\ Query.BucketAggs q'
       = map normalizeBucketAgg (Query.BucketAggs Sample.histogramQuery).
Proof.
  destruct (Sample.run Sample.histogramQuery) as [[[q' ms'] result']| |] eqn:Hrun;
    [|vm_compute in Hrun; discriminate..].
  exists q', ms', result'. split; [reflexivity|].
  pose proof (query_frame Sample.Calculate Sample.e Sample.histogramQuery
              [] 5 9 {| backend.Responses := ∅ |} q' ms' result' Hrun)
    as (_ & _ & Hid & _ & Hmetrics & _ & Hbuckets & _).
  split; [exact Hid|]. split; [exact Hmetrics|exact Hbuckets].
Defined.

(** C10 on the empty list of data queries and on a list of one. *)
Lemma execute_first_data_query_witness :
  Sample.parseQuery [] = inr []
  /\ execute Sample.Calculate Sample.parseQuery Sample.parseResponse
       {| dataQueries := [] |}
     = Panic (IndexOutOfRange 0 0)
  /\ forall p,
       execute Sample.Calculate Sample.parseQuery Sample.parseResponse Sample.e
       <> Panic p.
Proof.
  split; [reflexivity|].
  destruct (execute_first_data_query Sample.Calculate Sample.parseQuery
              Sample.parseResponse {| dataQueries := [] |}) as [Hempty _].
  destruct (execute_first_data_query Sample.Calculate Sample.parseQuery
              Sample.parseResponse Sample.e) as (_ & _ & Hsome).
  split; [apply (Hempty eq_refl []); reflexivity|].
  apply Hsome. discriminate.
Defined.

(** The whole of [execute] on one invalid panel: the batch is built and
    run, and what comes back is what the response parser makes of the
    search responses; the collection [processQuery] wrote the panel's error
    into is not what [execute] returns. *)
Example execute_sample :
  execute Sample.Calculate Sample.parseQuery Sample.parseResponse Sample.e
  = Ok {| backend.Responses := ∅ |}.
Proof. vm_compute. reflexivity. Qed.

End Samples.

(** * Further properties of the translator *)

(** ** Coercions and what they leave alone *)

Section Coercions.

Context `{Float} `{TypeTables}.
Implicit Types (s : any) (p q : list string) (k : string).

Lemma GetPath_SetPath_any p (val : any) s : GetPath p (SetPath p val s) = val.
Proof.
  destruct p as [|b p]; [reflexivity|].
  apply GetPath_SetPath_same. discriminate.
Qed.

Lemma GetPath_setFloatPath_other p q s :
  diverge p q = true -> GetPath p (setFloatPath q s) = GetPath p s.
Proof.
  intros Hd. unfold setFloatPath.
  destruct (String_ (GetPath q s)); [|reflexivity].
  destruct (ParseFloat _); [|reflexivity].
  apply GetPath_SetPath_diverge. exact Hd.
Qed.

Lemma GetPath_setIntPath_other p q s :
  diverge p q = true -> GetPath p (setIntPath q s) = GetPath p s.
Proof.
  intros Hd. unfold setIntPath.
  destruct (String_ (GetPath q s)); [|reflexivity].
  destruct (ParseInt _); [|reflexivity].
  apply GetPath_SetPath_diverge. exact Hd.
Qed.

Lemma GetPath_promoteScript_other p s :
  diverge p ["script"] = true -> GetPath p (promoteScript s) = GetPath p s.
Proof.
  intros Hd. unfold promoteScript.
  destruct (match String_ (GetPath ["script"] s) with
            | Some v => Some v
            | None => String_ (GetPath ["script"; "inline"] s)
            end); [|reflexivity].
  apply GetPath_SetPath_diverge. exact Hd.
Qed.

Lemma setFloatPath_read p s v f :
  String_ (GetPath p s) = Some v -> ParseFloat v = Some f ->
  GetPath p (setFloatPath p s) = Float64 f.
Proof.
  intros Hs Hv. unfold setFloatPath. rewrite Hs, Hv. apply GetPath_SetPath_any.
Qed.

Lemma setFloatPath_keep p s v :
  String_ (GetPath p s) = Some v -> ParseFloat v = None ->
  setFloatPath p s = s.
Proof. intros Hs Hv. unfold setFloatPath. rewrite Hs, Hv. reflexivity. Qed.

Lemma setIntPath_read p s v n :
  String_ (GetPath p s) = Some v -> ParseInt v = Some n ->
  GetPath p (setIntPath p s) = Int64 n.
Proof.
  intros Hs Hv. unfold setIntPath. rewrite Hs, Hv. apply GetPath_SetPath_any.
Qed.

(** X1. [setFloatPath] and [setIntPath] replace a string that parses by
    the number it denotes, so that reading the path back gives that
    number; they change nothing when the path holds no string or one that
    does not parse; and whatever they do, every path that parts ways with
    the one written reads as before. *)
Theorem path_coercions p s :
  (forall v f, String_ (GetPath p s) = Some v -> ParseFloat v = Some f ->
               GetPath p (setFloatPath p s) = Float64 f)
  /\ (String_ (GetPath p s) ≫= ParseFloat = None -> setFloatPath p s = s)
  /\ (forall v n, String_ (GetPath p s) = Some v -> ParseInt v = Some n ->
                  GetPath p (setIntPath p s) = Int64 n)
  /\ (String_ (GetPath p s) ≫= ParseInt = None -> setIntPath p s = s)
  /\ (forall q, diverge q p = true ->
                GetPath q (setFloatPath p s) = GetPath q s
                /\ GetPath q (setIntPath p s) = GetPath q s).
Proof.
  split; [|split; [|split; [|split]]].
  - intros v f. apply setFloatPath_read.
  - intros Hs. unfold setFloatPath.
    destruct (String_ (GetPath p s)) as [v|]; [|reflexivity].
    cbn in Hs. rewrite Hs. reflexivity.
  - intros v n. apply setIntPath_read.
  - intros Hs. unfold setIntPath.
    destruct (String_ (GetPath p s)) as [v|]; [|reflexivity].
    cbn in Hs. rewrite Hs. reflexivity.
  - intros q Hd. split;
      [apply GetPath_setFloatPath_other|apply GetPath_setIntPath_other];
      exact Hd.
Qed.

End Coercions.

(** ** What normalisation does to the settings map *)

Section SettingsMap.

Context `{Float} `{TypeTables}.
Implicit Types (s : any) (p q : list string) (k b : string)
  (m : MetricAgg.t).

Lemma setIn_insert b (rest : list string) (val : any) (mm : gmap string any) :
  exists x, setIn (b :: rest) val mm = <[b := x]> mm.
Proof. destruct rest as [|c rest]; eexists; reflexivity. Qed.

Lemma MustMap_SetPath b (rest : list string) (val : any) s :
  MustMap (SetPath (b :: rest) val s) = setIn (b :: rest) val (MustMap s).
Proof. reflexivity. Qed.

Lemma MustMap_SetPath_ne k b (rest : list string) (val : any) s :
  k <> b -> MustMap (SetPath (b :: rest) val s) !! k = MustMap s !! k.
Proof.
  intros Hne. rewrite MustMap_SetPath.
  destruct (setIn_insert b rest val (MustMap s)) as [x ->].
  apply lookup_insert_ne. congruence.
Qed.

(** A path that reads a string starts at a key the document has. *)
Lemma GetPath_Str_head b (rest : list string) s v :
  String_ (GetPath (b :: rest) s) = Some v -> is_Some (MustMap s !! b).
Proof.
  rewrite GetPath_cons.
  destruct s as [| | | | | | |mm];
    try (rewrite Get_no_map by reflexivity; rewrite GetPath_Nil; discriminate).
  unfold Get. cbn [Map_].
  destruct (mm !! b) as [x|] eqn:Hb; [intros _; exists x; exact Hb|].
  rewrite GetPath_Nil. discriminate.
Qed.

Lemma dom_SetPath_present b (rest : list string) (val : any) s :
  is_Some (MustMap s !! b) ->
  dom (MustMap (SetPath (b :: rest) val s)) = dom (MustMap s).
Proof.
  intros Hb. rewrite MustMap_SetPath.
  destruct (setIn_insert b rest val (MustMap s)) as [x ->].
  rewrite dom_insert_L. apply subseteq_union_1_L, singleton_subseteq_l.
  apply elem_of_dom. exact Hb.
Qed.

Lemma lookup_setFloatPath_ne k b (rest : list string) s :
  k <> b -> MustMap (setFloatPath (b :: rest) s) !! k = MustMap s !! k.
Proof.
  intros Hne. unfold setFloatPath.
  destruct (String_ _); [|reflexivity]. destruct (ParseFloat _); [|reflexivity].
  apply MustMap_SetPath_ne. exact Hne.
Qed.

Lemma lookup_setIntPath_ne k b (rest : list string) s :
  k <> b -> MustMap (setIntPath (b :: rest) s) !! k = MustMap s !! k.
Proof.
  intros Hne. unfold setIntPath.
  destruct (String_ _); [|reflexivity]. destruct (ParseInt _); [|reflexivity].
  apply MustMap_SetPath_ne. exact Hne.
Qed.

Lemma lookup_promoteScript_ne k s :
  k <> "script" -> MustMap (promoteScript s) !! k = MustMap s !! k.
Proof.
  intros Hne. unfold promoteScript.
  destruct (match String_ (GetPath ["script"] s) with
            | Some v => Some v
            | None => String_ (GetPath ["script"; "inline"] s)
            end); [|reflexivity].
  apply MustMap_SetPath_ne. exact Hne.
Qed.

Lemma dom_setFloatPath b (rest : list string) s :
  dom (MustMap (setFloatPath (b :: rest) s)) = dom (MustMap s).
Proof.
  unfold setFloatPath.
  destruct (String_ (GetPath (b :: rest) s)) as [v|] eqn:Hs; [|reflexivity].
  destruct (ParseFloat v); [|reflexivity].
  apply dom_SetPath_present. eapply GetPath_Str_head, Hs.
Qed.

Lemma dom_setIntPath b (rest : list string) s :
  dom (MustMap (setIntPath (b :: rest) s)) = dom (MustMap s).
Proof.
  unfold setIntPath.
  destruct (String_ (GetPath (b :: rest) s)) as [v|] eqn:Hs; [|reflexivity].
  destruct (ParseInt v); [|reflexivity].
  apply dom_SetPath_present. eapply GetPath_Str_head, Hs.
Qed.

Lemma dom_promoteScript s :
  dom (MustMap (promoteScript s)) = dom (MustMap s).
Proof.
  unfold promoteScript.
  destruct (String_ (GetPath ["script"] s)) as [v|] eqn:Htop.
  - apply dom_SetPath_present. eapply GetPath_Str_head, Htop.
  - destruct (String_ (GetPath ["script"; "inline"] s)) as [v|] eqn:Hold;
      [|reflexivity].
    apply dom_SetPath_present. eapply GetPath_Str_head, Hold.
Qed.

(** X2. Normalising the settings of a metric leaves alone every key it
    is not meant for: any key other than window, predict, settings, lag
    and script, whatever the type; window, predict and settings unless the
    type is moving_avg; lag unless the type is serial_diff; script unless
    the type supports inline scripts. *)
Theorem metric_settings_frame m k :
  (k ∉ ["window"; "predict"; "settings"; "lag"; "script"] ->
   snd (MetricAgg_generateSettingsForDSL m) !! k
   = MustMap (MetricAgg.Settings m) !! k)
  /\ (MetricAgg.Type_ m <> "moving_avg" ->
      k ∈ ["window"; "predict"; "settings"] ->
      snd (MetricAgg_generateSettingsForDSL m) !! k
      = MustMap (MetricAgg.Settings m) !! k)
  /\ (MetricAgg.Type_ m <> "serial_diff" ->
      snd (MetricAgg_generateSettingsForDSL m) !! "lag"
      = MustMap (MetricAgg.Settings m) !! "lag")
  /\ (isMetricAggregationWithInlineScriptSupport (MetricAgg.Type_ m) = false ->
      snd (MetricAgg_generateSettingsForDSL m) !! "script"
      = MustMap (MetricAgg.Settings m) !! "script").
Proof.
  unfold MetricAgg_generateSettingsForDSL. cbn [snd].
  split; [|split; [|split]].
  - intros Hk.
    assert (k <> "window" /\ k <> "predict" /\ k <> "settings"
            /\ k <> "lag" /\ k <> "script") as (H1 & H2 & H3 & H4 & H5).
    { repeat split; intros ->; apply Hk; apply list_elem_of_In; cbn; tauto. }
    destruct (String.eqb (MetricAgg.Type_ m) "moving_avg");
      [|destruct (String.eqb (MetricAgg.Type_ m) "serial_diff")];
      destruct (isMetricAggregationWithInlineScriptSupport (MetricAgg.Type_ m));
      rewrite ?lookup_promoteScript_ne by assumption;
      rewrite ?lookup_setFloatPath_ne by assumption; reflexivity.
  - intros Hty Hk. apply String.eqb_neq in Hty. rewrite Hty.
    assert (k <> "lag" /\ k <> "script") as [H4 H5].
    { apply list_elem_of_In in Hk. cbn in Hk.
      split; intros ->; intuition discriminate. }
    destruct (String.eqb (MetricAgg.Type_ m) "serial_diff");
      destruct (isMetricAggregationWithInlineScriptSupport (MetricAgg.Type_ m));
      rewrite ?lookup_promoteScript_ne by assumption;
      rewrite ?lookup_setFloatPath_ne by assumption; reflexivity.
  - intros Hty. apply String.eqb_neq in Hty. rewrite Hty.
    destruct (String.eqb (MetricAgg.Type_ m) "moving_avg");
      destruct (isMetricAggregationWithInlineScriptSupport (MetricAgg.Type_ m));
      rewrite ?lookup_promoteScript_ne by discriminate;
      rewrite ?lookup_setFloatPath_ne by discriminate; reflexivity.
  - intros Hsc. rewrite Hsc.
    destruct (String.eqb (MetricAgg.Type_ m) "moving_avg");
      [|destruct (String.eqb (MetricAgg.Type_ m) "serial_diff")];
      rewrite ?lookup_setFloatPath_ne by discriminate; reflexivity.
Qed.

(** X3. Normalisation neither adds nor removes a top-level key: the map
    returned for a metric, and the one returned for a bucket aggregation,
    have the keys the settings had. *)
Theorem normalization_keeps_keys m (bucketAgg : BucketAgg.t) :
  dom (snd (MetricAgg_generateSettingsForDSL m))
  = dom (MustMap (MetricAgg.Settings m))
  /\ dom (snd (BucketAgg_generateSettingsForDSL bucketAgg))
     = dom (MustMap (BucketAgg.Settings bucketAgg)).
Proof.
  split.
  - unfold MetricAgg_generateSettingsForDSL. cbn [snd].
    destruct (String.eqb (MetricAgg.Type_ m) "moving_avg");
      [|destruct (String.eqb (MetricAgg.Type_ m) "serial_diff")];
      destruct (isMetricAggregationWithInlineScriptSupport (MetricAgg.Type_ m));
      rewrite ?dom_promoteScript; rewrite ?dom_setFloatPath; reflexivity.
  - unfold BucketAgg_generateSettingsForDSL. cbn [snd].
    apply dom_setIntPath.
Qed.

End SettingsMap.

Section SettingsValues.

Context `{Float} `{TypeTables}.
Implicit Types (s : any) (p q : list string) (k b : string)
  (m : MetricAgg.t).

Lemma String_inv s v : String_ s = Some v -> s = Str v.
Proof. destruct s; try discriminate. intros [= ->]. reflexivity. Qed.

Lemma setFloatPath_at p s v :
  String_ (GetPath p s) = Some v ->
  GetPath p (setFloatPath p s)
  = match ParseFloat v with
    | Some f => Float64 f
    | None => Str v
    end.
Proof.
  intros Hs. destruct (ParseFloat v) as [f|] eqn:Hv.
  - apply (setFloatPath_read p s v f); assumption.
  - rewrite (setFloatPath_keep p s v) by assumption.
    apply String_inv. exact Hs.
Qed.

Lemma promoteScript_lookup s :
  MustMap (promoteScript s) !! "script"
  = match String_ (GetPath ["script"] s) with
    | Some v => Some (Str v)
    | None =>
        match String_ (GetPath ["script"; "inline"] s) with
        | Some v => Some (Str v)
        | None => MustMap s !! "script"
        end
    end.
Proof.
  unfold promoteScript.
  destruct (String_ (GetPath ["script"] s)) as [v|].
  - rewrite MustMap_SetPath. cbn [setIn]. apply lookup_insert_eq.
  - destruct (String_ (GetPath ["script"; "inline"] s)) as [v|]; [|reflexivity].
    rewrite MustMap_SetPath. cbn [setIn]. apply lookup_insert_eq.
Qed.

(** X4. For a metric whose type supports inline scripts, the map returned
    holds under script: the script itself when the settings have it as a
    string; otherwise the string found under script.inline, promoted to
    the top; otherwise whatever the settings had there. *)
Theorem script_promoted m :
  isMetricAggregationWithInlineScriptSupport (MetricAgg.Type_ m) = true ->
  snd (MetricAgg_generateSettingsForDSL m) !! "script"
  = match String_ (GetPath ["script"] (MetricAgg.Settings m)) with
    | Some v => Some (Str v)
    | None =>
        match String_ (GetPath ["script"; "inline"] (MetricAgg.Settings m)) with
        | Some v => Some (Str v)
        | None => MustMap (MetricAgg.Settings m) !! "script"
        end
    end.
Proof.
  intros Hsc. unfold MetricAgg_generateSettingsForDSL. cbn [snd]. rewrite Hsc.
  rewrite promoteScript_lookup.
  destruct (String.eqb (MetricAgg.Type_ m) "moving_avg");
    [|destruct (String.eqb (MetricAgg.Type_ m) "serial_diff")];
    rewrite ?GetPath_setFloatPath_other by reflexivity;
    rewrite ?lookup_setFloatPath_ne by discriminate; reflexivity.
Qed.

(** X5. The numbers of a moving average (window, predict, and alpha, beta,
    gamma, period under settings) and the lag of a serial difference reach
    the returned map coerced: where the settings hold a string there, the
    map holds the float it denotes, or the same string if it denotes
    none. *)
Theorem numbers_coerced m p v :
  (MetricAgg.Type_ m = "moving_avg" /\ p ∈ movingAvgPaths)
  \/ (MetricAgg.Type_ m = "serial_diff" /\ p = ["lag"]) ->
  String_ (GetPath p (MetricAgg.Settings m)) = Some v ->
  GetPath p (NewFromAny (snd (MetricAgg_generateSettingsForDSL m)))
  = match ParseFloat v with
    | Some f => Float64 f
    | None => Str v
    end.
Proof.
  intros Hcase Hs.
  assert (Hp : p <> []).
  { destruct Hcase as [[_ Hp]|[_ ->]]; [|discriminate].
    intros ->. apply list_elem_of_In in Hp. cbn in Hp. intuition discriminate. }
  unfold NewFromAny. rewrite generateSettingsForDSL_snd.
  rewrite GetPath_MustMap by assumption.
  unfold normalized, MetricAgg_generateSettingsForDSL. cbn [fst].
  destruct Hcase as [[Hty Hin]|[Hty ->]].
  - rewrite Hty. cbn [String.eqb Ascii.eqb Bool.eqb].
    apply list_elem_of_In in Hin. cbn in Hin.
    destruct Hin as [<-|[<-|[<-|[<-|[<-|[<-|[]]]]]]];
      destruct (isMetricAggregationWithInlineScriptSupport "moving_avg");
      rewrite ?GetPath_promoteScript_other by reflexivity;
      rewrite ?GetPath_setFloatPath_other by reflexivity;
      (rewrite (setFloatPath_at _ _ v);
       [reflexivity
       |rewrite ?GetPath_setFloatPath_other by reflexivity; exact Hs]).
  - rewrite Hty. cbn [String.eqb Ascii.eqb Bool.eqb].
    destruct (isMetricAggregationWithInlineScriptSupport "serial_diff");
      rewrite ?GetPath_promoteScript_other by reflexivity;
      (rewrite (setFloatPath_at _ _ v); [reflexivity|exact Hs]).
Qed.

End SettingsValues.

(** ** What every node of a built request satisfies *)

Section WellFormed.

Context `{Float} `{TypeTables}.
Context {Request Response : Type} {client : Client Request Response}.
Variable Calculate : backend.TimeRange -> Z -> Z -> es.Interval.
Variables from to : Z.

Implicit Types (B : es.AggBuilder) (bucketAgg : BucketAgg.t) (m : MetricAgg.t)
  (metrics : list MetricAgg.t) (e : timeSeriesQuery) (q : Query.t)
  (ms : es.MultiSearchRequestBuilder) (result : backend.QueryDataResponse).

Lemma nodeOk_leaf key c : isBucket c = false -> nodeOk from to (key, c).
Proof.
  unfold isBucket, nodeOk. cbn [snd].
  destruct (es.Aggregation c); intros; try discriminate; exact I.
Qed.

Lemma termsSize_nonzero (s : any) : termsSize s <> 0.
Proof.
  unfold termsSize.
  match goal with |- (if ?n =? 0 then _ else _) <> 0 =>
    destruct (Z.eqb_spec n 0); [discriminate|assumption] end.
Qed.

Lemma addDateHistogramAgg_ok B bucketAgg timeField :
  Forall (nodeOk from to) (builderNodes B) ->
  Forall (nodeOk from to)
    (builderNodes (addDateHistogramAgg B bucketAgg from to timeField)).
Proof.
  intros HB. unfold addDateHistogramAgg, es.DateHistogram. cbv beta zeta.
  apply builderNodes_nest; [|apply builderNodes_new|exact HB].
  unfold nodeOk.
  cbn [snd es.Aggregation es.DateHistogramAgg.FixedInterval
       es.DateHistogramAgg.TimeZone es.DateHistogramAgg.ExtendedBounds].
  split; [|split; [|reflexivity]].
  - destruct (String.eqb_spec
                (MustString "auto" (Get "interval" (BucketAgg.Settings bucketAgg)))
                "auto"); [discriminate|assumption].
  - destruct (String_ (Get "timeZone" (BucketAgg.Settings bucketAgg)))
      as [timezone|]; [|discriminate].
    destruct (String.eqb_spec timezone "utc"); cbn [negb];
      [discriminate|assumption].
Qed.

Lemma addTermsAgg_ok B bucketAgg metrics :
  Forall (nodeOk from to) (builderNodes B) ->
  Forall (nodeOk from to) (builderNodes (addTermsAgg B bucketAgg metrics)).
Proof.
  intros HB. unfold addTermsAgg, es.Terms. cbv beta.
  destruct (String_ (Get "orderBy" (BucketAgg.Settings bucketAgg))) as [orderBy|];
    [destruct (0 <? _);
     [destruct (find _ metrics) as [m|];
      [destruct (String.eqb (MetricAgg.Type_ m) "count")|]|]|];
    cbv iota beta;
    (apply builderNodes_nest;
     [apply termsSize_nonzero| |exact HB]);
    try apply builderNodes_new.
  apply builderNodes_append; [exact I|apply builderNodes_new].
Qed.

Lemma addFiltersAgg_ok B bucketAgg :
  Forall (nodeOk from to) (builderNodes B) ->
  Forall (nodeOk from to) (builderNodes (addFiltersAgg B bucketAgg)).
Proof.
  intros HB. unfold addFiltersAgg.
  destruct (0 <? _) eqn:Hsize; [|exact HB].
  apply builderNodes_nest; [|apply builderNodes_new|exact HB].
  unfold nodeOk. cbn [snd es.Aggregation es.FiltersAggregation.Filters].
  intros Hempty. rewrite Hempty, map_size_empty in Hsize. discriminate.
Qed.

Lemma bucket_round_ok metrics timeField bucketAgg B :
  Forall (nodeOk from to) (builderNodes B) ->
  let type := BucketAgg.Type_ bucketAgg in
  Forall (nodeOk from to)
    (builderNodes
       (if String.eqb type dateHistType then
          addDateHistogramAgg B bucketAgg from to timeField
        else if String.eqb type histogramType then addHistogramAgg B bucketAgg
        else if String.eqb type filtersType then addFiltersAgg B bucketAgg
        else if String.eqb type termsType then addTermsAgg B bucketAgg metrics
        else if String.eqb type geohashGridType then addGeoHashGridAgg B bucketAgg
        else B)).
Proof.
  intros HB type.
  destruct (String.eqb type dateHistType); [apply addDateHistogramAgg_ok, HB|].
  destruct (String.eqb type histogramType).
  { apply builderNodes_nest; [exact I|apply builderNodes_new|exact HB]. }
  destruct (String.eqb type filtersType); [apply addFiltersAgg_ok, HB|].
  destruct (String.eqb type termsType); [apply addTermsAgg_ok, HB|].
  destruct (String.eqb type geohashGridType); [|exact HB].
  apply builderNodes_nest; [exact I|apply builderNodes_new|exact HB].
Qed.

Lemma bucketAggsLoop_ok metrics timeField (bucketAggs : list BucketAgg.t) B :
  Forall (nodeOk from to) (builderNodes B) ->
  Forall (nodeOk from to)
    (builderNodes (fst (bucketAggsLoop metrics from to timeField bucketAggs B))).
Proof.
  revert B. induction bucketAggs as [|bucketAgg rest IH]; intros B HB.
  - exact HB.
  - cbn [bucketAggsLoop].
    pose proof (bucket_round_ok metrics timeField (normalizeBucketAgg bucketAgg) B HB)
      as Hround.
    cbv zeta in Hround.
    match type of Hround with Forall _ (builderNodes ?B') => set (B1 := B') in * end.
    specialize (IH B1 Hround).
    destruct (bucketAggsLoop metrics from to timeField rest B1) as [B2 rest'].
    exact IH.
Qed.

Lemma attachMetric_ok metrics m B :
  Forall (nodeOk from to) (builderNodes B) ->
  Forall (nodeOk from to) (builderNodes (fst (attachMetric metrics m B))).
Proof.
  intros HB.
  assert (Hpipe : forall bucketPath,
             Forall (nodeOk from to)
               (builderNodes (fst (emitPipeline m bucketPath B)))).
  { intros bucketPath.
    destruct (emitPipeline_aggDefs m bucketPath B) as (Hdefs & Hsc & _).
    unfold builderNodes in *. rewrite Hdefs, Hsc, treeNodes_leaf.
    rewrite !Forall_app in *. rewrite Forall_singleton.
    split; [split; [apply HB|exact I]|apply HB]. }
  unfold attachMetric.
  destruct (String.eqb (MetricAgg.Type_ m) countType); [exact HB|].
  destruct (isPipelineAgg (MetricAgg.Type_ m)).
  - destruct (isPipelineAggWithMultipleBucketPaths (MetricAgg.Type_ m)).
    + destruct (0 <? _); [apply Hpipe|exact HB].
    + destruct (Atoi _); [|exact HB].
      destruct (appliedAgg _ _); [apply Hpipe|exact HB].
  - destruct (emitMetric_aggDefs m B) as (Hdefs & Hsc & _).
    unfold builderNodes in *. rewrite Hdefs, Hsc, treeNodes_leaf.
    rewrite !Forall_app in *. rewrite Forall_singleton.
    split; [split; [apply HB|exact I]|apply HB].
Qed.

Lemma metricsLoop_ok (done todo : list MetricAgg.t) B :
  Forall (nodeOk from to) (builderNodes B) ->
  Forall (nodeOk from to) (builderNodes (fst (metricsLoop done todo B))).
Proof.
  revert done B. induction todo as [|m rest IH]; intros done B HB.
  - exact HB.
  - cbn [metricsLoop].
    pose proof (attachMetric_ok (done ++ m :: rest) m B HB) as Hround.
    destruct (attachMetric (done ++ m :: rest) m B) as [B1 m'].
    apply IH, Hround.
Qed.

(** X6. Every node of the aggregation tree of a request the translator
    builds is well formed: a date histogram never carries the interval
    auto nor the time zone utc and is bounded by the time range of the
    request; a terms aggregation never has size 0; a filters aggregation
    never has an empty set of filters. *)
Theorem request_nodes_well_formed e q ms result q' ms' result' :
  processQuery Calculate e q ms from to result = Ok (q', ms', result') ->
  Forall (nodeOk from to) (treeNodes (lastAggs ms')).
Proof.
  unfold processQuery.
  destruct (GetMinInterval (Query.Interval q)) as [err|minInterval];
    [discriminate|].
  destruct e as [[|dq dqs]]; [discriminate|].
  cbn [lift mbind outcome_bind dataQueries index nth_error].
  destruct (Query.BucketAggs q) as [|bucketAgg rest] eqn:Hb.
  - cbn [length Nat.eqb].
    destruct (Query.Metrics q) as [|metric metrics].
    { intros [= _ <- _]. unfold lastAggs. rewrite last_snoc. constructor. }
    destruct (negb _).
    { intros [= _ <- _]. unfold lastAggs. rewrite last_snoc. constructor. }
    destruct (String.eqb (MetricAgg.Type_ metric) "logs").
    + cbn [app index nth_error mbind outcome_bind].
      intros [= _ <- _].
      erewrite lastAggs_snoc by reflexivity.
      apply Build_Forall, addDateHistogramAgg_ok, builderNodes_new.
    + intros [= _ <- _]. unfold lastAggs. rewrite last_snoc. constructor.
  - cbn [length Nat.eqb].
    pose proof (bucketAggsLoop_ok (Query.Metrics q) GetTimeField
                  (bucketAgg :: rest) es.newAggBuilder
                  (builderNodes_new _)) as HB1.
    destruct (bucketAggsLoop _ _ _ _ (bucketAgg :: rest) _) as [B1 bucketAggs'].
    cbn [fst] in HB1.
    pose proof (metricsLoop_ok [] (Query.Metrics q) B1 HB1) as HB2.
    destruct (metricsLoop [] (Query.Metrics q) B1) as [B2 metrics'].
    cbn [fst] in HB2.
    intros [= _ <- _].
    erewrite lastAggs_snoc by reflexivity.
    apply Build_Forall, HB2.
Qed.

End WellFormed.

(** ** Bucket settings on their way into the tree *)

Section BucketNodes.

Context `{Float} `{TypeTables}.
Implicit Types (B : es.AggBuilder) (bucketAgg : BucketAgg.t)
  (bucketAggs : list BucketAgg.t) (metrics : list MetricAgg.t) (s : any).

Lemma setIntPath_at (p : list string) s v :
  String_ (GetPath p s) = Some v ->
  GetPath p (setIntPath p s)
  = match ParseInt v with
    | Some n => Int64 n
    | None => Str v
    end.
Proof.
  intros Hs. unfold setIntPath. rewrite Hs.
  destruct (ParseInt v); [apply GetPath_SetPath_any|].
  apply String_inv. exact Hs.
Qed.

Lemma normalized_min_doc_count bucketAgg v :
  String_ (Get "min_doc_count" (BucketAgg.Settings bucketAgg)) = Some v ->
  Get "min_doc_count" (BucketAgg.Settings (normalizeBucketAgg bucketAgg))
  = match ParseInt v with
    | Some n => Int64 n
    | None => Str v
    end.
Proof.
  intros Hs.
  unfold normalizeBucketAgg, BucketAgg_generateSettingsForDSL, NewFromAny.
  cbn [snd BucketAgg.setSettings BucketAgg.Settings].
  rewrite Get_MustMap.
  apply (setIntPath_at ["min_doc_count"] _ v). exact Hs.
Qed.

(** The loop handles the last bucket aggregation on the builder the
    others have left. *)
Lemma bucketAggsLoop_snoc metrics from to timeField bucketAggs bucketAgg B :
  fst (bucketAggsLoop metrics from to timeField (bucketAggs ++ [bucketAgg]) B)
  = fst (bucketAggsLoop metrics from to timeField [bucketAgg]
           (fst (bucketAggsLoop metrics from to timeField bucketAggs B))).
Proof.
  revert B. induction bucketAggs as [|b rest IH]; intros B; [reflexivity|].
  cbn [app]. cbn [bucketAggsLoop] in *.
  match goal with
  | |- fst (let '(_, _) := bucketAggsLoop _ _ _ _ _ ?B1 in _) = _ =>
      specialize (IH B1);
      destruct (bucketAggsLoop metrics from to timeField (rest ++ [bucketAgg]) B1);
      destruct (bucketAggsLoop metrics from to timeField rest B1)
  end.
  exact IH.
Qed.

(** X7. A min_doc_count given as a string reaches the node of the last
    date histogram, histogram or terms aggregation as the integer it
    denotes, whatever aggregations come before it; a string that denotes
    no integer counts as absent: 0 for the histograms, nothing for
    terms. *)
Theorem min_doc_count_coerced metrics from to timeField bucketAggs bucketAgg B v :
  BucketAgg.Type_ bucketAgg ∈ [dateHistType; histogramType; termsType] ->
  String_ (Get "min_doc_count" (BucketAgg.Settings bucketAgg)) = Some v ->
  exists a,
    innermost (fst (bucketAggsLoop metrics from to timeField
                      (bucketAggs ++ [bucketAgg]) B))
    = Some (BucketAgg.ID bucketAgg, a)
    /\ minDocCount a
       = match ParseInt v with
         | Some n => Some n
         | None =>
             if String.eqb (BucketAgg.Type_ bucketAgg) termsType then None
             else Some 0
         end.
Proof.
  intros Hty Hs. rewrite bucketAggsLoop_snoc.
  set (B1 := fst (bucketAggsLoop metrics from to timeField bucketAggs B)).
  clearbody B1. cbn [bucketAggsLoop fst].
  pose proof (normalized_min_doc_count bucketAgg v Hs) as Hget.
  change (BucketAgg.Type_ (normalizeBucketAgg bucketAgg))
    with (BucketAgg.Type_ bucketAgg).
  apply list_elem_of_In in Hty. cbn in Hty.
  destruct Hty as [Hty|[Hty|[Hty|[]]]]; rewrite <- Hty;
    cbn [String.eqb Ascii.eqb Bool.eqb dateHistType histogramType termsType
         filtersType].
  - unfold addDateHistogramAgg, es.DateHistogram. cbv beta zeta.
    eexists. split; [reflexivity|].
    cbn [minDocCount es.DateHistogramAgg.MinDocCount]. rewrite Hget.
    destruct (ParseInt v); reflexivity.
  - unfold addHistogramAgg, es.Histogram. cbv beta zeta.
    eexists. split; [reflexivity|].
    cbn [minDocCount es.HistogramAgg.MinDocCount]. rewrite Hget.
    destruct (ParseInt v); reflexivity.
  - unfold addTermsAgg, es.Terms. cbv beta. rewrite Hget.
    destruct (String_ (Get "orderBy" _)) as [orderBy|];
      [destruct (0 <? _);
       [destruct (find _ metrics) as [m|];
        [destruct (String.eqb (MetricAgg.Type_ m) "count")|]|]|];
      cbv iota beta;
      (eexists; split; [reflexivity|]);
      cbn [minDocCount es.TermsAggregation.MinDocCount];
      destruct (ParseInt v); reflexivity.
Qed.

End BucketNodes.

(** ** Ordering a terms aggregation *)

Section TermsOrder.

Context `{Float} `{TypeTables}.
Implicit Types (B : es.AggBuilder) (bucketAgg : BucketAgg.t)
  (metrics : list MetricAgg.t) (id suffix : string).

(** The regular expression finds the leading digits, all of them. *)
Lemma FindString_app id suffix :
  allDigits id = true -> startsWithDigit suffix = false ->
  metricIdRegex_FindString (id ++ suffix)%string = id.
Proof.
  intros Hid Hsuffix. induction id as [|c id IH].
  - destruct suffix as [|c suffix]; [reflexivity|].
    change (metricIdRegex_FindString (String c suffix) = "").
    cbn in *. destruct (digit c); [discriminate|reflexivity].
  - change (metricIdRegex_FindString (String c (id ++ suffix)%string)
            = String c id).
    cbn in *. destruct (digit c); [|discriminate].
    rewrite IH by assumption. reflexivity.
Qed.

Lemma length_positive id :
  (0 <? Z.of_nat (String.length id)) = negb (String.eqb id "").
Proof.
  destruct id as [|c id]; [reflexivity|].
  cbn [String.length String.eqb negb]. apply Z.ltb_lt. lia.
Qed.

(** [Terms] moves an order by the terms themselves to [_key] and leaves
    every other single order as it is. *)
Lemma renameTermOrder_empty : es.renameTermOrder ∅ = ∅.
Proof. reflexivity. Qed.

Lemma renameTermOrder_single (key : string) (order : any) :
  es.renameTermOrder (<[key := order]> ∅)
  = {[(if String.eqb key es.termsOrderTerm then "_key" else key) := order]}.
Proof.
  rewrite insert_empty. unfold es.renameTermOrder.
  destruct (String.eqb_spec key es.termsOrderTerm) as [->|Hne].
  - rewrite lookup_singleton_eq.
    apply map_eq. intros k.
    destruct (decide (k = es.termsOrderTerm)) as [->|Hk].
    + rewrite lookup_delete_eq, lookup_singleton_ne by discriminate.
      reflexivity.
    + rewrite lookup_delete_ne by congruence.
      destruct (decide (k = "_key")) as [->|Hk'].
      * rewrite lookup_insert_eq, lookup_singleton_eq. reflexivity.
      * rewrite lookup_insert_ne, !lookup_singleton_ne by congruence.
        reflexivity.
  - rewrite lookup_singleton_ne by assumption. reflexivity.
Qed.

Lemma digits_not_term id suffix :
  allDigits id = true -> id <> "" ->
  String.eqb (id ++ suffix)%string es.termsOrderTerm = false.
Proof.
  intros Hid Hne. destruct id as [|c id]; [contradiction|].
  apply String.eqb_neq. intros Heq.
  change (String c (id ++ suffix)%string = es.termsOrderTerm) in Heq.
  injection Heq as -> _. discriminate Hid.
Qed.

(** X8. How the node of a terms aggregation is ordered, for an orderBy
    made of leading digits [id] and a rest that begins with no digit:
    without digits, by the given key, where the builder turns _term into
    _key and leaves any other key as it is; by a metric ID no metric of
    the query carries, not at all; by the ID of a count metric, by _count;
    by the ID of any other metric, by the given key, and that metric is
    attached inside the terms aggregation, without settings. *)
Theorem terms_ordering B bucketAgg metrics id suffix :
  allDigits id = true -> startsWithDigit suffix = false ->
  String_ (Get "orderBy" (BucketAgg.Settings bucketAgg))
  = Some (id ++ suffix)%string ->
  let order :=
    Str (MustString "desc" (Get "order" (BucketAgg.Settings bucketAgg))) in
  let B' := addTermsAgg B bucketAgg metrics in
  exists a,
    innermost B' = Some (BucketAgg.ID bucketAgg, es.OfTerms a)
    /\ (es.TermsAggregation.Order a, es.aggDefs B')
       = if String.eqb id "" then
           ({[(if String.eqb suffix es.termsOrderTerm then "_key"
               else suffix) := order]}, [])
         else
           match appliedAgg id metrics with
           | None => (∅, [])
           | Some m =>
               if String.eqb (MetricAgg.Type_ m) countType
               then ({["_count" := order]}, [])
               else ({[(id ++ suffix)%string := order]},
                     [es.MkAgg (MetricAgg.ID m)
                        {| es.Type_ := MetricAgg.Type_ m;
                           es.Aggregation :=
                             es.OfMetric
                               (es.MetricAggregation.mk (MetricAgg.Type_ m)
                                  (MetricAgg.Field m) ∅) |} []])
           end.
Proof.
  intros Hid Hsuffix HorderBy order B'. subst B'.
  unfold addTermsAgg, es.Terms. cbv beta. rewrite HorderBy.
  rewrite FindString_app, length_positive by assumption.
  fold (appliedAgg id metrics).
  destruct (String.eqb_spec id "") as [->|Hne]; cbn [negb].
  - cbv iota beta. eexists. split; [reflexivity|].
    cbn [es.TermsAggregation.Order es.aggDefs es.nest es.newAggBuilder].
    rewrite renameTermOrder_single. reflexivity.
  - destruct (appliedAgg id metrics) as [m|].
    + destruct (String.eqb (MetricAgg.Type_ m) "count") eqn:Hc;
        unfold countType; rewrite Hc; cbv iota beta;
        (eexists; split; [reflexivity|]);
        cbn [es.TermsAggregation.Order es.aggDefs es.nest es.newAggBuilder
             es.Metric es.append app].
      * rewrite renameTermOrder_single. reflexivity.
      * rewrite renameTermOrder_single, digits_not_term by assumption.
        reflexivity.
    + cbv iota beta. eexists. split; [reflexivity|].
      cbn [es.TermsAggregation.Order es.aggDefs es.nest es.newAggBuilder].
      rewrite renameTermOrder_empty. reflexivity.
Qed.

End TermsOrder.

(** ** The filters of a filters aggregation *)

Section FiltersByLabel.

Implicit Types (settings filter : any) (label : string)
  (acc : gmap string es.QueryStringFilter).

Lemma collect_lookup (filters : list any) acc label :
  fold_left
    (fun filters filter =>
       <[filterLabel filter :=
           {| es.Query := filterQuery filter; es.AnalyzeWildcard := true |}]>
         filters)
    filters acc !! label
  = match last (List.filter
                  (fun filter => String.eqb (filterLabel filter) label)
                  filters) with
    | Some filter =>
        Some {| es.Query := filterQuery filter; es.AnalyzeWildcard := true |}
    | None => acc !! label
    end.
Proof.
  revert acc. induction filters as [|f filters IH]; intros acc; [reflexivity|].
  cbn [fold_left List.filter]. rewrite IH.
  destruct (String.eqb_spec (filterLabel f) label) as [Heq|Hne].
  - rewrite last_cons.
    destruct (last (List.filter _ filters)); [reflexivity|].
    rewrite Heq. apply lookup_insert_eq.
  - destruct (last (List.filter _ filters)); [reflexivity|].
    apply lookup_insert_ne. exact Hne.
Qed.

(** X9. The filters of a filters aggregation, by label: the label of a
    declared filter is its label setting, or its query when the label is
    empty or missing; where several declared filters have the same label
    the last one wins; every filter analyses wildcards. *)
Theorem filters_by_label settings label :
  collectFilters settings !! label
  = (fun filter =>
       {| es.Query := filterQuery filter; es.AnalyzeWildcard := true |})
    <$> last (List.filter
                (fun filter => String.eqb (filterLabel filter) label)
                (MustArray (Get "filters" settings))).
Proof.
  unfold collectFilters.
  etrans;
    [exact (collect_lookup (MustArray (Get "filters" settings)) ∅ label)|].
  destruct (last _); [reflexivity|]. apply lookup_empty.
Qed.

End FiltersByLabel.

(** ** The metric nodes of a request *)

Section MetricOrder.

Context `{Float} `{TypeTables}.
Context {Request Response : Type} {client : Client Request Response}.
Variable Calculate : backend.TimeRange -> Z -> Z -> es.Interval.

Implicit Types (B : es.AggBuilder) (bucketAgg : BucketAgg.t) (m : MetricAgg.t)
  (metrics : list MetricAgg.t) (e : timeSeriesQuery) (q : Query.t)
  (ms : es.MultiSearchRequestBuilder) (result : backend.QueryDataResponse).

Lemma added_keys metrics m :
  map aggKey (added metrics m)
  = if attaches metrics m then [MetricAgg.ID m] else [].
Proof.
  unfold added, attaches, attachMetric, resolve.
  assert (Hpipe : forall bucketPath,
             map aggKey
               (es.aggDefs (fst (emitPipeline m bucketPath es.newAggBuilder)))
             = [MetricAgg.ID m]).
  { intros bucketPath.
    destruct (emitPipeline_aggDefs m bucketPath es.newAggBuilder) as (-> & _).
    reflexivity. }
  destruct (String.eqb (MetricAgg.Type_ m) countType); [reflexivity|].
  cbn [negb andb].
  destruct (isPipelineAgg (MetricAgg.Type_ m)).
  - destruct (isPipelineAggWithMultipleBucketPaths (MetricAgg.Type_ m)).
    + destruct (0 <? _); [apply Hpipe|reflexivity].
    + destruct (Atoi _); [|reflexivity].
      destruct (appliedAgg _ _); [apply Hpipe|reflexivity].
  - destruct (emitMetric_aggDefs m es.newAggBuilder) as (-> & _).
    reflexivity.
Qed.

Lemma flat_added_keys metrics (l : list MetricAgg.t) :
  map aggKey (flat_map (added metrics) l)
  = map MetricAgg.ID (List.filter (attaches metrics) l).
Proof.
  induction l as [|m l IH]; [reflexivity|].
  cbn [flat_map List.filter]. rewrite map_app, added_keys, IH.
  destruct (attaches metrics m); reflexivity.
Qed.

(** The bucket loop leaves at most one definition in the innermost scope:
    the metric a terms aggregation is ordered by. *)
Lemma bucketAggsLoop_leaves metrics from to timeField
    (bucketAggs : list BucketAgg.t) B :
  (length (es.aggDefs B) <= 1)%nat ->
  (length (es.aggDefs
             (fst (bucketAggsLoop metrics from to timeField bucketAggs B)))
   <= 1)%nat.
Proof.
  revert B. induction bucketAggs as [|bucketAgg rest IH]; intros B HB.
  - exact HB.
  - cbn [bucketAggsLoop].
    match goal with
    | |- (length (es.aggDefs (fst (let '(_, _) :=
                                     bucketAggsLoop _ _ _ _ _ ?B1 in _))) <= 1)%nat =>
        assert (HB1 : (length (es.aggDefs B1) <= 1)%nat);
        [|specialize (IH B1 HB1);
          destruct (bucketAggsLoop metrics from to timeField rest B1);
          exact IH]
    end.
    destruct (String.eqb _ dateHistType); [cbn; lia|].
    destruct (String.eqb _ histogramType); [cbn; lia|].
    destruct (String.eqb _ filtersType).
    { rewrite addFiltersAgg_cases. destruct (negb _); [cbn; lia|exact HB]. }
    destruct (String.eqb _ termsType).
    { unfold addTermsAgg, es.Terms. cbv beta.
      destruct (String_ (Get "orderBy" _)) as [orderBy|];
        [destruct (0 <? _);
         [destruct (find _ metrics) as [m|];
          [destruct (String.eqb (MetricAgg.Type_ m) "count")|]|]|];
        cbv iota beta; cbn; lia. }
    destruct (String.eqb _ geohashGridType); [cbn; lia|exact HB].
Qed.

(** X10. In the request built for a query with bucket aggregations, the
    innermost level ends with one node per metric that attaches, keyed by
    the metric's ID, in the order the metrics are declared; before them it
    holds at most the one metric a terms aggregation is ordered by.  A
    metric attaches unless it is a count, a pipeline with multiple bucket
    paths and no variable, or a pipeline whose single reference resolves
    to no metric. *)
Theorem metric_nodes_in_order e q ms from to result q' ms' result' :
  Query.BucketAggs q <> [] ->
  processQuery Calculate e q ms from to result = Ok (q', ms', result') ->
  exists b B leaves,
    ms' = ms ++ [b]
    /\ es.SearchRequestBuilder.aggBuilders b = [B]
    /\ (length leaves <= 1)%nat
    /\ map aggKey (es.aggDefs B)
       = leaves
         ++ map MetricAgg.ID
              (List.filter (attaches (Query.Metrics q)) (Query.Metrics q)).
Proof.
  intros Hb. unfold processQuery.
  destruct (GetMinInterval (Query.Interval q)) as [err|minInterval];
    [discriminate|].
  destruct e as [[|dq dqs]]; [discriminate|].
  cbn [lift mbind outcome_bind dataQueries index nth_error].
  destruct (Query.BucketAggs q) as [|bucketAgg rest] eqn:Hq; [contradiction|].
  cbn [length Nat.eqb].
  pose proof (bucketAggsLoop_spec (Query.Metrics q) from to GetTimeField
                (bucketAgg :: rest) es.newAggBuilder shaped_new) as (Hs & _ & _).
  pose proof (bucketAggsLoop_leaves (Query.Metrics q) from to GetTimeField
                (bucketAgg :: rest) es.newAggBuilder) as Hleaves.
  destruct (bucketAggsLoop _ _ _ _ (bucketAgg :: rest) _) as [B1 bucketAggs'].
  cbn [fst] in Hs, Hleaves.
  pose proof (metricsLoop_added [] [] (Query.Metrics q) B1 Hs
                (sameButSettings_refl [])) as Hadd.
  destruct (metricsLoop [] (Query.Metrics q) B1) as [B2 metrics'].
  cbn [fst app] in Hadd.
  intros [= _ <- _].
  eexists _, B2, (map aggKey (es.aggDefs B1)).
  split; [reflexivity|]. split; [reflexivity|]. split.
  - rewrite length_map. apply Hleaves. cbn. lia.
  - rewrite Hadd, map_app, flat_added_keys. reflexivity.
Qed.

End MetricOrder.

(** ** The batch *)

Section Batch.

Context `{Float} `{TypeTables}.
Context {Request Response : Type} {client : Client Request Response}.
Variable Calculate : backend.TimeRange -> Z -> Z -> es.Interval.
Variable parseQuery : list backend.DataQuery -> error + list Query.t.
Variable parseResponse :
  Response -> list Query.t -> error + backend.QueryDataResponse.

Implicit Types (e : timeSeriesQuery) (q : Query.t) (queries : list Query.t)
  (ms : es.MultiSearchRequestBuilder) (result : backend.QueryDataResponse)
  (refID : string).

Lemma processQuery_request e q ms from to result q' ms' result' :
  processQuery Calculate e q ms from to result = Ok (q', ms', result') ->
  exists b,
    ms' = ms ++ [b]
    /\ requestFor Calculate e from to q b
    /\ Query.RefID q' = Query.RefID q.
Proof.
  unfold processQuery, requestFor.
  destruct (GetMinInterval (Query.Interval q)) as [err|minInterval];
    [discriminate|].
  destruct e as [[|dq dqs]]; [discriminate|].
  cbn [lift mbind outcome_bind dataQueries index nth_error head].
  destruct (Query.BucketAggs q) as [|bucketAgg rest] eqn:Hb.
  - cbn [length Nat.eqb].
    destruct (Query.Metrics q) as [|metric metrics].
    { intros [= <- <- <-]. eexists. split; [reflexivity|].
      split; [exists minInterval, dq; repeat split|reflexivity]. }
    destruct (negb _).
    { intros [= <- <- <-]. eexists. split; [reflexivity|].
      split; [exists minInterval, dq; repeat split|reflexivity]. }
    destruct (String.eqb (MetricAgg.Type_ metric) "logs").
    + cbn [app index nth_error mbind outcome_bind].
      intros [= <- <- <-]. eexists. split; [reflexivity|].
      split; [exists minInterval, dq; repeat split|reflexivity].
    + intros [= <- <- <-]. eexists. split; [reflexivity|].
      split; [exists minInterval, dq; repeat split|reflexivity].
  - cbn [length Nat.eqb].
    destruct (bucketAggsLoop _ _ _ _ (bucketAgg :: rest) _) as [B1 bucketAggs'].
    destruct (metricsLoop [] (Query.Metrics q) B1) as [B2 metrics'].
    intros [= <- <- <-]. eexists. split; [reflexivity|].
    split; [exists minInterval, dq; repeat split|reflexivity].
Qed.

Lemma processQuery_result e q ms from to result q' ms' result' :
  processQuery Calculate e q ms from to result = Ok (q', ms', result') ->
  backend.Responses result'
  = if invalid q
    then <[Query.RefID q := invalidQuery]> (backend.Responses result)
    else backend.Responses result.
Proof.
  intros Hrun.
  pose proof (processQuery_outcome Calculate e q ms from to result) as Hout.
  destruct (GetMinInterval (Query.Interval q)); [congruence|].
  destruct (dataQueries e); [congruence|].
  destruct Hout as (q1 & b & Heq & _).
  rewrite Heq in Hrun. injection Hrun as _ _ <-.
  unfold invalid. destruct (_ && _); reflexivity.
Qed.

(** X11. The loop over the queries adds exactly one request per query to
    the batch, in the order of the queries and behind the requests already
    there; each request carries the interval calculated for its query, a
    filter on the time range and, unless the query string of its query is
    blank, a filter on that query string, and no other filter; and every
    query keeps its reference ID. *)
Theorem one_request_per_query e queries ms from to result queries' ms' result' :
  processQueries Calculate e queries ms from to result
  = Ok (queries', ms', result') ->
  exists new,
    ms' = ms ++ new
    /\ Forall2 (requestFor Calculate e from to) queries new
    /\ map Query.RefID queries' = map Query.RefID queries.
Proof.
  revert ms result queries' ms' result'.
  induction queries as [|q rest IH]; intros ms result queries' ms' result'.
  - intros [= <- <- <-]. exists []. rewrite app_nil_r.
    split; [reflexivity|]. split; [constructor|reflexivity].
  - cbn [processQueries].
    destruct (processQuery Calculate e q ms from to result)
      as [[[q1 ms1] result1]| |] eqn:Hq; try discriminate.
    cbn [mbind outcome_bind].
    destruct (processQueries Calculate e rest ms1 from to result1)
      as [[[rest' ms2] result2]| |] eqn:Hrest; try discriminate.
    cbn [mbind outcome_bind]. intros [= <- <- <-].
    destruct (processQuery_request _ _ _ _ _ _ _ _ _ Hq) as (b & -> & Hb & Hid).
    destruct (IH _ _ _ _ _ Hrest) as (new & -> & Hnew & Hids).
    exists (b :: new). rewrite <- app_assoc.
    split; [reflexivity|]. split; [constructor; assumption|].
    cbn [map]. rewrite Hid, Hids. reflexivity.
Qed.

(** X12. A query whose interval the client refuses aborts the batch: the
    loop over the queries, and with it [execute], returns the error of the
    first such query, whatever queries come after it. *)
Theorem first_refusal_aborts e (accepted : list Query.t) q queries err :
  dataQueries e <> [] ->
  Forall (fun q => exists minInterval,
              GetMinInterval (Query.Interval q) = inr minInterval) accepted ->
  GetMinInterval (Query.Interval q) = inl err ->
  (forall ms from to result,
     processQueries Calculate e (accepted ++ q :: queries) ms from to result
     = Err err)
  /\ (parseQuery (dataQueries e) = inr (accepted ++ q :: queries) ->
      execute Calculate parseQuery parseResponse e = Err err).
Proof.
  intros He Hacc Hq.
  assert (Hloop : forall ms from to result,
             processQueries Calculate e (accepted ++ q :: queries) ms from to result
             = Err err).
  { intros ms from to. revert ms.
    induction Hacc as [|a accepted [minInterval Ha] _ IH]; intros ms result.
    - cbn [app processQueries].
      pose proof (processQuery_outcome Calculate e q ms from to result) as Hout.
      rewrite Hq in Hout. rewrite Hout. reflexivity.
    - cbn [app processQueries].
      pose proof (processQuery_outcome Calculate e a ms from to result) as Hout.
      rewrite Ha in Hout.
      destruct (dataQueries e) as [|dq dqs]; [contradiction|].
      destruct Hout as (a' & b & -> & _).
      cbn [mbind outcome_bind]. rewrite IH. reflexivity. }
  split; [exact Hloop|].
  intros Hparse. unfold execute. rewrite Hparse.
  cbn [lift mbind outcome_bind].
  destruct (dataQueries e) as [|dq dqs] eqn:Hdq; [contradiction|].
  cbn [index nth_error mbind outcome_bind].
  rewrite Hloop. reflexivity.
Qed.

(** X13. The per-panel errors of a batch: after the loop over the
    queries, the responses hold the error for invalid queries under the
    reference ID of every query that has no bucket aggregation and is no
    document or logs query, and under every other reference ID what they
    held before. *)
Theorem invalid_panels_recorded e queries ms from to result queries' ms' result'
    refID :
  processQueries Calculate e queries ms from to result
  = Ok (queries', ms', result') ->
  backend.Responses result' !! refID
  = if bool_decide (refID ∈ map Query.RefID (List.filter invalid queries))
    then Some invalidQuery
    else backend.Responses result !! refID.
Proof.
  revert ms result queries' ms' result'.
  induction queries as [|q rest IH]; intros ms result queries' ms' result'.
  - intros [= <- <- <-]. cbn [List.filter map].
    rewrite bool_decide_eq_false_2; [reflexivity|]. apply not_elem_of_nil.
  - cbn [processQueries].
    destruct (processQuery Calculate e q ms from to result)
      as [[[q1 ms1] result1]| |] eqn:Hq; try discriminate.
    cbn [mbind outcome_bind].
    destruct (processQueries Calculate e rest ms1 from to result1)
      as [[[rest' ms2] result2]| |] eqn:Hrest; try discriminate.
    cbn [mbind outcome_bind]. intros [= <- <- <-].
    rewrite (IH _ _ _ _ _ Hrest), (processQuery_result _ _ _ _ _ _ _ _ _ Hq).
    cbn [List.filter]. destruct (invalid q); [|reflexivity].
    cbn [map].
    destruct (decide (refID ∈ map Query.RefID (List.filter invalid rest)))
      as [Hin|Hout].
    + rewrite !bool_decide_eq_true_2; [reflexivity|..]; [|assumption].
      apply elem_of_cons. right. assumption.
    + rewrite (bool_decide_eq_false_2 _ Hout).
      destruct (decide (refID = Query.RefID q)) as [->|Hne].
      * rewrite bool_decide_eq_true_2 by apply list_elem_of_here.
        apply lookup_insert_eq.
      * rewrite bool_decide_eq_false_2.
        -- apply lookup_insert_ne. congruence.
        -- intros [?|?]%elem_of_cons; contradiction.
Qed.

End Batch.

(** ** Document and logs queries *)

Section Documents.

Context `{Float} `{TypeTables}.
Context {Request Response : Type} {client : Client Request Response}.
Variable Calculate : backend.TimeRange -> Z -> Z -> es.Interval.

Implicit Types (e : timeSeriesQuery) (q : Query.t) (metric : MetricAgg.t)
  (ms : es.MultiSearchRequestBuilder) (result : backend.QueryDataResponse).

(** The settings of the date histogram of a logs query have nothing to
    normalise. *)
Lemma logs_bucket_normalized (timeField : string) :
  normalizeBucketAgg
    (BucketAgg.mk timeField "1" (NewFromAny {["interval" := Str "auto"]})
       dateHistType)
  = BucketAgg.mk timeField "1" (NewFromAny {["interval" := Str "auto"]})
      dateHistType.
Proof. vm_compute. reflexivity. Qed.

(** X14. A query without bucket aggregations whose first metric is
    raw_data, raw_document or logs gives a request sorted by time and then
    by _doc, both descending, that asks for the time field as a doc value.
    A document query takes its size from the size setting (500 by default)
    and has no aggregation.  A logs query takes its size from the limit
    setting (500 by default) whatever its size setting says, asks for
    highlighting, and gets one date histogram over the time field, keyed
    1, with the automatic interval and the bounds of the time range;
    neither records a per-panel error. *)
Theorem document_and_logs_requests e q ms from to result metric
    (rest : list MetricAgg.t) minInterval :
  Query.BucketAggs q = [] ->
  Query.Metrics q = metric :: rest ->
  MetricAgg.Type_ metric ∈ ["raw_data"; "raw_document"; "logs"] ->
  GetMinInterval (Query.Interval q) = inr minInterval ->
  dataQueries e <> [] ->
  exists q' b,
    processQuery Calculate e q ms from to result = Ok (q', ms ++ [b], result)
    /\ es.SearchRequestBuilder.sort b
       = [(GetTimeField, "boolean"); ("_doc", "")]
    /\ es.SearchRequestBuilder.docValueFields b = [GetTimeField]
    /\ if String.eqb (MetricAgg.Type_ metric) "logs" then
         es.SearchRequestBuilder.size b
         = MustInt 500 (Get "limit" (MetricAgg.Settings metric))
         /\ es.SearchRequestBuilder.highlight b = true
         /\ lastAggs (ms ++ [b])
            = [es.MkAgg "1"
                 {| es.Type_ := "date_histogram";
                    es.Aggregation :=
                      es.OfDateHistogram
                        (es.DateHistogramAgg.mk GetTimeField "$__interval_msms"
                           0 None
                           (Some {| es.Min := from; es.Max := to |})
                           "epoch_millis" "" "") |} []]
       else
         es.SearchRequestBuilder.size b
         = MustInt 500 (Get "size" (MetricAgg.Settings metric))
         /\ es.SearchRequestBuilder.highlight b = false
         /\ es.SearchRequestBuilder.aggBuilders b = []
         /\ q' = q.
Proof.
  intros Hb Hm Hty Hmin He. unfold processQuery. rewrite Hmin, Hb, Hm.
  destruct e as [[|dq dqs]]; [contradiction|].
  cbn [lift mbind outcome_bind dataQueries index nth_error length Nat.eqb].
  apply list_elem_of_In in Hty. cbn in Hty.
  destruct Hty as [Hty|[Hty|[Hty|[]]]]; rewrite <- Hty;
    cbn [String.eqb Ascii.eqb Bool.eqb negb orb app index nth_error
         mbind outcome_bind].
  - eexists _, _. split; [reflexivity|]. repeat split.
  - eexists _, _. split; [reflexivity|]. repeat split.
  - rewrite logs_bucket_normalized.
    eexists _, _. split; [reflexivity|]. repeat split.
    erewrite lastAggs_snoc by reflexivity.
    unfold addDateHistogramAgg.
    cbn [BucketAgg.Field BucketAgg.ID BucketAgg.Settings].
    destruct (String.eqb GetTimeField ""); vm_compute; reflexivity.
Qed.

End Documents.

(** ** Where the errors of [execute] come from *)

Section Execute.

Context `{Float} `{TypeTables}.
Context {Request Response : Type} {client : Client Request Response}.
Variable Calculate : backend.TimeRange -> Z -> Z -> es.Interval.
Variable parseQuery : list backend.DataQuery -> error + list Query.t.
Variable parseResponse :
  Response -> list Query.t -> error + backend.QueryDataResponse.

Implicit Types (e : timeSeriesQuery) (q : Query.t) (queries : list Query.t)
  (ms : es.MultiSearchRequestBuilder) (result : backend.QueryDataResponse).

Lemma processQueries_outcome e queries ms from to result :
  dataQueries e <> [] ->
  match processQueries Calculate e queries ms from to result with
  | Ok _ => True
  | Err err =>
      exists q, q ∈ queries /\ GetMinInterval (Query.Interval q) = inl err
  | Panic _ => False
  end.
Proof.
  intros He. revert ms result.
  induction queries as [|q rest IH]; intros ms result; [exact I|].
  cbn [processQueries].
  pose proof (processQuery_outcome Calculate e q ms from to result) as Hout.
  destruct (GetMinInterval (Query.Interval q)) as [err|minInterval] eqn:Hmin.
  { rewrite Hout. cbn [mbind outcome_bind].
    exists q. split; [apply list_elem_of_here|exact Hmin]. }
  destruct (dataQueries e) as [|dq dqs]; [contradiction|].
  destruct Hout as (q1 & b & -> & _).
  cbn [mbind outcome_bind].
  match goal with
  | |- context [processQueries Calculate e rest (ms ++ [b]) from to ?r] =>
      specialize (IH (ms ++ [b]) r);
      destruct (processQueries Calculate e rest (ms ++ [b]) from to r)
        as [[[rest' ms'] result']| |]
  end; cbn [mbind outcome_bind].
  - exact I.
  - destruct IH as (q0 & Hin & Hq0).
    exists q0. split; [apply list_elem_of_further, Hin|exact Hq0].
  - exact IH.
Qed.

(** X15. On a non-empty list of data queries [execute] has no failure of
    its own: it does not panic, every error it returns is the error of a
    collaborator (parsing the queries, the client refusing the interval of
    one of the parsed queries, building the batch, sending it, or parsing
    the response), and every response it returns is one the response
    parser has produced. *)
Theorem execute_errors e :
  dataQueries e <> [] ->
  match execute Calculate parseQuery parseResponse e with
  | Ok response =>
      exists res queries, parseResponse res queries = inr response
  | Err err =>
      parseQuery (dataQueries e) = inl err
      \/ (exists queries q,
             parseQuery (dataQueries e) = inr queries
             /\ q ∈ queries
             /\ GetMinInterval (Query.Interval q) = inl err)
      \/ (exists ms, BuildMultiSearch ms = inl err)
      \/ (exists req, ExecuteMultisearch req = inl err)
      \/ (exists res queries, parseResponse res queries = inl err)
  | Panic _ => False
  end.
Proof.
  intros He. unfold execute.
  destruct (parseQuery (dataQueries e)) as [err|queries] eqn:Hparse.
  { left. reflexivity. }
  cbn [lift mbind outcome_bind].
  destruct (dataQueries e) as [|dq dqs] eqn:Hdq; [contradiction|].
  cbn [index nth_error mbind outcome_bind].
  match goal with
  | |- context [processQueries Calculate e queries ?ms ?f ?t ?r] =>
      pose proof (processQueries_outcome e queries ms f t r) as Hloop;
      destruct (processQueries Calculate e queries ms f t r)
        as [[[queries' ms'] result']| |]
  end; cbn [mbind outcome_bind].
  - destruct (BuildMultiSearch ms') as [err|req] eqn:Hbuild.
    { right. right. left. exists ms'. exact Hbuild. }
    cbn [lift mbind outcome_bind].
    destruct (ExecuteMultisearch req) as [err|res] eqn:Hsend.
    { right. right. right. left. exists req. exact Hsend. }
    cbn [lift mbind outcome_bind].
    destruct (parseResponse res queries') as [err|response] eqn:Hres.
    + right. right. right. right. exists res, queries'. exact Hres.
    + exists res, queries'. exact Hres.
  - destruct Hloop as (q & Hin & Hq); [rewrite Hdq; discriminate|].
    right. left. exists queries, q. repeat split; assumption.
  - apply Hloop. rewrite Hdq. discriminate.
Qed.

End Execute.

(** ** The further properties on sample inputs *)

Section OnCases.

#[local] Existing Instance Sample.tables.
#[local] Existing Instance Sample.float.
#[local] Existing Instance Sample.client.

(** X1 on a window given as the string 5. *)
Lemma path_coercions_witness :
  (String_ (GetPath ["window"] (MetricAgg.Settings Cases.movingAvgWindow))
   = Some "5"
   /\ ParseFloat "5" = Some (Sample.float_of_Z 5))
  /\ GetPath ["window"]
       (setFloatPath ["window"] (MetricAgg.Settings Cases.movingAvgWindow))
     = Float64 (Sample.float_of_Z 5).
Proof.
  split; [split; reflexivity|].
  apply (proj1 (path_coercions ["window"]
                  (MetricAgg.Settings Cases.movingAvgWindow)) "5");
    reflexivity.
Defined.

(** X2 on the lag of a moving average. *)
Lemma metric_settings_frame_witness :
  MetricAgg.Type_ Cases.movingAvgWindow <> "serial_diff"
  /\ snd (MetricAgg_generateSettingsForDSL Cases.movingAvgWindow) !! "lag"
     = MustMap (MetricAgg.Settings Cases.movingAvgWindow) !! "lag".
Proof.
  assert (Hty : MetricAgg.Type_ Cases.movingAvgWindow <> "serial_diff")
    by discriminate.
  split; [exact Hty|].
  apply (proj1 (proj2 (proj2 (metric_settings_frame Cases.movingAvgWindow "lag")))).
  exact Hty.
Defined.

(** X4 on a script in the old format. *)
Lemma script_promoted_witness :
  isMetricAggregationWithInlineScriptSupport (MetricAgg.Type_ Cases.scripted)
  = true
  /\ snd (MetricAgg_generateSettingsForDSL Cases.scripted) !! "script"
     = Some (Str "_value * 2").
Proof.
  assert (Hty : isMetricAggregationWithInlineScriptSupport
                  (MetricAgg.Type_ Cases.scripted) = true)
    by (vm_compute; reflexivity).
  split; [exact Hty|].
  exact (script_promoted Cases.scripted Hty).
Defined.

(** X5 on a window given as the string 5. *)
Lemma numbers_coerced_witness :
  (MetricAgg.Type_ Cases.movingAvgWindow = "moving_avg"
   /\ ["window"] ∈ movingAvgPaths)
  /\ String_ (GetPath ["window"] (MetricAgg.Settings Cases.movingAvgWindow))
     = Some "5"
  /\ GetPath ["window"]
       (NewFromAny (snd (MetricAgg_generateSettingsForDSL Cases.movingAvgWindow)))
     = Float64 (Sample.float_of_Z 5).
Proof.
  assert (Hcase : MetricAgg.Type_ Cases.movingAvgWindow = "moving_avg"
                  /\ ["window"] ∈ movingAvgPaths)
    by (split; [reflexivity|apply list_elem_of_here]).
  split; [exact Hcase|]. split; [reflexivity|].
  exact (numbers_coerced Cases.movingAvgWindow ["window"] "5"
           (or_introl Hcase) eq_refl).
Defined.

(** X6 on a date histogram with a terms aggregation inside. *)
Lemma request_nodes_well_formed_witness :
  exists q' ms' result',
    Sample.run Cases.orderedQuery = Ok (q', ms', result')
    /\ Forall (nodeOk 5 9) (treeNodes (lastAggs ms')).
Proof.
  destruct (Sample.run Cases.orderedQuery) as [[[q' ms'] result']| |] eqn:Hrun;
    [|vm_compute in Hrun; discriminate..].
  exists q', ms', result'. split; [reflexivity|].
  exact (request_nodes_well_formed Sample.Calculate 5 9 Sample.e
           Cases.orderedQuery [] Cases.noResponses q' ms' result' Hrun).
Defined.

(** X7 on a terms aggregation inside a date histogram. *)
Lemma min_doc_count_coerced_witness :
  (BucketAgg.Type_ Cases.termsByAvg ∈ [dateHistType; histogramType; termsType]
   /\ String_ (Get "min_doc_count" (BucketAgg.Settings Cases.termsByAvg))
      = Some "2")
  /\ exists a,
       innermost
         (fst (bucketAggsLoop [Sample.count1; Sample.avg5] 5 9 "@timestamp"
                 ([Sample.dateHistogram] ++ [Cases.termsByAvg])
                 es.newAggBuilder))
       = Some ("3", a)
       /\ minDocCount a = Some 2.
Proof.
  assert (Hty : BucketAgg.Type_ Cases.termsByAvg
                ∈ [dateHistType; histogramType; termsType])
    by (apply list_elem_of_In; cbn; tauto).
  split; [split; [exact Hty|reflexivity]|].
  exact (min_doc_count_coerced [Sample.count1; Sample.avg5] 5 9 "@timestamp"
           [Sample.dateHistogram] Cases.termsByAvg es.newAggBuilder "2"
           Hty eq_refl).
Defined.

(** X8 on a terms aggregation ordered by the terms themselves. *)
Lemma terms_ordering_witness :
  (allDigits "" = true /\ startsWithDigit "_term" = false
   /\ String_ (Get "orderBy" (BucketAgg.Settings Cases.termsByTerm))
      = Some "_term")
  /\ exists a,
       innermost (addTermsAgg es.newAggBuilder Cases.termsByTerm
                    [Sample.count1; Sample.avg5])
       = Some ("3", es.OfTerms a)
       /\ (es.TermsAggregation.Order a,
           es.aggDefs (addTermsAgg es.newAggBuilder Cases.termsByTerm
                         [Sample.count1; Sample.avg5]))
          = ({["_key" := Str "desc"]}, []).
Proof.
  split; [repeat split|].
  exact (terms_ordering es.newAggBuilder Cases.termsByTerm
           [Sample.count1; Sample.avg5] "" "_term" eq_refl eq_refl eq_refl).
Defined.

(** Ordered by an average, the terms aggregation holds the average. *)
Example terms_ordered_by_average :
  es.aggDefs (addTermsAgg es.newAggBuilder Cases.termsByAvg
                [Sample.count1; Sample.avg5])
  = [es.MkAgg "5"
       {| es.Type_ := "avg";
          es.Aggregation :=
            es.OfMetric (es.MetricAggregation.mk "avg" "value" ∅) |} []].
Proof. vm_compute. reflexivity. Qed.

(** X10 on a query with a count, a moving average of it and an
    average. *)
Lemma metric_nodes_in_order_witness :
  Query.BucketAggs Sample.histogramQuery <> []
  /\ exists q' ms' result',
       Sample.run Sample.histogramQuery = Ok (q', ms', result')
       /\ exists b B leaves,
            ms' = [] ++ [b]
            /\ es.SearchRequestBuilder.aggBuilders b = [B]
            /\ (length leaves <= 1)%nat
            /\ map aggKey (es.aggDefs B) = leaves ++ ["2"; "5"].
Proof.
  assert (Hb : Query.BucketAggs Sample.histogramQuery <> []) by discriminate.
  split; [exact Hb|].
  destruct (Sample.run Sample.histogramQuery) as [[[q' ms'] result']| |] eqn:Hrun;
    [|vm_compute in Hrun; discriminate..].
  exists q', ms', result'. split; [reflexivity|].
  exact (metric_nodes_in_order Sample.Calculate Sample.e Sample.histogramQuery
           [] 5 9 Cases.noResponses q' ms' result' Hb Hrun).
Defined.

(** X11 on a batch of three queries. *)
Lemma one_request_per_query_witness :
  exists queries' ms' result',
    processQueries Sample.Calculate Sample.e Cases.batch [] 5 9
      Cases.noResponses
    = Ok (queries', ms', result')
    /\ exists new,
         ms' = [] ++ new
         /\ Forall2 (requestFor Sample.Calculate Sample.e 5 9) Cases.batch new
         /\ map Query.RefID queries' = ["A"; "B"; "A"].
Proof.
  destruct (processQueries Sample.Calculate Sample.e Cases.batch [] 5 9
              Cases.noResponses)
    as [[[queries' ms'] result']| |] eqn:Hrun;
    [|vm_compute in Hrun; discriminate..].
  exists queries', ms', result'. split; [reflexivity|].
  exact (one_request_per_query Sample.Calculate Sample.e Cases.batch [] 5 9
           Cases.noResponses queries' ms' result' Hrun).
Defined.

(** A query string of white space only adds no filter. *)
Example blank_query_one_filter :
  match processQuery Sample.Calculate Sample.e
          (Query.mk "  " [] [] "" "A" 100) [] 5 9 Cases.noResponses with
  | Ok (_, ms', _) => map es.SearchRequestBuilder.filters ms'
  | _ => []
  end
  = [[es.RangeFilter "@timestamp" 9 5 "epoch_millis"]].
Proof. vm_compute. reflexivity. Qed.

(** X12 on a batch whose second query has an interval the client
    refuses. *)
Lemma first_refusal_aborts_witness :
  (dataQueries Sample.e <> []
   /\ Forall (fun q => exists minInterval,
                 GetMinInterval (Query.Interval q) = inr minInterval)
        [Sample.histogramQuery]
   /\ GetMinInterval (Query.Interval Sample.refusedQuery)
      = inl "time: invalid duration zz")
  /\ processQueries Sample.Calculate Sample.e Cases.refusedBatch [] 5 9
       Cases.noResponses
     = Err "time: invalid duration zz"
  /\ execute Sample.Calculate (fun _ => inr Cases.refusedBatch)
       Sample.parseResponse Sample.e
     = Err "time: invalid duration zz".
Proof.
  assert (He : dataQueries Sample.e <> []) by discriminate.
  assert (Hacc : Forall (fun q => exists minInterval,
                            GetMinInterval (Query.Interval q) = inr minInterval)
                   [Sample.histogramQuery])
    by (constructor; [eexists; reflexivity|constructor]).
  assert (Hq : GetMinInterval (Query.Interval Sample.refusedQuery)
               = inl "time: invalid duration zz") by reflexivity.
  split; [auto|].
  pose proof (first_refusal_aborts Sample.Calculate
                (fun _ => inr Cases.refusedBatch) Sample.parseResponse
                Sample.e [Sample.histogramQuery] Sample.refusedQuery
                [Sample.logsQuery] "time: invalid duration zz" He Hacc Hq)
    as [Hloop Hexec].
  split; [apply Hloop|apply Hexec; reflexivity].
Defined.

(** X13 on a batch of three queries, the second of which is invalid. *)
Lemma invalid_panels_recorded_witness :
  exists queries' ms' result',
    processQueries Sample.Calculate Sample.e Cases.batch [] 5 9
      Cases.noResponses
    = Ok (queries', ms', result')
    /\ backend.Responses result' !! "B" = Some invalidQuery
    /\ backend.Responses result' !! "A" = None.
Proof.
  destruct (processQueries Sample.Calculate Sample.e Cases.batch [] 5 9
              Cases.noResponses)
    as [[[queries' ms'] result']| |] eqn:Hrun;
    [|vm_compute in Hrun; discriminate..].
  exists queries', ms', result'. split; [reflexivity|].
  split.
  - exact (invalid_panels_recorded Sample.Calculate Sample.e Cases.batch [] 5 9
             Cases.noResponses queries' ms' result' "B" Hrun).
  - exact (invalid_panels_recorded Sample.Calculate Sample.e Cases.batch [] 5 9
             Cases.noResponses queries' ms' result' "A" Hrun).
Defined.

(** X14 on a document query. *)
Lemma document_and_logs_requests_witness :
  (Query.BucketAggs Cases.documentQuery = []
   /\ Query.Metrics Cases.documentQuery = [Sample.metric "1" "raw_document"]
   /\ GetMinInterval (Query.Interval Cases.documentQuery) = inr 5000000000
   /\ dataQueries Sample.e <> [])
  /\ exists q' b,
       Sample.run Cases.documentQuery = Ok (q', [] ++ [b], Cases.noResponses)
       /\ es.SearchRequestBuilder.sort b
          = [("@timestamp", "boolean"); ("_doc", "")]
       /\ es.SearchRequestBuilder.docValueFields b = ["@timestamp"]
       /\ es.SearchRequestBuilder.size b = 500
       /\ es.SearchRequestBuilder.highlight b = false
       /\ es.SearchRequestBuilder.aggBuilders b = []
       /\ q' = Cases.documentQuery.
Proof.
  assert (He : dataQueries Sample.e <> []) by discriminate.
  assert (Hty : MetricAgg.Type_ (Sample.metric "1" "raw_document")
                ∈ ["raw_data"; "raw_document"; "logs"])
    by (apply list_elem_of_In; cbn; tauto).
  split; [repeat split; exact He|].
  exact (document_and_logs_requests Sample.Calculate Sample.e
           Cases.documentQuery [] 5 9 Cases.noResponses
           (Sample.metric "1" "raw_document") [] 5000000000
           eq_refl eq_refl Hty eq_refl He).
Defined.

(** X15 on the sample data query. *)
Lemma execute_errors_witness :
  dataQueries Sample.e <> []
  /\ exists res queries,
       Sample.parseResponse res queries = inr Cases.noResponses.
Proof.
  assert (He : dataQueries Sample.e <> []) by discriminate.
  split; [exact He|].
  exact (execute_errors Sample.Calculate Sample.parseQuery Sample.parseResponse
           Sample.e He).
Defined.

End OnCases.
